(** * Orbya social app: follow graph, posts with likes, and direct messaging

    A shallow embedding of the request handlers of the Orbya back end
    (Express routes over Mongoose models) together with the properties of
    its specification.

    Conventions of the embedding.
    - A collection is the list of its documents, in natural order.  An
      [ObjectId] is a natural number; a [Date] is a number of milliseconds.
    - A query by [_id] ([findById], [findByIdAndUpdate], [findByIdAndDelete],
      [save] of a loaded document) acts on the first document carrying the
      identifier; a [...Many] query acts on every matching document.
    - A handler is a function from the database to a reply and a database.
      An early [return res.status(..).json(..)] ends the handler with that
      reply; an exception (a schema validator that rejects a [save], a
      property read on [null]) is caught by the handler's [catch], which
      replies 500 and keeps the writes done so far.
    - The [auth] middleware is not part of the sources: its effect, the
      authenticated user's document in [req.user], is an input of a handler.
    - [save] runs the validators of the schema on the document, as
      Mongoose does before it writes.
    - Storage calls do not fail on their own, identifiers are well-formed,
      and Socket.IO emissions, which no property below mentions, are left
      out.
    - The four schemas set [timestamps: true].  Mongoose then maintains
      [createdAt] and [updatedAt]: [save] of a new document sets both to the
      time of the call; [save] of a loaded document sets [updatedAt] when a
      path of the document was modified; an update query
      ([findByIdAndUpdate], [updateMany]) sets [updatedAt] on every document
      it matches, whether its operators change the document or not.
      [updatedAt] is a field of the four models; [createdAt], written once
      and never again, is kept where a handler reads it.
    - The content of a message is measured by two validators that do not
      count alike, the route's [isLength] of validator.js and the schema's
      [maxlength]; it is modelled by its sequence of UTF-16 code units, on
      which both measures are defined.  Every other string is a [string],
      one character for one code unit. *)

From Stdlib Require Import List String Ascii Bool Arith ZArith Lia.
From Stdlib Require Import Permutation Sorted.
Import ListNotations.
Local Open Scope string_scope.
Local Open Scope list_scope.
Local Open Scope nat_scope.

Set Implicit Arguments.

(** ** Identifiers, dates and JavaScript truthiness *)

Definition ObjectId := nat.
Definition Date := nat.

(** [x ? a : b] and [!x] on a string that may be [null] or [undefined]:
    the empty string is falsy too. *)
Definition truthy (s : option string) : bool :=
  match s with
  | Some s' => negb (String.eqb s' "")
  | None => false
  end.

(** ** JavaScript strings that are measured

    A string as the sequence of its UTF-16 code units.  [units] is
    [String.prototype.length], which the [maxlength] validator of a schema
    compares with its bound.  [isLength_len] is the length that [isLength]
    of validator.js, behind [body(..).isLength(..)], compares with its
    bounds: [str.length] minus the number of code units FE0F and FE0E
    and the number of matches of [/[\uD800-\uDBFF][\uDC00-\uDFFF]/g]; validator.js is a
    dependency, not part of the sources. *)
Definition JsString := list N.

Definition js (s : string) : JsString := map N_of_ascii (list_ascii_of_string s).

Definition units (s : JsString) : nat := List.length s.

Definition isHighSurrogate (u : N) : bool := (55296 <=? u)%N && (u <=? 56319)%N.
Definition isLowSurrogate (u : N) : bool := (56320 <=? u)%N && (u <=? 57343)%N.
Definition isPresentationSelector (u : N) : bool := (u =? 65039)%N || (u =? 65038)%N.

Definition presentationSequences (s : JsString) : nat :=
  List.length (filter isPresentationSelector s).

Fixpoint surrogatePairs (s : JsString) : nat :=
  match s with
  | [] => 0
  | h :: t =>
      match t with
      | [] => 0
      | l :: r =>
          if isHighSurrogate h && isLowSurrogate l
          then S (surrogatePairs r)
          else surrogatePairs t
      end
  end.

Definition isLength_len (s : JsString) : nat :=
  units s - presentationSequences s - surrogatePairs s.

(** [x ? a : b] and [!x] on a measured string that may be [undefined]. *)
Definition truthy_text (s : option JsString) : bool :=
  match s with
  | Some (_ :: _) => true
  | _ => false
  end.

(** An update with the stamp that [timestamps: true] adds to it. *)
Definition stamped {A : Type} (touch : Date -> A -> A) (date : Date) (f : A -> A) : A -> A :=
  fun x => touch date (f x).

(** [Array.prototype.includes] on a Mongoose array of identifiers. *)
Definition includes (x : ObjectId) (l : list ObjectId) : bool :=
  existsb (Nat.eqb x) l.

(** The update operators [$addToSet] and [$pull] on an array of identifiers. *)
Definition addToSet (x : ObjectId) (l : list ObjectId) : list ObjectId :=
  if includes x l then l else l ++ [x].

Definition pull (x : ObjectId) (l : list ObjectId) : list ObjectId :=
  filter (fun y => negb (Nat.eqb y x)) l.

(** ** Collections *)

Section Collection.
Variable Doc : Type.
Variable id_of : Doc -> ObjectId.

Definition findOne (p : Doc -> bool) (c : list Doc) : option Doc := find p c.

Definition findById (i : ObjectId) (c : list Doc) : option Doc :=
  find (fun d => Nat.eqb (id_of d) i) c.

Fixpoint updateOne (p : Doc -> bool) (f : Doc -> Doc) (c : list Doc) : list Doc :=
  match c with
  | [] => []
  | d :: c' => if p d then f d :: c' else d :: updateOne p f c'
  end.

Fixpoint deleteOne (p : Doc -> bool) (c : list Doc) : list Doc :=
  match c with
  | [] => []
  | d :: c' => if p d then c' else d :: deleteOne p c'
  end.

Definition findByIdAndUpdate (i : ObjectId) (f : Doc -> Doc) (c : list Doc) : list Doc :=
  updateOne (fun d => Nat.eqb (id_of d) i) f c.

Definition findByIdAndDelete (i : ObjectId) (c : list Doc) : list Doc :=
  deleteOne (fun d => Nat.eqb (id_of d) i) c.

Definition updateMany (p : Doc -> bool) (f : Doc -> Doc) (c : list Doc) : list Doc :=
  map (fun d => if p d then f d else d) c.

Definition deleteMany (p : Doc -> bool) (c : list Doc) : list Doc :=
  filter (fun d => negb (p d)) c.

(** [doc.save()] of a document loaded from the collection writes it back
    under its identifier; of a new document, inserts it. *)
Definition saveLoaded (d : Doc) (c : list Doc) : list Doc :=
  findByIdAndUpdate (id_of d) (fun _ => d) c.

Definition saveNew (d : Doc) (c : list Doc) : list Doc := c ++ [d].

End Collection.

(** ** Models *)

(** models/User.js, the fields the handlers below read or write. *)
Module User.
Record t := mk {
  _id : ObjectId;
  username : string;
  profilePicture : option string;
  followers : list ObjectId;
  following : list ObjectId;
  updatedAt : Date
}.
Definition set_followers (f : list ObjectId -> list ObjectId) (u : t) : t :=
  mk (_id u) (username u) (profilePicture u) (f (followers u)) (following u) (updatedAt u).
Definition set_following (f : list ObjectId -> list ObjectId) (u : t) : t :=
  mk (_id u) (username u) (profilePicture u) (followers u) (f (following u)) (updatedAt u).
Definition touch (d : Date) (u : t) : t :=
  mk (_id u) (username u) (profilePicture u) (followers u) (following u) d.
End User.

(** The Post model.  Its compound unique index on [_id] and [likes.user]
    constrains nothing here: the uniqueness of an index is checked between
    documents, and [_id] alone is unique. *)
Module Like.
Record t := mk { user : ObjectId; createdAt : Date }.
End Like.

Module Post.
Record t := mk {
  _id : ObjectId;
  text : string;
  isRichText : bool;
  image : option string;
  author : ObjectId;
  likes : list Like.t;
  likesCount : Z;
  createdAt : Date;
  updatedAt : Date
}.
Definition set_likes (l : list Like.t) (p : t) : t :=
  mk (_id p) (text p) (isRichText p) (image p) (author p) l (likesCount p) (createdAt p)
     (updatedAt p).
Definition set_likesCount (n : Z) (p : t) : t :=
  mk (_id p) (text p) (isRichText p) (image p) (author p) (likes p) n (createdAt p)
     (updatedAt p).
Definition touch (d : Date) (p : t) : t :=
  mk (_id p) (text p) (isRichText p) (image p) (author p) (likes p) (likesCount p)
     (createdAt p) d.

(** Schema validators run by [save]: [text] is required (a required string
    is a non-empty one) and has [maxlength: 5000]. *)
Definition validate (p : t) : bool :=
  negb (String.eqb (text p) "") && (String.length (text p) <=? 5000).
End Post.

(** models/Conversation.js *)
Module Conversation.
Record t := mk {
  _id : ObjectId;
  participants : list ObjectId;
  lastMessage : option ObjectId;
  lastActivity : Date;
  updatedAt : Date
}.
Definition set_participants (f : list ObjectId -> list ObjectId) (c : t) : t :=
  mk (_id c) (f (participants c)) (lastMessage c) (lastActivity c) (updatedAt c).
Definition set_last (m : ObjectId) (d : Date) (c : t) : t :=
  mk (_id c) (participants c) (Some m) d (updatedAt c).
Definition touch (d : Date) (c : t) : t :=
  mk (_id c) (participants c) (lastMessage c) (lastActivity c) d.

(** [conversationSchema.statics.findConversation]: the [$all] operator
    selects a document whose array holds every listed value. *)
Definition findConversation (userId1 userId2 : ObjectId) (c : list t) : option t :=
  findOne (fun d => includes userId1 (participants d) && includes userId2 (participants d)) c.
End Conversation.

(** models/Message.js *)
Module Message.
Inductive type := text | image_.
Record t := mk {
  _id : ObjectId;
  conversation : ObjectId;
  sender : ObjectId;
  content : JsString;
  image : option string;
  messageType : type;
  isDeleted : bool;
  deletedAt : option Date;
  createdAt : Date;
  updatedAt : Date
}.
Definition set_deleted (d : Date) (m : t) : t :=
  mk (_id m) (conversation m) (sender m) (content m) (image m) (messageType m)
     true (Some d) (createdAt m) (updatedAt m).
Definition set_redacted (d : Date) (s : JsString) (m : t) : t :=
  mk (_id m) (conversation m) (sender m) s (image m) (messageType m)
     true (Some d) (createdAt m) (updatedAt m).
Definition touch (d : Date) (m : t) : t :=
  mk (_id m) (conversation m) (sender m) (content m) (image m) (messageType m)
     (isDeleted m) (deletedAt m) (createdAt m) d.

(** Schema validators run by [save]: [content] is required (a required
    string is a non-empty one) unless an image is attached, and has
    [maxlength: 1000], which compares [content.length]. *)
Definition validate (m : t) : bool :=
  (truthy (image m) || truthy_text (Some (content m)))
  && (units (content m) <=? 1000).
End Message.

(** ** The database *)

Record Db := mkDb {
  users : list User.t;
  posts : list Post.t;
  conversations : list Conversation.t;
  messages : list Message.t
}.

Definition with_users (f : list User.t -> list User.t) (db : Db) : Db :=
  mkDb (f (users db)) (posts db) (conversations db) (messages db).
Definition with_posts (f : list Post.t -> list Post.t) (db : Db) : Db :=
  mkDb (users db) (f (posts db)) (conversations db) (messages db).
Definition with_conversations (f : list Conversation.t -> list Conversation.t) (db : Db) : Db :=
  mkDb (users db) (posts db) (f (conversations db)) (messages db).
Definition with_messages (f : list Message.t -> list Message.t) (db : Db) : Db :=
  mkDb (users db) (posts db) (conversations db) (f (messages db)).

(** ** Follow gate (chat routes) *)

(** [checkMutualFollow]: both users must exist and each must list the other
    in its [following] array. *)
Definition checkMutualFollow (us : list User.t) (userId1 userId2 : ObjectId) : bool :=
  match findById User._id userId1 us, findById User._id userId2 us with
  | Some user1, Some user2 =>
      let user1FollowsUser2 := includes userId2 (User.following user1) in
      let user2FollowsUser1 := includes userId1 (User.following user2) in
      user1FollowsUser2 && user2FollowsUser1
  | _, _ => false
  end.

(** ** Requests and replies *)

(** What a handler reads from the request besides its parameters: the
    document of the authenticated user, which the [auth] middleware
    attaches as [req.user], the protocol and host used to build absolute
    URLs, the clock, and the identifier the driver gives to a document
    created by the handler. *)
Record Req := mkReq {
  req_user : User.t;
  protocol : string;
  host : string;
  now : Date;
  newId : ObjectId
}.

Record UserView := mkUserView {
  uv_id : ObjectId;
  uv_username : string;
  uv_profilePicture : option string
}.

Record FormattedMessage := mkFormatted {
  fm_id : ObjectId;
  fm_content : JsString;
  fm_image : option string;
  fm_messageType : Message.type;
  fm_sender : UserView;
  fm_createdAt : Date;
  fm_isOwn : bool
}.

Record LikeData := mkLikeData {
  ld_postId : ObjectId;
  ld_likesCount : Z;
  ld_hasLiked : bool;
  ld_recentLikes : list string;
  ld_by : string
}.

Inductive Body :=
| JMessage (message : string)
| JErrors (message : string) (errors : list string)
| JFollow (message : string) (isFollowing : bool)
| JConversation (conversationId : ObjectId) (participants : list UserView)
| JMessages (l : list FormattedMessage)
| JSent (m : FormattedMessage)
| JLike (message : string) (d : LikeData)
| JRedirect (message redirectTo : string).

Record Response := json { status : nat; body : Body }.

(** ** Handlers *)

Inductive Step (A : Type) :=
| Continue (a : A)
| Return (r : Response)
| Throw.
Arguments Continue {A} a.
Arguments Return {A} r.
Arguments Throw {A}.

Definition Handler (A : Type) := Db -> Step A * Db.

Definition ret {A} (a : A) : Handler A := fun db => (Continue a, db).

Definition bind {A B} (m : Handler A) (k : A -> Handler B) : Handler B :=
  fun db =>
    match m db with
    | (Continue a, db') => k a db'
    | (Return r, db') => (Return r, db')
    | (Throw, db') => (Throw, db')
    end.

Notation "x <- m ;; k" := (bind m (fun x => k))
  (at level 61, m at next level, right associativity).
Notation "m ;; k" := (bind m (fun _ => k))
  (at level 61, right associativity).

Definition reply {A} (r : Response) : Handler A := fun db => (Return r, db).
Definition throw {A} : Handler A := fun db => (Throw, db).
Definition gets {A} (f : Db -> A) : Handler A := fun db => (Continue (f db), db).
Definition modify (f : Db -> Db) : Handler unit := fun db => (Continue tt, f db).

Fixpoint forEach {A} (l : list A) (body : A -> Handler unit) : Handler unit :=
  match l with
  | [] => ret tt
  | x :: l' => body x ;; forEach l' body
  end.

(** [try { ... } catch (error) { res.status(500).json({ message }) }] *)
Definition route (message : string) (h : Handler Response) (db : Db) : Response * Db :=
  match h db with
  | (Continue r, db') => (r, db')
  | (Return r, db') => (r, db')
  | (Throw, db') => (json 500 (JMessage message), db')
  end.

(** [map] with a body that may read a property of [null]. *)
Fixpoint mapM {A B} (f : A -> option B) (l : list A) : option (list B) :=
  match l with
  | [] => Some []
  | x :: l' =>
      match f x, mapM f l' with
      | Some y, Some ys => Some (y :: ys)
      | _, _ => None
      end
  end.

Definition profileUrl (req : Req) (u : User.t) : option string :=
  if truthy (User.profilePicture u)
  then option_map (fun f => (protocol req ++ "://" ++ host req ++ "/uploads/profiles/" ++ f)%string)
                  (User.profilePicture u)
  else None.

Definition chatUrl (req : Req) (image : option string) : option string :=
  if truthy image
  then option_map (fun f => (protocol req ++ "://" ++ host req ++ "/uploads/chat/" ++ f)%string) image
  else None.

Definition userView (req : Req) (u : User.t) : UserView :=
  mkUserView (User._id u) (User.username u) (profileUrl req u).

(** [populate(path, ..)] of one reference: the referenced document, or
    [null] when there is none. *)
Definition populate (us : list User.t) (i : ObjectId) : option User.t :=
  findById User._id i us.

(** [populate] of an array of references drops the missing ones. *)
Definition populateMany (us : list User.t) (l : list ObjectId) : list User.t :=
  flat_map (fun i => match populate us i with Some u => [u] | None => [] end) l.

(** ** Chat routes *)

(** POST /conversation/:username *)
Definition post_conversation (req : Req) (username : string) : Db -> Response * Db :=
  let currentUserId := User._id (req_user req) in
  route "Error del servidor" (
    targetUser <- gets (fun db => findOne (fun u => String.eqb (User.username u) username) (users db)) ;;
    match targetUser with
    | None => reply (json 404 (JMessage "Usuario no encontrado"))
    | Some targetUser =>
      canChat <- gets (fun db => checkMutualFollow (users db) currentUserId (User._id targetUser)) ;;
      if negb canChat
      then reply (json 403 (JMessage "No pueden chatear. Deben seguirse mutuamente."))
      else
        found <- gets (fun db =>
          Conversation.findConversation currentUserId (User._id targetUser) (conversations db)) ;;
        conversation <-
          match found with
          | Some c => ret c
          | None =>
            let c := Conversation.mk (newId req) [currentUserId; User._id targetUser]
                                     None (now req) (now req) in
            modify (with_conversations (saveNew c)) ;;
            ret c
          end ;;
        people <- gets (fun db => populateMany (users db) (Conversation.participants conversation)) ;;
        ret (json 200 (JConversation (Conversation._id conversation) (map (userView req) people)))
    end).

(** The query of GET /conversation/:conversationId/messages: the messages
    of the conversation that are not soft-deleted, newest first.  The store
    does not say in which order it returns messages with the same
    [createdAt]; here they keep their natural order, and no property below
    depends on that choice. *)
Fixpoint insert_desc (m : Message.t) (l : list Message.t) : list Message.t :=
  match l with
  | [] => [m]
  | x :: l' =>
      if Message.createdAt x <=? Message.createdAt m
      then m :: l
      else x :: insert_desc m l'
  end.

Definition sort_desc (l : list Message.t) : list Message.t :=
  fold_right insert_desc [] l.

Definition visible (conversationId : ObjectId) (m : Message.t) : bool :=
  Nat.eqb (Message.conversation m) conversationId && negb (Message.isDeleted m).

(** [.limit(limit).skip(skip)]: the store skips first, then limits; a limit
    of 0 is no limit. *)
Definition limit_skip (limit skip : nat) (l : list Message.t) : list Message.t :=
  let l' := skipn skip l in
  if limit =? 0 then l' else firstn limit l'.

Definition findMessages (conversationId : ObjectId) (page limit : nat)
    (ms : list Message.t) : list Message.t :=
  limit_skip limit ((page - 1) * limit) (sort_desc (filter (visible conversationId) ms)).

Definition formatMessage (req : Req) (isOwn : User.t -> bool) (us : list User.t)
    (message : Message.t) : option FormattedMessage :=
  match populate us (Message.sender message) with
  | Some sender =>
      Some (mkFormatted (Message._id message) (Message.content message)
              (chatUrl req (Message.image message)) (Message.messageType message)
              (userView req sender) (Message.createdAt message) (isOwn sender))
  | None => None
  end.

(** GET /conversation/:conversationId/messages?page&limit.  A page of 0
    with a positive limit asks the store for a negative skip, which it
    rejects. *)
Definition get_messages (req : Req) (conversationId : ObjectId) (page limit : nat)
  : Db -> Response * Db :=
  let currentUserId := User._id (req_user req) in
  route "Error del servidor" (
    conversation <- gets (fun db => findById Conversation._id conversationId (conversations db)) ;;
    match conversation with
    | None => reply (json 403 (JMessage "No tienes acceso a esta conversación"))
    | Some conversation =>
      if negb (includes currentUserId (Conversation.participants conversation))
      then reply (json 403 (JMessage "No tienes acceso a esta conversación"))
      else if (page =? 0) && negb (limit =? 0) then throw
      else
        messages <- gets (fun db => findMessages conversationId page limit (messages db)) ;;
        formattedMessages <- gets (fun db =>
          mapM (formatMessage req (fun s => Nat.eqb (User._id s) currentUserId) (users db))
               (rev messages)) ;;
        match formattedMessages with
        | Some l => ret (json 200 (JMessages l))
        | None => throw
        end
    end).

(** The multipart form of POST /message: [conversationId] is [None] when
    the field is missing or empty, [file] is the name multer gave to the
    uploaded image. *)
Record MessageForm := mkForm {
  form_conversationId : option ObjectId;
  form_content : option JsString;
  form_file : option string
}.

(** [body('conversationId').notEmpty()] and
    [body('content').optional().isLength({ max: 1000 })]. *)
Definition validationResult (form : MessageForm) : list string :=
  (match form_conversationId form with
   | Some _ => []
   | None => ["ID de conversación requerido"]
   end) ++
  (match form_content form with
   | Some s => if isLength_len s <=? 1000 then [] else ["Mensaje muy largo"]
   | None => []
   end).

(** [message.save()] of a new message: the schema validators, then the
    insertion. *)
Definition Message_save_new (m : Message.t) : Handler unit :=
  if Message.validate m then modify (with_messages (saveNew m)) else throw.

(** [message.save()] of a loaded message; [modified] is what
    [isModified()] answers, and decides whether [updatedAt] is set. *)
Definition Message_save (date : Date) (modified : bool) (m : Message.t) : Handler unit :=
  if Message.validate m
  then modify (with_messages
                 (saveLoaded Message._id (if modified then Message.touch date m else m)))
  else throw.

(** Whether a stored date is the given one. *)
Definition date_is (d : Date) (o : option Date) : bool :=
  match o with
  | Some d' => Nat.eqb d' d
  | None => false
  end.

(** POST /message.  The body runs when [validationResult] is empty, which
    requires a [conversationId]. *)
Definition post_message (req : Req) (form : MessageForm) : Db -> Response * Db :=
  let currentUserId := User._id (req_user req) in
  route "Error del servidor" (
    match validationResult form, form_conversationId form with
    | [], Some conversationId =>
      let content := form_content form in
      let image := form_file form in
      if negb (truthy_text content) && negb (truthy image)
      then reply (json 400 (JMessage "Debe proporcionar contenido o imagen"))
      else
        conversation <- gets (fun db => findById Conversation._id conversationId (conversations db)) ;;
        match conversation with
        | None => reply (json 403 (JMessage "No tienes acceso a esta conversación"))
        | Some conversation =>
          if negb (includes currentUserId (Conversation.participants conversation))
          then reply (json 403 (JMessage "No tienes acceso a esta conversación"))
          else
            let otherParticipant :=
              find (fun p => negb (Nat.eqb p currentUserId)) (Conversation.participants conversation) in
            canChat <- gets (fun db =>
              match otherParticipant with
              | Some other => checkMutualFollow (users db) currentUserId other
              | None => false
              end) ;;
            if negb canChat
            then reply (json 403 (JMessage "Ya no pueden chatear. Verificar seguimiento mutuo."))
            else
              let message :=
                Message.mk (newId req) conversationId currentUserId
                  (match content with Some s => s | None => [] end)
                  image
                  (if truthy image then Message.image_ else Message.text)
                  false None (now req) (now req) in
              Message_save_new message ;;
              formatted <- gets (fun db => formatMessage req (fun _ => true) (users db) message) ;;
              modify (with_conversations
                (findByIdAndUpdate Conversation._id conversationId
                   (stamped Conversation.touch (now req)
                      (Conversation.set_last (Message._id message) (now req))))) ;;
              match formatted with
              | Some formattedMessage => ret (json 201 (JSent formattedMessage))
              | None => throw
              end
        end
    | errors, _ => reply (json 400 (JErrors "Datos de entrada no válidos" errors))
    end).

(** DELETE /message/:messageId.  Assigning to a path the value it has does
    not mark it as modified. *)
Definition delete_message (req : Req) (messageId : ObjectId) : Db -> Response * Db :=
  let currentUserId := User._id (req_user req) in
  route "Error del servidor" (
    message <- gets (fun db => findById Message._id messageId (messages db)) ;;
    match message with
    | None => reply (json 404 (JMessage "Mensaje no encontrado"))
    | Some message =>
      if negb (Nat.eqb (Message.sender message) currentUserId)
      then reply (json 403 (JMessage "Solo puedes eliminar tus propios mensajes"))
      else
        let modified :=
          negb (Message.isDeleted message) || negb (date_is (now req) (Message.deletedAt message)) in
        Message_save (now req) modified (Message.set_deleted (now req) message) ;;
        ret (json 200 (JMessage "Mensaje eliminado exitosamente"))
    end).

(** ** Posts and likes *)

(** A post loaded in memory, with what [isModified('likes')] and
    [isModified('likesCount')] answer; no handler assigns another path. *)
Record PostDoc := mkPostDoc {
  doc : Post.t;
  likesModified : bool;
  likesCountModified : bool
}.

Definition hydrate (p : Post.t) : PostDoc := mkPostDoc p false false.

(** [postSchema.methods.hasUserLiked]; [None] is a missing [userId]. *)
Definition hasUserLiked (userId : option ObjectId) (this : PostDoc) : bool :=
  match userId with
  | None => false
  | Some u => existsb (fun like => Nat.eqb (Like.user like) u) (Post.likes (doc this))
  end.

(** [postSchema.methods.addLike]: the returned boolean and the document
    after the call. *)
Definition addLike (userId : option ObjectId) (date : Date) (this : PostDoc) : bool * PostDoc :=
  match userId with
  | None => (false, this)
  | Some u =>
      match find (fun like => Nat.eqb (Like.user like) u) (Post.likes (doc this)) with
      | Some existingLike => (false, this)
      | None =>
          (true, mkPostDoc (Post.set_likes (Post.likes (doc this) ++ [Like.mk u date]) (doc this))
                           true (likesCountModified this))
      end
  end.

(** [postSchema.methods.removeLike]; assigning an array equal to the
    current one does not mark the path as modified. *)
Definition removeLike (userId : option ObjectId) (this : PostDoc) : bool * PostDoc :=
  match userId with
  | None => (false, this)
  | Some u =>
      let initialLength := List.length (Post.likes (doc this)) in
      let likes' := filter (fun like => negb (Nat.eqb (Like.user like) u)) (Post.likes (doc this)) in
      let removed := List.length likes' <? initialLength in
      (removed, mkPostDoc (Post.set_likes likes' (doc this)) (likesModified this || removed)
                          (likesCountModified this))
  end.

(** [postSchema.pre('save')]. *)
Definition pre_save (this : PostDoc) : Post.t :=
  if likesModified this
  then Post.set_likesCount (Z.of_nat (List.length (Post.likes (doc this)))) (doc this)
  else doc this.

(** [post.save()] of a loaded post: the stamp of a modified document (the
    hook of [timestamps] is registered with the schema, before the hook
    above, and sees the paths the handler assigned), the hook, the schema
    validators, the write; the document in memory afterwards. *)
Definition Post_save (date : Date) (this : PostDoc) : Handler PostDoc :=
  let p := pre_save this in
  if Post.validate p
  then
    let p := if likesModified this || likesCountModified this then Post.touch date p else p in
    modify (with_posts (saveLoaded Post._id p)) ;; ret (mkPostDoc p false false)
  else throw.

(** [post.likes.slice(-3).map(like => like.user.username).reverse()] after
    [populate('likes.user')]. *)
Definition recentLikes (us : list User.t) (p : Post.t) : option (list string) :=
  let likes := Post.likes p in
  option_map (@rev string)
    (mapM (fun like => option_map User.username (populate us (Like.user like)))
          (skipn (List.length likes - 3) likes)).

(** POST /:id/like *)
Definition post_like (req : Req) (postId : ObjectId) : Db -> Response * Db :=
  let userId := User._id (req_user req) in
  route "Error del servidor" (
    post <- gets (fun db => findById Post._id postId (posts db)) ;;
    match post with
    | None => reply (json 404 (JMessage "Post no encontrado"))
    | Some post =>
      let post := hydrate post in
      let hasAlreadyLiked := hasUserLiked (Some userId) post in
      if hasAlreadyLiked
      then reply (json 400 (JMessage "Ya has dado like a este post"))
      else
        let (likeAdded, post) := addLike (Some userId) (now req) post in
        if negb likeAdded
        then reply (json 400 (JMessage "No se pudo añadir el like"))
        else
          post <- Post_save (now req) post ;;
          names <- gets (fun db => recentLikes (users db) (doc post)) ;;
          match names with
          | Some names =>
              ret (json 200 (JLike "Like añadido exitosamente"
                     (mkLikeData (Post._id (doc post)) (Post.likesCount (doc post)) true names
                                 (User.username (req_user req)))))
          | None => throw
          end
    end).

(** DELETE /:id/like *)
Definition delete_like (req : Req) (postId : ObjectId) : Db -> Response * Db :=
  let userId := User._id (req_user req) in
  route "Error del servidor" (
    post <- gets (fun db => findById Post._id postId (posts db)) ;;
    match post with
    | None => reply (json 404 (JMessage "Post no encontrado"))
    | Some post =>
      let post := hydrate post in
      let hasLiked := hasUserLiked (Some userId) post in
      if negb hasLiked
      then reply (json 400 (JMessage "No has dado like a este post"))
      else
        let (likeRemoved, post) := removeLike (Some userId) post in
        if negb likeRemoved
        then reply (json 400 (JMessage "No se pudo quitar el like"))
        else
          post <- Post_save (now req) post ;;
          names <- gets (fun db => recentLikes (users db) (doc post)) ;;
          match names with
          | Some names =>
              ret (json 200 (JLike "Like removido exitosamente"
                     (mkLikeData (Post._id (doc post)) (Post.likesCount (doc post)) false names
                                 (User.username (req_user req)))))
          | None => throw
          end
    end).

(** ** Follow routes *)

(** POST /follow/:username *)
Definition post_follow (req : Req) (username : string) : Db -> Response * Db :=
  let currentUserId := User._id (req_user req) in
  route "Error del servidor" (
    userToFollow <- gets (fun db => findOne (fun u => String.eqb (User.username u) username) (users db)) ;;
    match userToFollow with
    | None => reply (json 404 (JMessage "Usuario no encontrado"))
    | Some userToFollow =>
      if Nat.eqb (User._id userToFollow) currentUserId
      then reply (json 400 (JMessage "No puedes seguirte a ti mismo"))
      else
        currentUser <- gets (fun db => findById User._id currentUserId (users db)) ;;
        match currentUser with
        | None => throw
        | Some currentUser =>
          if includes (User._id userToFollow) (User.following currentUser)
          then reply (json 400 (JMessage "Ya sigues a este usuario"))
          else
            modify (with_users (findByIdAndUpdate User._id currentUserId
                      (stamped User.touch (now req)
                         (User.set_following (addToSet (User._id userToFollow)))))) ;;
            modify (with_users (findByIdAndUpdate User._id (User._id userToFollow)
                      (stamped User.touch (now req)
                         (User.set_followers (addToSet currentUserId))))) ;;
            ret (json 200 (JFollow "Usuario seguido exitosamente" true))
        end
    end).

(** DELETE /unfollow/:username *)
Definition delete_unfollow (req : Req) (username : string) : Db -> Response * Db :=
  let currentUserId := User._id (req_user req) in
  route "Error del servidor" (
    userToUnfollow <- gets (fun db => findOne (fun u => String.eqb (User.username u) username) (users db)) ;;
    match userToUnfollow with
    | None => reply (json 404 (JMessage "Usuario no encontrado"))
    | Some userToUnfollow =>
      modify (with_users (findByIdAndUpdate User._id currentUserId
                (stamped User.touch (now req)
                   (User.set_following (pull (User._id userToUnfollow)))))) ;;
      modify (with_users (findByIdAndUpdate User._id (User._id userToUnfollow)
                (stamped User.touch (now req)
                   (User.set_followers (pull currentUserId))))) ;;
      ret (json 200 (JFollow "Dejaste de seguir al usuario" false))
    end).

(** ** Account deletion (routes/auth.js) *)

Definition likedBy (userId : ObjectId) (p : Post.t) : bool :=
  existsb (fun like => Nat.eqb (Like.user like) userId) (Post.likes p).

(** [{ 'likes.user': { $exists: true } }]: some element of [likes] has a
    [user] field, which every like has. *)
Definition hasLikes (p : Post.t) : bool :=
  existsb (fun _ => true) (Post.likes p).

(** The body of the loop over the conversations of the deleted user. *)
Definition teardown (req : Req) (userId : ObjectId) (conversation : Conversation.t)
  : Handler unit :=
  let cid := Conversation._id conversation in
  modify (with_messages
    (updateMany (fun m => Nat.eqb (Message.conversation m) cid && Nat.eqb (Message.sender m) userId)
                (stamped Message.touch (now req)
                   (Message.set_redacted (now req) (js "[Usuario eliminado]"))))) ;;
  if List.length (Conversation.participants conversation) =? 2
  then
    modify (with_messages (deleteMany (fun m => Nat.eqb (Message.conversation m) cid))) ;;
    modify (with_conversations (findByIdAndDelete Conversation._id cid))
  else
    modify (with_conversations
      (findByIdAndUpdate Conversation._id cid
         (stamped Conversation.touch (now req) (Conversation.set_participants (pull userId))))).


(** The body of the loop of step 3: [post.likesCount = post.likes.length;
    await post.save()]. *)
Definition recount (date : Date) (post : Post.t) : Handler unit :=
  let likesCount := Z.of_nat (List.length (Post.likes post)) in
  let post := mkPostDoc (Post.set_likesCount likesCount post)
                        false (negb (Z.eqb (Post.likesCount post) likesCount)) in
  Post_save date post ;; ret tt.

(** The post as the loop of step 3 writes it. *)
Definition recounted (date : Date) (post : Post.t) : Post.t :=
  let likesCount := Z.of_nat (List.length (Post.likes post)) in
  if Z.eqb (Post.likesCount post) likesCount
  then Post.set_likesCount likesCount post
  else Post.touch date (Post.set_likesCount likesCount post).

(** DELETE /delete-account.  The removal of the profile picture from the
    file system, step 6, is outside the database. *)
Definition delete_account (req : Req) : Db -> Response * Db :=
  let userId := User._id (req_user req) in
  route "Error del servidor al eliminar la cuenta" (
    (* 1 *)
    modify (with_posts (deleteMany (fun p => Nat.eqb (Post.author p) userId))) ;;
    (* 2 *)
    modify (with_posts (updateMany (likedBy userId)
      (stamped Post.touch (now req)
         (fun p => Post.set_likes
                     (filter (fun like => negb (Nat.eqb (Like.user like) userId)) (Post.likes p))
                     p)))) ;;
    (* 3 *)
    postsWithLikes <- gets (fun db => filter hasLikes (posts db)) ;;
    forEach postsWithLikes (recount (now req)) ;;
    (* 4 *)
    modify (with_users (updateMany (fun u => includes userId (User.followers u))
                                   (stamped User.touch (now req)
                                      (User.set_followers (pull userId))))) ;;
    modify (with_users (updateMany (fun u => includes userId (User.following u))
                                   (stamped User.touch (now req)
                                      (User.set_following (pull userId))))) ;;
    (* 5 *)
    userConversations <- gets (fun db =>
      filter (fun c => includes userId (Conversation.participants c)) (conversations db)) ;;
    forEach userConversations (teardown req userId) ;;
    (* 7 *)
    modify (with_users (findByIdAndDelete User._id userId)) ;;
    ret (json 200 (JRedirect "Cuenta eliminada exitosamente" "/login"))).

(** ** Invariants of the store *)

(** The follow relation is stored twice, as [following] on the follower and
    as [followers] on the followed user: B is in A's [following] exactly
    when A is in B's [followers]. *)
Definition follow_mirrored (us : list User.t) : Prop :=
  forall (a b : ObjectId) (ua ub : User.t),
    findById User._id a us = Some ua ->
    findById User._id b us = Some ub ->
    includes b (User.following ua) = includes a (User.followers ub).

(** Every message that the history of a conversation shows has a sender
    that is still stored. *)
Definition senders_resolve (db : Db) (conversationId : ObjectId) : Prop :=
  forall m : Message.t,
    In m (messages db) ->
    Message.conversation m = conversationId -> Message.isDeleted m = false ->
    findById User._id (Message.sender m) (users db) <> None.

(** Orders on messages by creation time. *)
Definition newer_first (x y : Message.t) : Prop :=
  Message.createdAt y <= Message.createdAt x.

Definition older_first (x y : Message.t) : Prop :=
  Message.createdAt x <= Message.createdAt y.

(** The denormalized counter of a post agrees with its likes. *)
Definition likes_counted (p : Post.t) : Prop :=
  Post.likesCount p = Z.of_nat (List.length (Post.likes p)).

(** [Conversation.find({ _id })] and [Message.find({ conversation })]. *)
Definition conversation_by_id (k : ObjectId) (db : Db) : list Conversation.t :=
  filter (fun c => Nat.eqb (Conversation._id c) k) (conversations db).

Definition messages_of (k : ObjectId) (db : Db) : list Message.t :=
  filter (fun m => Nat.eqb (Message.conversation m) k) (messages db).

(** What step 5 of the account deletion does to a message of a
    conversation that it keeps. *)
Definition redact (req : Req) (userId : ObjectId) (m : Message.t) : Message.t :=
  if Nat.eqb (Message.sender m) userId
  then Message.touch (now req) (Message.set_redacted (now req) (js "[Usuario eliminado]") m)
  else m.

(** Well-formed stores: identifiers are unique, the follow relation is
    mirrored, the stored posts and messages satisfy their schemas, the
    participants of a conversation are stored users, and a message that is
    not soft-deleted belongs to a stored conversation of which its sender
    is a participant. *)
Record Db_wf (db : Db) : Prop := mkWf {
  wf_user_ids : NoDup (map User._id (users db));
  wf_conversation_ids : NoDup (map Conversation._id (conversations db));
  wf_mirrored : follow_mirrored (users db);
  wf_posts : Forall (fun p => Post.validate p = true) (posts db);
  wf_messages : Forall (fun m => Message.validate m = true) (messages db);
  wf_participants :
    forall c p, In c (conversations db) -> In p (Conversation.participants c) ->
                findById User._id p (users db) <> None;
  wf_senders :
    forall m, In m (messages db) -> Message.isDeleted m = false ->
              exists c, In c (conversations db) /\
                        Conversation._id c = Message.conversation m /\
                        In (Message.sender m) (Conversation.participants c)
}.

(** One request served by one of the handlers above.  A conversation
    created by the request gets an identifier that no stored conversation
    has. *)
Inductive step : Db -> Db -> Prop :=
| step_conversation (req : Req) (username : string) (db : Db) :
    ~ In (newId req) (map Conversation._id (conversations db)) ->
    step db (snd (post_conversation req username db))
| step_history (req : Req) (conversationId : ObjectId) (page limit : nat) (db : Db) :
    step db (snd (get_messages req conversationId page limit db))
| step_send (req : Req) (form : MessageForm) (db : Db) :
    step db (snd (post_message req form db))
| step_delete_message (req : Req) (messageId : ObjectId) (db : Db) :
    step db (snd (delete_message req messageId db))
| step_like (req : Req) (postId : ObjectId) (db : Db) :
    step db (snd (post_like req postId db))
| step_unlike (req : Req) (postId : ObjectId) (db : Db) :
    step db (snd (delete_like req postId db))
| step_follow (req : Req) (username : string) (db : Db) :
    step db (snd (post_follow req username db))
| step_unfollow (req : Req) (username : string) (db : Db) :
    step db (snd (delete_unfollow req username db))
| step_delete_account (req : Req) (db : Db) :
    step db (snd (delete_account req db)).

Inductive steps (db : Db) : Db -> Prop :=
| steps_none : steps db db
| steps_more (db1 db2 : Db) : steps db db1 -> step db1 db2 -> steps db db2.

(** ** Sample data *)

Module Sample.
Definition alice : User.t := User.mk 1 "alice" None [2] [2] 5.
Definition bob : User.t := User.mk 2 "bob" None [1] [1] 5.
Definition carol : User.t := User.mk 3 "carol" None [] [] 3.
Definition dave : User.t := User.mk 4 "dave" None [] [] 4.
Definition people : list User.t := [alice; bob; carol; dave].

Definition request (u : User.t) : Req := mkReq u "https" "orbya.example" 1000 99.

(** A conversation with a third participant. *)
Definition group : Conversation.t := Conversation.mk 7 [1; 2; 3] None 0 0.

(** A conversation between alice and bob with three messages, the second
    of them soft-deleted. *)
Definition chat : Conversation.t := Conversation.mk 5 [1; 2] None 30 30.
Definition hi : Message.t :=
  Message.mk 11 5 1 (js "hi") None Message.text false None 10 10.
Definition oops : Message.t :=
  Message.mk 12 5 2 (js "oops") None Message.text true (Some 21) 20 21.
Definition hello : Message.t :=
  Message.mk 13 5 2 (js "hello") None Message.text false None 30 30.
Definition db : Db := mkDb people [] [chat] [hello; hi; oops].

(** carol and dave opened a conversation when they followed each other and
    no longer do; carol sends a text of 1000 characters. *)
Definition stale : Conversation.t := Conversation.mk 6 [3; 4] None 0 0.
Definition stale_db : Db := mkDb people [] [stale] [].
Definition thousand : JsString := repeat 97%N 1000.
Definition long_form : MessageForm := mkForm (Some 6) (Some thousand) None.

(** A post of bob that carol alone has liked. *)
Definition sunset : Post.t := Post.mk 21 "sunset" false None 2 [Like.mk 3 50] 1 40 50.
Definition liked_db : Db := mkDb people [sunset] [] [].

(** A post of bob that carol and alice have liked. *)
Definition sunrise : Post.t :=
  Post.mk 22 "sunrise" false None 2 [Like.mk 3 50; Like.mk 1 60] 2 41 60.
Definition liked_twice_db : Db := mkDb people [sunrise] [] [].

(** A conversation of three, with a message of each of alice and bob. *)
Definition trio_db : Db :=
  mkDb people [] [group; chat]
       [Message.mk 31 7 1 (js "a") None Message.text false None 1 1;
        Message.mk 32 7 2 (js "b") None Message.text false None 2 2;
        hi].

(** Forms sent by alice to her conversation with bob. *)
Definition empty_form : MessageForm := mkForm (Some 5) None None.
Definition form_1001 : MessageForm := mkForm (Some 5) (Some (97%N :: thousand)) None.
Definition form_1000 : MessageForm := mkForm (Some 5) (Some thousand) None.

(** Texts outside the Basic Multilingual Plane: a thousand times the
    character U+1F600, a surrogate pair each, and 999 letters followed by
    that character. *)
Definition grin : JsString := [55357%N; 56832%N].
Definition thousand_grins : JsString := flat_map (fun _ => grin) (seq 0 1000).
Definition letters_and_grin : JsString := repeat 97%N 999 ++ grin.
Definition form_grins : MessageForm := mkForm (Some 5) (Some thousand_grins) None.
Definition form_letters_and_grin : MessageForm :=
  mkForm (Some 5) (Some letters_and_grin) None.
End Sample.

(** ** Further routes *)

(** Sorting in descending order of a numeric key, stable: what
    [sort({ field: -1 })] and [Array.prototype.sort((a, b) => b - a)] do,
    the first up to the order it gives to equal keys. *)
Section SortBy.
Variable A : Type.
Variable key : A -> nat.

Fixpoint insert_by (a : A) (l : list A) : list A :=
  match l with
  | [] => [a]
  | x :: l' => if key x <=? key a then a :: l else x :: insert_by a l'
  end.

Definition sort_by (l : list A) : list A := fold_right insert_by [] l.

End SortBy.

(** The replies of the routes of this part. *)
Record Preview := mkPreview {
  pv_content : JsString;
  pv_messageType : Message.type;
  pv_createdAt : Date
}.

Record ConversationSummary := mkSummary {
  cs_id : ObjectId;
  cs_participant : UserView;
  cs_lastMessage : option Preview;
  cs_lastActivity : Date
}.

Record LikeView := mkLikeView {
  lv_user : UserView;
  lv_likedAt : Date
}.

Record PostView := mkPostView {
  pw_id : ObjectId;
  pw_text : string;
  pw_image : option string;
  pw_author : string;
  pw_authorProfilePicture : option string;
  pw_createdAt : Date;
  pw_isRichText : bool;
  pw_likesCount : Z;
  pw_hasLiked : bool;
  pw_recentLikes : list string
}.

Inductive View :=
| VError (message : string)
| VCanChat (canChat : bool) (reason : option string)
| VStatus (isFollowing : bool)
| VUsers (l : list UserView)
| VInbox (l : list ConversationSummary)
| VLikes (likes : list LikeView) (totalLikes : Z) (currentPage : nat) (hasMore : bool)
| VCreated (post : PostView).

Record Reply := answer { code : nat; view : View }.

(** GET /can-chat/:username *)
Definition get_can_chat (req : Req) (username : string) (db : Db) : Reply :=
  let currentUserId := User._id (req_user req) in
  match findOne (fun u => String.eqb (User.username u) username) (users db) with
  | None => answer 404 (VError "Usuario no encontrado")
  | Some targetUser =>
    if Nat.eqb (User._id targetUser) currentUserId
    then answer 200 (VCanChat false (Some "No puedes chatear contigo mismo"))
    else
      let canChat := checkMutualFollow (users db) currentUserId (User._id targetUser) in
      answer 200 (VCanChat canChat
        (if canChat then None else Some "Deben seguirse mutuamente para poder chatear"))
  end.

(** GET /conversations: the conversations of the requester, most recently
    active first, each with the other participant and a preview of its last
    message.  A conversation in which [populate] leaves no participant
    other than the requester makes the handler read [otherParticipant._id]
    on [undefined]. *)
Definition summary (req : Req) (db : Db) (conv : Conversation.t) : option ConversationSummary :=
  let currentUserId := User._id (req_user req) in
  let participants := populateMany (users db) (Conversation.participants conv) in
  match find (fun p => negb (Nat.eqb (User._id p) currentUserId)) participants with
  | None => None
  | Some otherParticipant =>
    let lastMessage :=
      match Conversation.lastMessage conv with
      | Some i => findById Message._id i (messages db)
      | None => None
      end in
    Some (mkSummary (Conversation._id conv) (userView req otherParticipant)
            (option_map (fun m => mkPreview (Message.content m) (Message.messageType m)
                                            (Message.createdAt m)) lastMessage)
            (Conversation.lastActivity conv))
  end.

Definition get_conversations (req : Req) (db : Db) : Reply :=
  let currentUserId := User._id (req_user req) in
  let conversations :=
    sort_by Conversation.lastActivity
      (filter (fun c => includes currentUserId (Conversation.participants c))
              (conversations db)) in
  match mapM (summary req db) conversations with
  | Some formattedConversations => answer 200 (VInbox formattedConversations)
  | None => answer 500 (VError "Error del servidor")
  end.

(** GET /status/:username *)
Definition get_status (req : Req) (username : string) (db : Db) : Reply :=
  let currentUserId := User._id (req_user req) in
  match findOne (fun u => String.eqb (User.username u) username) (users db) with
  | None => answer 404 (VError "Usuario no encontrado")
  | Some userToCheck =>
    match findById User._id currentUserId (users db) with
    | None => answer 500 (VError "Error del servidor")
    | Some currentUser =>
      answer 200 (VStatus (includes (User._id userToCheck) (User.following currentUser)))
    end
  end.

(** GET /followers/:username and GET /following/:username *)
Definition get_followers (req : Req) (username : string) (db : Db) : Reply :=
  match findOne (fun u => String.eqb (User.username u) username) (users db) with
  | None => answer 404 (VError "Usuario no encontrado")
  | Some user =>
    answer 200 (VUsers (map (userView req) (populateMany (users db) (User.followers user))))
  end.

Definition get_following (req : Req) (username : string) (db : Db) : Reply :=
  match findOne (fun u => String.eqb (User.username u) username) (users db) with
  | None => answer 404 (VError "Usuario no encontrado")
  | Some user =>
    answer 200 (VUsers (map (userView req) (populateMany (users db) (User.following user))))
  end.

(** DELETE /:id of the post routes: only the author deletes a post. *)
Definition delete_post (req : Req) (postId : ObjectId) : Db -> Response * Db :=
  route "Error del servidor" (
    post <- gets (fun db => findById Post._id postId (posts db)) ;;
    match post with
    | None => reply (json 404 (JMessage "Post no encontrado"))
    | Some post =>
      if negb (Nat.eqb (Post.author post) (User._id (req_user req)))
      then reply (json 403 (JMessage "No tienes permiso para eliminar este post"))
      else
        modify (with_posts (findByIdAndDelete Post._id postId)) ;;
        ret (json 200 (JMessage "Post eliminado exitosamente"))
    end).

(** GET /:id/likes?page&limit: the likes of a post, most recent first, by
    pages.  [slice(startIndex, endIndex)] with a page of 0 has a negative
    start and an end of 0, and is empty. *)
Definition get_likes (req : Req) (postId : ObjectId) (page limit : nat) (db : Db) : Reply :=
  match findById Post._id postId (posts db) with
  | None => answer 404 (VError "Post no encontrado")
  | Some post =>
    let sorted := sort_by Like.createdAt (Post.likes post) in
    let startIndex := (page - 1) * limit in
    let endIndex := if page =? 0 then 0 else startIndex + limit in
    let paginatedLikes :=
      if page =? 0 then [] else firstn limit (skipn startIndex sorted) in
    match mapM (fun like =>
                  option_map (fun u => mkLikeView (userView req u) (Like.createdAt like))
                             (populate (users db) (Like.user like)))
               paginatedLikes with
    | Some likesData =>
        answer 200 (VLikes likesData (Post.likesCount post) page
                           (endIndex <? List.length (Post.likes post)))
    | None => answer 500 (VError "Error del servidor")
    end
  end.

(** POST / of the post routes.  [String.prototype.trim] is a built-in of
    the language: it is a parameter of the handler, and the properties
    proved of the handler hold whatever it is.  [isRichText] is the text of
    the form field. *)
Section Publish.
Variable trim : string -> string.

Definition post_post (req : Req) (text isRichText file : option string) (db : Db)
  : Reply * Db :=
  match text with
  | None => (answer 400 (VError "El contenido es requerido"), db)
  | Some t =>
    if negb (truthy text) || String.eqb (trim t) ""
    then (answer 400 (VError "El contenido es requerido"), db)
    else
      let post :=
        Post.mk (newId req) (trim t)
          (match isRichText with Some s => String.eqb s "true" | None => false end)
          (option_map (fun f => ("/uploads/" ++ f)%string) file)
          (User._id (req_user req)) [] 0%Z (now req) (now req) in
      if Post.validate post
      then
        let db' := with_posts (saveNew post) db in
        match populate (users db') (Post.author post) with
        | Some author =>
            (answer 201 (VCreated
               (mkPostView (Post._id post) (Post.text post) (Post.image post)
                  (User.username author) (profileUrl req author) (Post.createdAt post)
                  (Post.isRichText post) 0%Z false [])), db')
        | None => (answer 500 (VError "Error del servidor"), db')
        end
      else (answer 500 (VError "Error del servidor"), db)
  end.

End Publish.

(** ** Documents built by the handlers *)

(** The message that POST /message builds from the form, for the
    conversation the form names. *)
Definition new_message (req : Req) (form : MessageForm) (conversationId : ObjectId)
  : Message.t :=
  Message.mk (newId req) conversationId (User._id (req_user req))
    (match form_content form with Some s => s | None => [] end)
    (form_file form)
    (if truthy (form_file form) then Message.image_ else Message.text)
    false None (now req) (now req).

(** The message as DELETE /message/:messageId writes it. *)
Definition soft_deleted (date : Date) (m : Message.t) : Message.t :=
  if negb (Message.isDeleted m) || negb (date_is date (Message.deletedAt m))
  then Message.touch date (Message.set_deleted date m)
  else Message.set_deleted date m.

(** A store with the sample users and nothing else. *)
Definition newcomers : Db := mkDb Sample.people [] [] [].


(** The post as POST /:id/like and DELETE /:id/like write it when the
    like is added or removed: the document after [addLike] or
    [removeLike], through the [pre('save')] hook and with the stamp of a
    modified document. *)
Definition liked (req : Req) (p : Post.t) : Post.t :=
  Post.touch (now req)
    (pre_save (snd (addLike (Some (User._id (req_user req))) (now req) (hydrate p)))).

Definition unliked (req : Req) (p : Post.t) : Post.t :=
  Post.touch (now req)
    (pre_save (snd (removeLike (Some (User._id (req_user req))) (hydrate p)))).


(** * Properties *)

(** C1. The mutual-follow gate is symmetric: [checkMutualFollow] gives the
    same boolean for (A, B) and for (B, A), on every user collection, and so
    in particular whenever both users are present in it. *)
Theorem checkMutualFollow_symmetric :
  forall (us : list User.t) (a b : ObjectId),
    checkMutualFollow us a b = checkMutualFollow us b a.
Proof.
  intros us a b. unfold checkMutualFollow.
  destruct (findById User._id a us) as [ua|], (findById User._id b us) as [ub|];
    cbn; auto using andb_comm.
Qed.

(** ** Facts on collections *)

Section CollectionFacts.
Variable Doc : Type.
Variable id_of : Doc -> ObjectId.

Lemma find_split (p : Doc -> bool) (c : list Doc) (d : Doc) :
  find p c = Some d ->
  exists l1 l2, c = l1 ++ d :: l2 /\ p d = true /\ Forall (fun x => p x = false) l1.
Proof.
  induction c as [|x c IH]; cbn; [discriminate|].
  destruct (p x) eqn:E; intros H.
  - injection H as <-. exists [], c. auto.
  - destruct (IH H) as (l1 & l2 & -> & Hd & Hl).
    exists (x :: l1), l2. auto.
Qed.

Lemma updateOne_split (p : Doc -> bool) (f : Doc -> Doc) (l1 l2 : list Doc) (d : Doc) :
  Forall (fun x => p x = false) l1 -> p d = true ->
  updateOne p f (l1 ++ d :: l2) = l1 ++ f d :: l2.
Proof.
  intros Hl Hd. induction Hl as [|x l1 Hx _ IH]; cbn.
  - now rewrite Hd.
  - now rewrite Hx, IH.
Qed.


Lemma findById_update (i a : ObjectId) (f : Doc -> Doc) (c : list Doc) :
  (forall d, id_of (f d) = id_of d) ->
  findById id_of a (findByIdAndUpdate id_of i f c) =
  if Nat.eqb a i then option_map f (findById id_of a c) else findById id_of a c.
Proof.
  intros Hf. unfold findById, findByIdAndUpdate.
  induction c as [|x c IH]; cbn.
  - now destruct (Nat.eqb a i).
  - destruct (Nat.eqb (id_of x) i) eqn:Exi; cbn.
    + rewrite Hf. destruct (Nat.eqb (id_of x) a) eqn:Exa.
      * apply Nat.eqb_eq in Exi, Exa. subst. now rewrite Nat.eqb_refl.
      * destruct (Nat.eqb a i) eqn:Eai; auto.
        apply Nat.eqb_eq in Exi, Eai. subst. now rewrite Nat.eqb_refl in Exa.
    + destruct (Nat.eqb (id_of x) a) eqn:Exa; auto.
      apply Nat.eqb_eq in Exa. subst. now rewrite Exi.
Qed.

Lemma findById_In (c : list Doc) (d : Doc) :
  In d c -> exists d', findById id_of (id_of d) c = Some d'.
Proof.
  intros H. unfold findById.
  destruct (find (fun x => Nat.eqb (id_of x) (id_of d)) c) eqn:E; eauto.
  apply (find_none _ _ E) in H. now rewrite Nat.eqb_refl in H.
Qed.

End CollectionFacts.

Lemma includes_In (x : ObjectId) (l : list ObjectId) :
  includes x l = true <-> In x l.
Proof.
  unfold includes. rewrite existsb_exists. split.
  - intros (y & Hy & E). apply Nat.eqb_eq in E. now subst.
  - intros H. exists x. now rewrite Nat.eqb_refl.
Qed.

Lemma pull_absent (x : ObjectId) (l : list ObjectId) :
  includes x l = false -> pull x l = l.
Proof.
  unfold pull, includes. induction l as [|y l IH]; cbn; auto.
  rewrite (Nat.eqb_sym x y). destruct (Nat.eqb y x); cbn; [discriminate|].
  intros H. now rewrite IH.
Qed.

(** ** Conversation creation *)

(** C3. When the authenticated user A and the user B named in the path are
    not mutual followers, POST /conversation/:username answers 403 and the
    database, hence the conversation collection, is left as it was. *)
Theorem post_conversation_not_mutual :
  forall (req : Req) (username : string) (db : Db) (targetUser : User.t),
    findOne (fun u => String.eqb (User.username u) username) (users db) = Some targetUser ->
    checkMutualFollow (users db) (User._id (req_user req)) (User._id targetUser) = false ->
    post_conversation req username db =
      (json 403 (JMessage "No pueden chatear. Deben seguirse mutuamente."), db).
Proof.
  intros req username db targetUser Hfind Hgate.
  unfold post_conversation, route, bind, gets.
  rewrite Hfind. cbn. rewrite Hgate. reflexivity.
Qed.

(** ** Likes *)

(** C6. When the authenticated user U already appears in the likes of the
    post P, POST /:id/like answers 400 with the message "Ya has dado like a
    este post" and the database -- P's likes and likesCount included --
    is left as it was. *)
Theorem post_like_twice :
  forall (req : Req) (postId : ObjectId) (db : Db) (p : Post.t),
    findById Post._id postId (posts db) = Some p ->
    In (User._id (req_user req)) (map Like.user (Post.likes p)) ->
    post_like req postId db = (json 400 (JMessage "Ya has dado like a este post"), db).
Proof.
  intros req postId db p Hfind Hin.
  unfold post_like, route, bind, gets. rewrite Hfind.
  assert (E : hasUserLiked (Some (User._id (req_user req))) (hydrate p) = true).
  { cbn. apply existsb_exists. apply in_map_iff in Hin as (l & Hl & Hin).
    exists l. split; auto. now apply Nat.eqb_eq. }
  now rewrite E.
Qed.

(** ** Message deletion *)

Lemma validate_set_deleted (d : Date) (m : Message.t) :
  Message.validate (Message.set_deleted d m) = Message.validate m.
Proof. reflexivity. Qed.

(** C8, as the code has it.  For a stored message M and a requester R:
    when R is not the sender of M, DELETE /message/:messageId answers 403
    and the database is left as it was; when R is the sender, and M
    satisfies its schema as every message of a well-formed store does
    ([wf_stored_message_valid]), it answers 200 and the message collection
    is the same sequence of records in which M alone is replaced by M with
    [isDeleted] set, [deletedAt] set to the time of the request and
    [updatedAt] set to the time of the request too, since [save] stamps a
    modified document (it is left as it was only when M was already
    deleted at that very time, and then the record does not change at
    all); every other field, [content] included, is the one M had. *)
Theorem delete_message_frame :
  forall (req : Req) (messageId : ObjectId) (db : Db) (m : Message.t),
    findById Message._id messageId (messages db) = Some m ->
    (Message.sender m <> User._id (req_user req) ->
       delete_message req messageId db =
         (json 403 (JMessage "Solo puedes eliminar tus propios mensajes"), db))
    /\
    (Message.sender m = User._id (req_user req) ->
     Message.validate m = true ->
       exists before after,
         messages db = before ++ m :: after /\
         delete_message req messageId db =
           (json 200 (JMessage "Mensaje eliminado exitosamente"),
            mkDb (users db) (posts db) (conversations db)
                 (before ++
                  Message.mk (Message._id m) (Message.conversation m) (Message.sender m)
                             (Message.content m) (Message.image m) (Message.messageType m)
                             true (Some (now req)) (Message.createdAt m)
                             (if Message.isDeleted m && date_is (now req) (Message.deletedAt m)
                              then Message.updatedAt m
                              else now req)
                  :: after))).
Proof.
  intros req messageId db m Hfind. split.
  - intros Hsender. unfold delete_message, route, bind, gets. rewrite Hfind.
    apply Nat.eqb_neq in Hsender. now rewrite Hsender.
  - intros Hsender Hvalid.
    destruct (find_split _ _ Hfind) as (l1 & l2 & Hsplit & Hid & Hl1).
    exists l1, l2. split; auto.
    unfold delete_message, route, bind, gets. rewrite Hfind.
    apply Nat.eqb_eq in Hsender. rewrite Hsender. cbn [negb].
    unfold Message_save. rewrite validate_set_deleted, Hvalid.
    unfold modify, ret, with_messages, saveLoaded, findByIdAndUpdate.
    rewrite <- negb_andb.
    replace (Message._id (if negb (Message.isDeleted m && date_is (now req) (Message.deletedAt m))
                          then Message.touch (now req) (Message.set_deleted (now req) m)
                          else Message.set_deleted (now req) m))
      with (Message._id m) by (now destruct (_ && _)).
    apply Nat.eqb_eq in Hid. subst messageId.
    rewrite Hsplit, updateOne_split; auto using Nat.eqb_refl.
    now destruct (_ && _).
Qed.

(** C8, the claim as it was stated: the deletion by the sender also sets
    [updatedAt], so that the stored record is not the former one with only
    [isDeleted] and [deletedAt] changed. *)
Lemma delete_message_frame_counterexample :
  findById Message._id 11 (messages Sample.db) = Some Sample.hi /\
  Message.sender Sample.hi = User._id (req_user (Sample.request Sample.alice)) /\
  exists m',
    findById Message._id 11
      (messages (snd (delete_message (Sample.request Sample.alice) 11 Sample.db))) = Some m' /\
    m' <> Message.mk 11 5 1 (js "hi") None Message.text true (Some 1000) 10
                     (Message.updatedAt Sample.hi) /\
    Message.updatedAt Sample.hi = 10 /\
    Message.updatedAt m' = 1000.
Proof.
  split; [reflexivity|]. split; [reflexivity|].
  eexists. split; [reflexivity|]. split; [discriminate|]. split; reflexivity.
Qed.

(** ** Follow and unfollow *)

Lemma with_users_same (f : list User.t -> list User.t) (db : Db) :
  f (users db) = users db -> with_users f db = db.
Proof. destruct db; unfold with_users; cbn. now intros ->. Qed.

Lemma set_following_same (f : list ObjectId -> list ObjectId) (u : User.t) :
  f (User.following u) = User.following u -> User.set_following f u = u.
Proof. destruct u; unfold User.set_following; cbn. now intros ->. Qed.

Lemma set_followers_same (f : list ObjectId -> list ObjectId) (u : User.t) :
  f (User.followers u) = User.followers u -> User.set_followers f u = u.
Proof. destruct u; unfold User.set_followers; cbn. now intros ->. Qed.

Lemma updateOne_agree (Doc : Type) (p : Doc -> bool) (f g : Doc -> Doc) (c : list Doc) :
  (forall d, find p c = Some d -> f d = g d) -> updateOne p f c = updateOne p g c.
Proof.
  induction c as [|x c IH]; cbn; intros H; [reflexivity|].
  destruct (p x) eqn:E.
  - now rewrite (H x eq_refl).
  - now rewrite IH.
Qed.

(** C10. Let R be the authenticated user and T the user named in the path,
    both stored.  When R already follows T, POST /follow/:username answers
    400 and the database is left as it was.  When R does not follow T, in
    a store whose follow relation is mirrored (a part of [Db_wf], kept by
    every handler, [step_wf]), DELETE /unfollow/:username answers 200 with
    its message of success, and the database is left as it was but for the
    [updatedAt] of the documents of R and T, which the two update queries
    set to the time of the request: the follower and following lists of
    both users, like every other field and document, are what they
    were. *)
Theorem follow_unfollow_asymmetric :
  forall (req : Req) (username : string) (db : Db) (target currentUser : User.t),
    findOne (fun u => String.eqb (User.username u) username) (users db) = Some target ->
    findById User._id (User._id (req_user req)) (users db) = Some currentUser ->
    (includes (User._id target) (User.following currentUser) = true ->
       exists message, post_follow req username db = (json 400 (JMessage message), db))
    /\
    (includes (User._id target) (User.following currentUser) = false ->
     follow_mirrored (users db) ->
       delete_unfollow req username db =
         (json 200 (JFollow "Dejaste de seguir al usuario" false),
          mkDb (findByIdAndUpdate User._id (User._id target) (User.touch (now req))
                  (findByIdAndUpdate User._id (User._id (req_user req)) (User.touch (now req))
                     (users db)))
               (posts db) (conversations db) (messages db))).
Proof.
  intros req username db target currentUser Hfind Hcur. split.
  - intros Hfol. unfold post_follow, route, bind, gets. rewrite Hfind.
    destruct (Nat.eqb (User._id target) (User._id (req_user req))); [now eexists|].
    rewrite Hcur, Hfol. now eexists.
  - intros Hfol Hmir.
    unfold delete_unfollow, route, bind, gets, modify. rewrite Hfind.
    unfold ret, with_users. cbn [fst snd users posts conversations messages].
    assert (E1 : findByIdAndUpdate User._id (User._id (req_user req))
                   (stamped User.touch (now req) (User.set_following (pull (User._id target))))
                   (users db) =
                 findByIdAndUpdate User._id (User._id (req_user req)) (User.touch (now req))
                   (users db)).
    { apply updateOne_agree. intros d Hd.
      fold (findById User._id (User._id (req_user req)) (users db)) in Hd.
      rewrite Hcur in Hd. injection Hd as <-. unfold stamped.
      now rewrite set_following_same by apply pull_absent, Hfol. }
    rewrite E1.
    set (us1 := findByIdAndUpdate User._id (User._id (req_user req)) (User.touch (now req))
                  (users db)).
    assert (E2 : findByIdAndUpdate User._id (User._id target)
                   (stamped User.touch (now req)
                      (User.set_followers (pull (User._id (req_user req))))) us1 =
                 findByIdAndUpdate User._id (User._id target) (User.touch (now req)) us1).
    { apply updateOne_agree. intros d Hd.
      fold (findById User._id (User._id target) us1) in Hd. unfold us1 in Hd.
      rewrite (findById_update User._id (User._id (req_user req)) (User._id target)
                 (User.touch (now req))) in Hd by reflexivity.
      assert (Hd0 : exists d0, findById User._id (User._id target) (users db) = Some d0 /\
                               User.followers d = User.followers d0).
      { destruct (Nat.eqb (User._id target) (User._id (req_user req)));
          destruct (findById User._id (User._id target) (users db)) as [d0|];
          try discriminate; injection Hd as <-; eauto. }
      destruct Hd0 as (d0 & Hd0 & Efol). unfold stamped.
      rewrite set_followers_same; [reflexivity|].
      apply pull_absent. rewrite Efol.
      now rewrite <- (Hmir _ _ _ _ Hcur Hd0). }
    now rewrite E2.
Qed.

(** ** Conversation lookup *)

(** The lookup answers with a conversation exactly when some stored
    conversation lists both users, wherever they stand in the list. *)
Lemma findConversation_holds_both (a b : ObjectId) (cs : list Conversation.t) :
  Conversation.findConversation a b cs <> None <->
  exists c, In c cs /\ In a (Conversation.participants c) /\ In b (Conversation.participants c).
Proof.
  unfold Conversation.findConversation, findOne. split.
  - destruct (find _ cs) as [c|] eqn:E; [intros _|congruence].
    apply find_some in E as (Hin & Hc). apply andb_true_iff in Hc as (Ha & Hb).
    exists c. now rewrite <- !includes_In.
  - intros (c & Hin & Ha & Hb) E.
    apply (find_none _ _ E) in Hin.
    apply includes_In in Ha, Hb. now rewrite Ha, Hb in Hin.
Qed.

Lemma pair_of_two (a b : ObjectId) (l : list ObjectId) :
  a <> b -> List.length l = 2 -> In a l -> In b l ->
  forall x, In x l <-> x = a \/ x = b.
Proof.
  intros Hab Hlen Ha Hb x.
  destruct l as [|y [|z [|? ?]]]; try discriminate.
  cbn in *. intuition congruence.
Qed.

(** C4, as the code has it.  For two distinct users A and B and a
    conversation collection in which every conversation has exactly two
    participants, the lookup of get-or-create returns a conversation if
    and only if the collection holds a conversation whose participant set
    is the unordered pair {A, B}, in whichever order the two are stored. *)
Theorem findConversation_pair :
  forall (a b : ObjectId) (cs : list Conversation.t),
    a <> b ->
    Forall (fun c => List.length (Conversation.participants c) = 2) cs ->
    (Conversation.findConversation a b cs <> None <->
     exists c, In c cs /\ forall x, In x (Conversation.participants c) <-> x = a \/ x = b).
Proof.
  intros a b cs Hab Htwo. rewrite findConversation_holds_both. split.
  - intros (c & Hin & Ha & Hb). exists c. split; auto.
    apply pair_of_two; auto.
    rewrite Forall_forall in Htwo. now apply Htwo.
  - intros (c & Hin & Hset). exists c. repeat split; auto; apply Hset; auto.
Qed.

Lemma findConversation_pair_witness :
  Conversation.findConversation 2 1 [Conversation.mk 5 [1; 2] None 0 0] <> None <->
  exists c, In c [Conversation.mk 5 [1; 2] None 0 0] /\
            forall x, In x (Conversation.participants c) <-> x = 2 \/ x = 1.
Proof.
  apply (@findConversation_pair 2 1 [Conversation.mk 5 [1; 2] None 0 0]).
  - discriminate.
  - repeat constructor.
Defined.

(** C4, as stated, fails on a collection that holds a conversation with a
    third participant: the lookup for {1, 2} returns the conversation of
    {1, 2, 3}, and no stored conversation has the participant set {1, 2}.
    It fails as well when the two users are the same: the lookup for
    {1, 1} returns the conversation of {1, 2}. *)
Lemma findConversation_superset_counterexample :
  (Conversation.findConversation 1 2 [Sample.group] = Some Sample.group /\
   ~ (exists c, In c [Sample.group] /\
                forall x, In x (Conversation.participants c) <-> x = 1 \/ x = 2))
  /\
  (Conversation.findConversation 1 1 [Sample.chat] = Some Sample.chat /\
   ~ (exists c, In c [Sample.chat] /\
                forall x, In x (Conversation.participants c) <-> x = 1 \/ x = 1)).
Proof.
  split; (split; [reflexivity|]); intros (c & [<-|[]] & Hset).
  - destruct (proj1 (Hset 3)) as [E|E]; [cbn; auto| |]; discriminate.
  - destruct (proj1 (Hset 2)) as [E|E]; [cbn; auto| |]; discriminate.
Qed.

(** ** Message history *)

Lemma insert_desc_perm (m : Message.t) (l : list Message.t) :
  Permutation (insert_desc m l) (m :: l).
Proof.
  induction l as [|x l IH]; cbn; auto.
  destruct (Message.createdAt x <=? Message.createdAt m); auto.
  rewrite IH. apply perm_swap.
Qed.

Lemma sort_desc_perm (l : list Message.t) : Permutation (sort_desc l) l.
Proof.
  induction l as [|x l IH]; cbn; auto.
  now rewrite insert_desc_perm, IH.
Qed.

Lemma insert_desc_sorted (m : Message.t) (l : list Message.t) :
  StronglySorted newer_first l -> StronglySorted newer_first (insert_desc m l).
Proof.
  induction 1 as [|x l Hl IH Hx]; cbn.
  - repeat constructor.
  - destruct (Message.createdAt x <=? Message.createdAt m) eqn:E.
    + apply Nat.leb_le in E. constructor; [now constructor|].
      constructor; auto.
      rewrite Forall_forall in *. intros y Hy. specialize (Hx y Hy).
      unfold newer_first in *. lia.
    + apply Nat.leb_gt in E. constructor; auto.
      rewrite insert_desc_perm. constructor; auto.
      unfold newer_first. lia.
Qed.

Lemma sort_desc_sorted (l : list Message.t) : StronglySorted newer_first (sort_desc l).
Proof.
  induction l as [|x l IH]; cbn; [constructor|].
  now apply insert_desc_sorted.
Qed.

Lemma sorted_app_inv (R : Message.t -> Message.t -> Prop) (l1 l2 : list Message.t) :
  StronglySorted R (l1 ++ l2) ->
  StronglySorted R l1 /\ forall x y, In x l1 -> In y l2 -> R x y.
Proof.
  induction l1 as [|a l1 IH]; cbn; intros H.
  - split; [constructor|contradiction].
  - inversion H as [|? ? Hs Ha]; subst. destruct (IH Hs) as (Hs1 & Hcross).
    rewrite Forall_app in Ha. destruct Ha as (Ha1 & Ha2). split.
    + now constructor.
    + intros x y [<-|Hx] Hy; auto.
      rewrite Forall_forall in Ha2. auto.
Qed.

Lemma sorted_rev (l : list Message.t) :
  StronglySorted newer_first l -> StronglySorted older_first (rev l).
Proof.
  induction 1 as [|x l Hl IH Hx]; cbn; [constructor|].
  assert (G : forall l1 : list Message.t,
             StronglySorted older_first l1 ->
             Forall (fun y => older_first y x) l1 ->
             StronglySorted older_first (l1 ++ [x])).
  { induction 1 as [|a l1 Hl1 IH1 Ha]; cbn; intros Hall.
    - repeat constructor.
    - inversion Hall; subst. constructor; auto.
      rewrite Forall_app. split; auto. }
  apply G; auto.
  rewrite Forall_forall in *. intros y Hy. apply Hx. now apply in_rev.
Qed.

(** The query of the first page of 50. *)
Lemma findMessages_first_page (conversationId : ObjectId) (ms : list Message.t) :
  exists rest,
    Permutation (findMessages conversationId 1 50 ms ++ rest)
                (filter (visible conversationId) ms) /\
    List.length (findMessages conversationId 1 50 ms) =
      Nat.min 50 (List.length (filter (visible conversationId) ms)) /\
    StronglySorted newer_first (findMessages conversationId 1 50 ms) /\
    (forall m o, In m (findMessages conversationId 1 50 ms) -> In o rest -> newer_first m o).
Proof.
  set (all := sort_desc (filter (visible conversationId) ms)).
  assert (E : findMessages conversationId 1 50 ms = firstn 50 all) by reflexivity.
  rewrite E. exists (skipn 50 all).
  pose proof (sort_desc_sorted (filter (visible conversationId) ms)) as Hs.
  fold all in Hs. rewrite <- (firstn_skipn 50 all) in Hs.
  apply sorted_app_inv in Hs as (Hs1 & Hcross).
  repeat split; auto.
  - rewrite firstn_skipn. apply sort_desc_perm.
  - rewrite length_firstn. unfold all.
    now rewrite (Permutation_length (sort_desc_perm _)).
Qed.

Lemma mapM_total (A B : Type) (f : A -> option B) (l : list A) :
  (forall x, In x l -> f x <> None) ->
  exists l', mapM f l = Some l' /\ Forall2 (fun x y => f x = Some y) l l'.
Proof.
  induction l as [|x l IH]; cbn; intros H.
  - exists []. auto.
  - destruct IH as (l' & -> & Hl'); [auto|].
    destruct (f x) as [y|] eqn:E; [|now destruct (H x); auto].
    exists (y :: l'). auto.
Qed.

Lemma visible_spec (conversationId : ObjectId) (ms : list Message.t) (m : Message.t) :
  In m (filter (visible conversationId) ms) <->
  In m ms /\ Message.conversation m = conversationId /\ Message.isDeleted m = false.
Proof.
  rewrite filter_In. unfold visible.
  rewrite andb_true_iff, Nat.eqb_eq, negb_true_iff. tauto.
Qed.

(** C7. For a stored conversation, a requester who is one of its
    participants, and a store in which the senders of the messages of the
    conversation that are not soft-deleted are stored (as in every
    well-formed store, [wf_senders_resolve]), GET
    /conversation/:conversationId/messages with page 1 and limit 50 answers
    200, leaves the database as it was, and lists the messages [shown],
    each with its identifier, content, date and sender, such that: [shown]
    together with the messages left out is, up to order, the sequence of
    the stored messages whose [conversation] is that conversation and whose
    [isDeleted] is false, each as many times as it is stored; [shown] has
    50 messages, or all of them when there are fewer; no message left out
    is more recent than a message shown; [shown] is in ascending order of
    creation.  In particular no soft-deleted message is shown, and no
    message of the conversation that is not soft-deleted is missing when
    there are at most 50. *)
Theorem get_messages_first_page :
  forall (req : Req) (conversationId : ObjectId) (db : Db) (conversation : Conversation.t),
    findById Conversation._id conversationId (conversations db) = Some conversation ->
    includes (User._id (req_user req)) (Conversation.participants conversation) = true ->
    senders_resolve db conversationId ->
    exists (shown rest : list Message.t) (out : list FormattedMessage),
      get_messages req conversationId 1 50 db = (json 200 (JMessages out), db) /\
      Forall2 (fun m f => fm_id f = Message._id m /\
                          fm_content f = Message.content m /\
                          fm_createdAt f = Message.createdAt m /\
                          uv_id (fm_sender f) = Message.sender m) shown out /\
      Permutation (shown ++ rest)
        (filter (fun m => Nat.eqb (Message.conversation m) conversationId &&
                          negb (Message.isDeleted m))
                (messages db)) /\
      List.length shown =
        Nat.min 50
          (List.length
             (filter (fun m => Nat.eqb (Message.conversation m) conversationId &&
                               negb (Message.isDeleted m))
                     (messages db))) /\
      (forall m o, In m shown -> In o rest -> Message.createdAt o <= Message.createdAt m) /\
      StronglySorted older_first shown /\
      Forall (fun m => In m (messages db) /\ Message.conversation m = conversationId /\
                       Message.isDeleted m = false) shown.
Proof.
  intros req conversationId db conversation Hfind Hpart Hsenders.
  destruct (findMessages_first_page conversationId (messages db))
    as (rest & Hperm & Hlen & Hsort & Hcross).
  set (page := findMessages conversationId 1 50 (messages db)) in *.
  assert (Hvis : forall m, In m page -> In m (filter (visible conversationId) (messages db))).
  { intros m Hm. apply (Permutation_in _ Hperm), in_or_app. now left. }
  set (fmt := formatMessage req (fun s => Nat.eqb (User._id s) (User._id (req_user req))) (users db)).
  destruct (@mapM_total _ _ fmt (rev page)) as (out & Hout & Hrel).
  { intros m Hm. apply in_rev, Hvis, visible_spec in Hm. destruct Hm as (Hin & Hc & Hd).
    specialize (Hsenders m Hin Hc Hd). unfold fmt, formatMessage, populate.
    now destruct (findById User._id (Message.sender m) (users db)). }
  change (filter (fun m => Nat.eqb (Message.conversation m) conversationId &&
                           negb (Message.isDeleted m)) (messages db))
    with (filter (visible conversationId) (messages db)).
  exists (rev page), rest, out. repeat split.
  - unfold get_messages, route, bind, gets. rewrite Hfind, Hpart.
    change (1 =? 0) with false. cbn [negb andb].
    fold page. fold fmt. now rewrite Hout.
  - eapply Forall2_impl; [|exact Hrel].
    intros m f Hf. unfold fmt, formatMessage, populate in Hf.
    destruct (findById User._id (Message.sender m) (users db)) as [u|] eqn:Eu; [|discriminate].
    injection Hf as <-. cbn. repeat split.
    apply find_some in Eu as (_ & Eu). now apply Nat.eqb_eq.
  - rewrite <- Hperm. apply Permutation_app_tail, Permutation_sym, Permutation_rev.
  - now rewrite length_rev.
  - intros m o Hm Ho. apply in_rev in Hm. exact (Hcross m o Hm Ho).
  - now apply sorted_rev.
  - apply Forall_forall. intros m Hm. apply in_rev in Hm.
    now apply visible_spec, Hvis.
Qed.

Lemma get_messages_first_page_witness :
  exists (shown rest : list Message.t) (out : list FormattedMessage),
    get_messages (Sample.request Sample.alice) 5 1 50 Sample.db =
      (json 200 (JMessages out), Sample.db) /\
    Forall2 (fun m f => fm_id f = Message._id m /\
                        fm_content f = Message.content m /\
                        fm_createdAt f = Message.createdAt m /\
                        uv_id (fm_sender f) = Message.sender m) shown out /\
    Permutation (shown ++ rest)
      (filter (fun m => Nat.eqb (Message.conversation m) 5 && negb (Message.isDeleted m))
              (messages Sample.db)) /\
    List.length shown =
      Nat.min 50
        (List.length
           (filter (fun m => Nat.eqb (Message.conversation m) 5 && negb (Message.isDeleted m))
                   (messages Sample.db))) /\
    (forall m o, In m shown -> In o rest -> Message.createdAt o <= Message.createdAt m) /\
    StronglySorted older_first shown /\
    Forall (fun m => In m (messages Sample.db) /\ Message.conversation m = 5 /\
                     Message.isDeleted m = false) shown.
Proof.
  apply (@get_messages_first_page (Sample.request Sample.alice) 5 Sample.db Sample.chat).
  - reflexivity.
  - reflexivity.
  - intros m [<-|[<-|[<-|[]]]] Hc Hd; cbn; discriminate.
Defined.

(** The sample history: the soft-deleted message is left out and the two
    others come oldest first. *)
Example get_messages_sample :
  exists out,
    get_messages (Sample.request Sample.alice) 5 1 50 Sample.db =
      (json 200 (JMessages out), Sample.db) /\
    map fm_content out = [js "hi"; js "hello"].
Proof. eexists. split; reflexivity. Qed.

Lemma post_conversation_not_mutual_witness :
  post_conversation (Sample.request Sample.carol) "dave" Sample.db =
    (json 403 (JMessage "No pueden chatear. Deben seguirse mutuamente."), Sample.db).
Proof.
  apply (@post_conversation_not_mutual (Sample.request Sample.carol) "dave" Sample.db Sample.dave);
    reflexivity.
Defined.

Lemma post_like_twice_witness :
  post_like (Sample.request Sample.carol) 21 Sample.liked_db =
    (json 400 (JMessage "Ya has dado like a este post"), Sample.liked_db).
Proof.
  apply (@post_like_twice (Sample.request Sample.carol) 21 Sample.liked_db Sample.sunset).
  - reflexivity.
  - cbn. auto.
Defined.

Lemma delete_message_frame_witness :
  delete_message (Sample.request Sample.bob) 11 Sample.db =
    (json 403 (JMessage "Solo puedes eliminar tus propios mensajes"), Sample.db)
  /\
  exists before after,
    messages Sample.db = before ++ Sample.hi :: after /\
    delete_message (Sample.request Sample.alice) 11 Sample.db =
      (json 200 (JMessage "Mensaje eliminado exitosamente"),
       mkDb (users Sample.db) (posts Sample.db) (conversations Sample.db)
            (before ++ Message.mk 11 5 1 (js "hi") None Message.text true (Some 1000) 10 1000
             :: after)).
Proof.
  split.
  - apply (proj1 (@delete_message_frame (Sample.request Sample.bob) 11 Sample.db Sample.hi
                    eq_refl)).
    discriminate.
  - apply (proj2 (@delete_message_frame (Sample.request Sample.alice) 11 Sample.db Sample.hi
                    eq_refl)); reflexivity.
Defined.

Lemma sample_people_mirrored : follow_mirrored Sample.people.
Proof.
  intros a b ua ub Ha Hb.
  apply find_some in Ha as (Ha & Ea), Hb as (Hb & Eb).
  apply Nat.eqb_eq in Ea, Eb. subst a b.
  destruct Ha as [<-|[<-|[<-|[<-|[]]]]], Hb as [<-|[<-|[<-|[<-|[]]]]]; reflexivity.
Defined.

Lemma follow_unfollow_asymmetric_witness :
  (exists message,
     post_follow (Sample.request Sample.alice) "bob" Sample.db =
       (json 400 (JMessage message), Sample.db))
  /\
  delete_unfollow (Sample.request Sample.carol) "dave" Sample.db =
    (json 200 (JFollow "Dejaste de seguir al usuario" false),
     mkDb [Sample.alice; Sample.bob; User.mk 3 "carol" None [] [] 1000;
           User.mk 4 "dave" None [] [] 1000]
          (posts Sample.db) (conversations Sample.db) (messages Sample.db)).
Proof.
  split.
  - apply (proj1 (@follow_unfollow_asymmetric (Sample.request Sample.alice) "bob" Sample.db
                    Sample.bob Sample.alice eq_refl eq_refl)).
    reflexivity.
  - apply (proj2 (@follow_unfollow_asymmetric (Sample.request Sample.carol) "dave" Sample.db
                    Sample.dave Sample.carol eq_refl eq_refl)).
    + reflexivity.
    + exact sample_people_mirrored.
Defined.

(** ** Sending a message *)

Lemma gate_sender_stored (us : list User.t) (a b : ObjectId) :
  checkMutualFollow us a b = true -> exists u, findById User._id a us = Some u.
Proof.
  unfold checkMutualFollow.
  destruct (findById User._id a us) as [u|]; [eauto|discriminate].
Qed.

(** The two measures of a text.  [isLength] never counts more than the
    schema does, and they agree on a text with no surrogate pair and no
    presentation selector. *)
Lemma plain_text_measures (s : JsString) :
  surrogatePairs s = 0 -> presentationSequences s = 0 -> isLength_len s = units s.
Proof. unfold isLength_len. intros -> ->. lia. Qed.

Lemma isLength_len_le_units (s : JsString) : isLength_len s <= units s.
Proof. unfold isLength_len. lia. Qed.

(** C2, as the code has it.  For a request to POST /message by a
    participant of the conversation it names.  When the text and the image
    are both absent (or empty), the reply is 400 and nothing is written.
    When the text is longer than 1000 as the route validator measures it
    (code units, a surrogate pair counted once, the selectors FE0F and FE0E
    not counted), the reply is 400 with "Mensaje muy largo" and nothing is
    written.  When the text is not empty and at most 1000 long by that
    measure, the validation passes, and then: if the mutual-follow gate
    between the sender and the other participant does not hold, the reply
    is 403 and nothing is written; if it holds and the text has at most
    1000 code units, the message is stored, with that text, and the reply
    is 201; if it holds and the text has more than 1000 code units, the
    schema rejects the message, the reply is 500 and nothing is written.
    On a text with no surrogate pair and no selector the two measures
    agree: 1001 characters are refused with 400, and 1000 pass the
    validation. *)
Theorem post_message_validation :
  forall (req : Req) (form : MessageForm) (db : Db)
         (conversationId : ObjectId) (conversation : Conversation.t),
    form_conversationId form = Some conversationId ->
    findById Conversation._id conversationId (conversations db) = Some conversation ->
    includes (User._id (req_user req)) (Conversation.participants conversation) = true ->
    (truthy_text (form_content form) = false -> truthy (form_file form) = false ->
       post_message req form db =
         (json 400 (JMessage "Debe proporcionar contenido o imagen"), db))
    /\
    (forall s, form_content form = Some s -> 1000 < isLength_len s ->
       post_message req form db =
         (json 400 (JErrors "Datos de entrada no válidos" ["Mensaje muy largo"]), db))
    /\
    (forall s, form_content form = Some s -> s <> [] -> isLength_len s <= 1000 ->
       let canChat :=
         match find (fun p => negb (Nat.eqb p (User._id (req_user req))))
                    (Conversation.participants conversation) with
         | Some other => checkMutualFollow (users db) (User._id (req_user req)) other
         | None => false
         end in
       (canChat = false ->
          post_message req form db =
            (json 403 (JMessage "Ya no pueden chatear. Verificar seguimiento mutuo."), db))
       /\
       (canChat = true -> units s <= 1000 ->
          exists out,
            fm_content out = s /\
            post_message req form db =
              (json 201 (JSent out),
               mkDb (users db) (posts db)
                    (findByIdAndUpdate Conversation._id conversationId
                       (stamped Conversation.touch (now req)
                          (Conversation.set_last (newId req) (now req)))
                       (conversations db))
                    (messages db ++
                     [Message.mk (newId req) conversationId (User._id (req_user req)) s
                        (form_file form)
                        (if truthy (form_file form) then Message.image_ else Message.text)
                        false None (now req) (now req)])))
       /\
       (canChat = true -> 1000 < units s ->
          post_message req form db = (json 500 (JMessage "Error del servidor"), db)))
    /\
    (forall s, surrogatePairs s = 0 -> presentationSequences s = 0 ->
       (units s = 1001 -> 1000 < isLength_len s) /\
       (units s = 1000 -> isLength_len s <= 1000)).
Proof.
  intros req form db conversationId conversation Hcid Hfind Hpart.
  split; [|split; [|split]].
  - intros Hc Hf. unfold post_message, route, validationResult. rewrite Hcid.
    destruct (form_content form) as [s|] eqn:Es.
    + destruct s; [|discriminate]. cbn. now rewrite Hf.
    + cbn. now rewrite Hf.
  - intros s Es Hlen. unfold post_message, route, validationResult.
    apply Nat.leb_gt in Hlen. now rewrite Hcid, Es, Hlen.
  - intros s Es Hs Hlen canChat.
    assert (Hpass : validationResult form = []).
    { unfold validationResult. apply Nat.leb_le in Hlen. now rewrite Hcid, Es, Hlen. }
    assert (Htext : truthy_text (Some s) = true) by (destruct s; [contradiction|reflexivity]).
    assert (Hrun : post_message req form db =
              route "Error del servidor"
                (if negb canChat
                 then reply (json 403
                               (JMessage "Ya no pueden chatear. Verificar seguimiento mutuo."))
                 else
                   let message :=
                     Message.mk (newId req) conversationId (User._id (req_user req)) s
                       (form_file form)
                       (if truthy (form_file form) then Message.image_ else Message.text)
                       false None (now req) (now req) in
                   Message_save_new message ;;
                   formatted <- gets (fun db => formatMessage req (fun _ => true) (users db)
                                                  message) ;;
                   modify (with_conversations
                     (findByIdAndUpdate Conversation._id conversationId
                        (stamped Conversation.touch (now req)
                           (Conversation.set_last (Message._id message) (now req))))) ;;
                   match formatted with
                   | Some formattedMessage => ret (json 201 (JSent formattedMessage))
                   | None => throw
                   end) db).
    { unfold post_message, route. rewrite Hpass, Hcid, Es, Htext. cbn [negb andb].
      unfold bind at 1, gets at 1. rewrite Hfind, Hpart. cbn [negb].
      unfold bind at 1, gets at 1. reflexivity. }
    rewrite Hrun. clear Hrun.
    split; [|split].
    + intros Hgate. rewrite Hgate. reflexivity.
    + intros Hgate Hunits. rewrite Hgate. cbn [negb].
      assert (Hu : exists u, findById User._id (User._id (req_user req)) (users db) = Some u).
      { unfold canChat in Hgate.
        destruct (find (fun p => negb (Nat.eqb p (User._id (req_user req))))
                       (Conversation.participants conversation)); [|discriminate].
        exact (gate_sender_stored _ _ _ Hgate). }
      destruct Hu as (u & Hu).
      exists (mkFormatted (newId req) s (chatUrl req (form_file form))
                (if truthy (form_file form) then Message.image_ else Message.text)
                (userView req u) (now req) true).
      split; [reflexivity|].
      unfold route, bind at 1, Message_save_new, Message.validate.
      cbn [Message.content Message.image]. rewrite Htext, orb_true_r.
      apply Nat.leb_le in Hunits. rewrite Hunits. cbn [andb].
      unfold modify, bind, gets, formatMessage, populate. cbn [Message.sender users with_messages].
      rewrite Hu. reflexivity.
    + intros Hgate Hunits. rewrite Hgate. cbn [negb].
      unfold route, bind at 1, Message_save_new, Message.validate.
      cbn [Message.content Message.image]. rewrite Htext, orb_true_r.
      apply Nat.leb_gt in Hunits. rewrite Hunits. reflexivity.
  - intros s Hp Hv. rewrite (plain_text_measures s Hp Hv). lia.
Qed.

Lemma post_message_validation_witness :
  post_message (Sample.request Sample.alice) Sample.empty_form Sample.db =
    (json 400 (JMessage "Debe proporcionar contenido o imagen"), Sample.db)
  /\
  post_message (Sample.request Sample.alice) Sample.form_1001 Sample.db =
    (json 400 (JErrors "Datos de entrada no válidos" ["Mensaje muy largo"]), Sample.db)
  /\
  (exists out,
     fm_content out = Sample.thousand /\
     post_message (Sample.request Sample.alice) Sample.form_1000 Sample.db =
       (json 201 (JSent out),
        mkDb (users Sample.db) (posts Sample.db)
             (findByIdAndUpdate Conversation._id 5
                (stamped Conversation.touch 1000 (Conversation.set_last 99 1000))
                (conversations Sample.db))
             (messages Sample.db ++
              [Message.mk 99 5 1 Sample.thousand None Message.text false None 1000 1000])))
  /\
  post_message (Sample.request Sample.carol) Sample.long_form Sample.stale_db =
    (json 403 (JMessage "Ya no pueden chatear. Verificar seguimiento mutuo."),
     Sample.stale_db)
  /\
  post_message (Sample.request Sample.alice) Sample.form_grins Sample.db =
    (json 500 (JMessage "Error del servidor"), Sample.db).
Proof.
  split; [|split; [|split; [|split]]].
  - apply (proj1 (@post_message_validation (Sample.request Sample.alice) Sample.empty_form
                    Sample.db 5 Sample.chat eq_refl eq_refl eq_refl)); reflexivity.
  - apply (proj1 (proj2 (@post_message_validation (Sample.request Sample.alice)
                    Sample.form_1001 Sample.db 5 Sample.chat eq_refl eq_refl eq_refl))
             (97%N :: Sample.thousand)); [reflexivity|].
    vm_compute. lia.
  - apply (proj1 (proj2 (proj1 (proj2 (proj2 (@post_message_validation
                    (Sample.request Sample.alice) Sample.form_1000 Sample.db 5 Sample.chat
                    eq_refl eq_refl eq_refl)))
             Sample.thousand eq_refl ltac:(discriminate) ltac:(vm_compute; lia)))).
    + reflexivity.
    + vm_compute. lia.
  - apply (proj1 (proj1 (proj2 (proj2 (@post_message_validation
                    (Sample.request Sample.carol) Sample.long_form Sample.stale_db 6
                    Sample.stale eq_refl eq_refl eq_refl)))
             Sample.thousand eq_refl ltac:(discriminate) ltac:(vm_compute; lia))).
    reflexivity.
  - apply (proj2 (proj2 (proj1 (proj2 (proj2 (@post_message_validation
                    (Sample.request Sample.alice) Sample.form_grins Sample.db 5 Sample.chat
                    eq_refl eq_refl eq_refl)))
             Sample.thousand_grins eq_refl ltac:(discriminate) ltac:(vm_compute; lia)))).
    + reflexivity.
    + vm_compute. lia.
Defined.

(** C2, as stated, fails in three ways.  A participant whose mutual follow
    has been withdrawn: in the well-formed store [Sample.stale_db], carol
    is a participant of her conversation with dave, her text has exactly
    1000 characters by either measure, and the request is refused with 403
    and nothing is stored.  A text of a thousand characters outside the
    Basic Multilingual Plane, sent by alice to bob who follow each other:
    the route validator counts 1000, the schema counts 2000 code units,
    and the reply is 500 with nothing stored.  And a text of 1001 code
    units, the last two a surrogate pair: the route validator counts
    1000, and the reply is 500, not 400. *)
Lemma post_message_validation_counterexample :
  (form_conversationId Sample.long_form = Some 6 /\
   findById Conversation._id 6 (conversations Sample.stale_db) = Some Sample.stale /\
   includes (User._id Sample.carol) (Conversation.participants Sample.stale) = true /\
   form_content Sample.long_form = Some Sample.thousand /\
   units Sample.thousand = 1000 /\ isLength_len Sample.thousand = 1000 /\
   post_message (Sample.request Sample.carol) Sample.long_form Sample.stale_db =
     (json 403 (JMessage "Ya no pueden chatear. Verificar seguimiento mutuo."),
      Sample.stale_db))
  /\
  (form_conversationId Sample.form_grins = Some 5 /\
   findById Conversation._id 5 (conversations Sample.db) = Some Sample.chat /\
   includes (User._id Sample.alice) (Conversation.participants Sample.chat) = true /\
   checkMutualFollow (users Sample.db) 1 2 = true /\
   form_content Sample.form_grins = Some Sample.thousand_grins /\
   isLength_len Sample.thousand_grins = 1000 /\ units Sample.thousand_grins = 2000 /\
   post_message (Sample.request Sample.alice) Sample.form_grins Sample.db =
     (json 500 (JMessage "Error del servidor"), Sample.db))
  /\
  (form_content Sample.form_letters_and_grin = Some Sample.letters_and_grin /\
   units Sample.letters_and_grin = 1001 /\ isLength_len Sample.letters_and_grin = 1000 /\
   post_message (Sample.request Sample.alice) Sample.form_letters_and_grin Sample.db =
     (json 500 (JMessage "Error del servidor"), Sample.db)).
Proof. repeat split; vm_compute; reflexivity. Qed.

(** ** The like counter *)

(** C5 fails on account deletion.  In the well-formed store
    [Sample.liked_db], bob's post has one like, carol's, and a counter of
    1.  When carol deletes her account, step 2 pulls her like and step 3,
    which recomputes the counters, selects the posts that still have a
    like: the post is left with no like and a counter of 1. *)
Lemma delete_account_stale_likesCount :
  Forall likes_counted (posts Sample.liked_db) /\
  exists db',
    delete_account (Sample.request Sample.carol) Sample.liked_db =
      (json 200 (JRedirect "Cuenta eliminada exitosamente" "/login"), db') /\
    posts db' = [Post.mk 21 "sunset" false None 2 [] 1 40 1000] /\
    ~ Forall likes_counted (posts db').
Proof.
  split; [repeat constructor|].
  eexists. split; [vm_compute; reflexivity|]. split; [reflexivity|].
  intros H. inversion H as [|? ? Hp _]. discriminate Hp.
Qed.

(** A post that keeps a like is recounted by step 3. *)
Example delete_account_recounts_remaining_likes :
  exists db',
    delete_account (Sample.request Sample.carol) Sample.liked_twice_db =
      (json 200 (JRedirect "Cuenta eliminada exitosamente" "/login"), db') /\
    posts db' = [Post.mk 22 "sunrise" false None 2 [Like.mk 1 60] 1 41 1000] /\
    Forall likes_counted (posts db').
Proof.
  eexists. split; [vm_compute; reflexivity|]. split; [reflexivity|].
  repeat constructor.
Qed.

Lemma saveLoaded_Forall (P : Post.t -> Prop) (p : Post.t) (c : list Post.t) :
  P p -> Forall P c -> Forall P (saveLoaded Post._id p c).
Proof.
  intros Hp. unfold saveLoaded, findByIdAndUpdate.
  induction 1 as [|x c Hx Hc IH]; cbn; [constructor|].
  destruct (Nat.eqb (Post._id x) (Post._id p)); constructor; auto.
Qed.

(** What [save] writes after a change of the likes is counted: the hook
    recomputes the counter. *)
Lemma Post_save_counted (date : Date) (this : PostDoc) (db : Db) :
  likesModified this = true ->
  Forall likes_counted (posts db) ->
  Forall likes_counted (posts (snd (Post_save date this db))).
Proof.
  intros Hmod Hall. unfold Post_save, pre_save. rewrite Hmod.
  destruct (Post.validate _); cbn; auto.
  apply saveLoaded_Forall; auto. reflexivity.
Qed.

Lemma route_posts (message : string) (h : Handler Response) (db : Db) :
  posts (snd (route message h db)) = posts (snd (h db)).
Proof. unfold route. now destruct (h db) as [[r|r|] db']. Qed.

(** Liking and unliking keep the counter of every post equal to the number
    of its likes. *)
Lemma post_like_counted (req : Req) (postId : ObjectId) (db : Db) :
  Forall likes_counted (posts db) ->
  Forall likes_counted (posts (snd (post_like req postId db))).
Proof.
  intros Hall. unfold post_like. rewrite route_posts.
  unfold bind at 1, gets at 1.
  destruct (findById Post._id postId (posts db)) as [p|]; [|exact Hall].
  destruct (hasUserLiked _ _); [exact Hall|].
  unfold addLike.
  destruct (find _ (Post.likes (doc (hydrate p)))); [exact Hall|].
  cbn [negb]. unfold bind, gets.
  match goal with |- context [Post_save ?t ?d db] =>
    pose proof (@Post_save_counted t d db eq_refl Hall) as H;
    destruct (Post_save t d db) as [[post|r|] db']
  end; cbn in H |- *; auto.
  now destruct (recentLikes (users db') (doc post)).
Qed.

Lemma delete_like_counted (req : Req) (postId : ObjectId) (db : Db) :
  Forall likes_counted (posts db) ->
  Forall likes_counted (posts (snd (delete_like req postId db))).
Proof.
  intros Hall. unfold delete_like. rewrite route_posts.
  unfold bind at 1, gets at 1.
  destruct (findById Post._id postId (posts db)) as [p|]; [|exact Hall].
  destruct (hasUserLiked _ _); [|exact Hall].
  unfold removeLike. cbn [negb].
  destruct (_ <? _) eqn:Erem; [|exact Hall].
  cbn [negb]. unfold bind, gets.
  match goal with |- context [Post_save ?t ?d db] =>
    pose proof (@Post_save_counted t d db (orb_true_r _) Hall) as H;
    destruct (Post_save t d db) as [[post|r|] db']
  end; cbn in H |- *; auto.
  now destruct (recentLikes (users db') (doc post)).
Qed.

(** ** Account deletion and conversations *)

Section Views.
Variable Doc : Type.
Variable q : Doc -> bool.

Lemma filter_map_commute (g : Doc -> Doc) (l : list Doc) :
  (forall x, q (g x) = q x) -> filter q (map g l) = map g (filter q l).
Proof.
  intros Hg. induction l as [|x l IH]; cbn; auto.
  rewrite Hg. destruct (q x); cbn; now rewrite IH.
Qed.

Lemma filter_map_frame (g : Doc -> Doc) (l : list Doc) :
  (forall x, q (g x) = q x) -> (forall x, q x = true -> g x = x) ->
  filter q (map g l) = filter q l.
Proof.
  intros Hg Hid. rewrite filter_map_commute; auto.
  rewrite <- (map_id (filter q l)) at 2. apply map_ext_in.
  intros x Hx. apply filter_In in Hx. now apply Hid.
Qed.

Lemma filter_filter_frame (p : Doc -> bool) (l : list Doc) :
  (forall x, q x = true -> p x = true) -> filter q (filter p l) = filter q l.
Proof.
  intros H. induction l as [|x l IH]; cbn; auto.
  destruct (p x) eqn:Ep; cbn; rewrite IH; auto.
  destruct (q x) eqn:Eq; auto. rewrite (H x Eq) in Ep. discriminate.
Qed.

Lemma filter_filter_none (p : Doc -> bool) (l : list Doc) :
  (forall x, q x = true -> p x = false) -> filter q (filter p l) = [].
Proof.
  intros H. induction l as [|x l IH]; cbn; auto.
  destruct (p x) eqn:Ep; cbn; auto.
  destruct (q x) eqn:Eq; auto. rewrite (H x Eq) in Ep. discriminate.
Qed.

Lemma filter_deleteOne_frame (p : Doc -> bool) (l : list Doc) :
  (forall x, q x = true -> p x = false) -> filter q (deleteOne p l) = filter q l.
Proof.
  intros H. induction l as [|x l IH]; cbn; auto.
  destruct (p x) eqn:Ep; cbn.
  - destruct (q x) eqn:Eq; auto. rewrite (H x Eq) in Ep. discriminate.
  - now rewrite IH.
Qed.

Lemma filter_deleteOne_hit (l : list Doc) :
  filter q (deleteOne q l) = tl (filter q l).
Proof.
  induction l as [|x l IH]; cbn; auto.
  destruct (q x) eqn:Eq; cbn; auto. now rewrite Eq.
Qed.

Lemma filter_updateOne_frame (p : Doc -> bool) (f : Doc -> Doc) (l : list Doc) :
  (forall x, q x = true -> p x = false) -> (forall x, q (f x) = q x) ->
  filter q (updateOne p f l) = filter q l.
Proof.
  intros H Hf. induction l as [|x l IH]; cbn; auto.
  destruct (p x) eqn:Ep; cbn.
  - rewrite Hf. destruct (q x) eqn:Eq; auto. rewrite (H x Eq) in Ep. discriminate.
  - now rewrite IH.
Qed.

Lemma filter_updateOne_hit (f : Doc -> Doc) (l : list Doc) :
  (forall x, q (f x) = q x) ->
  filter q (updateOne q f l) =
  match filter q l with
  | [] => []
  | x :: r => f x :: r
  end.
Proof.
  intros Hf. induction l as [|x l IH]; cbn; auto.
  destruct (q x) eqn:Eq; cbn.
  - now rewrite Hf, Eq.
  - now rewrite Eq.
Qed.

End Views.

Lemma absent_by_id (cs : list Conversation.t) (k : ObjectId) :
  ~ In k (map Conversation._id cs) ->
  filter (fun x => Nat.eqb (Conversation._id x) k) cs = [].
Proof.
  induction cs as [|x cs IH]; cbn; auto.
  intros H. destruct (Nat.eqb (Conversation._id x) k) eqn:E.
  - apply Nat.eqb_eq in E. tauto.
  - tauto.
Qed.

Lemma unique_by_id (cs : list Conversation.t) (c : Conversation.t) :
  NoDup (map Conversation._id cs) -> In c cs ->
  filter (fun x => Nat.eqb (Conversation._id x) (Conversation._id c)) cs = [c].
Proof.
  induction cs as [|x cs IH]; cbn; [contradiction|].
  intros Hnd Hin. inversion Hnd as [|? ? Hx Hcs]; subst.
  destruct Hin as [->|Hin].
  - now rewrite Nat.eqb_refl, absent_by_id.
  - destruct (Nat.eqb (Conversation._id x) (Conversation._id c)) eqn:E; auto.
    apply Nat.eqb_eq in E. destruct Hx. rewrite E. now apply in_map.
Qed.

Section Teardown.
Variable req : Req.
Variable userId : ObjectId.

Lemma teardown_run (c : Conversation.t) (db : Db) :
  teardown req userId c db = (Continue tt, snd (teardown req userId c db)).
Proof.
  unfold teardown, bind, modify.
  now destruct (List.length (Conversation.participants c) =? 2).
Qed.

Lemma teardown_users_posts (c : Conversation.t) (db : Db) :
  users (snd (teardown req userId c db)) = users db /\
  posts (snd (teardown req userId c db)) = posts db.
Proof.
  unfold teardown, bind, modify.
  now destruct (List.length (Conversation.participants c) =? 2).
Qed.

Lemma teardown_frame (c : Conversation.t) (db : Db) (k : ObjectId) :
  Conversation._id c <> k ->
  conversation_by_id k (snd (teardown req userId c db)) = conversation_by_id k db /\
  messages_of k (snd (teardown req userId c db)) = messages_of k db.
Proof.
  intros Hk.
  assert (Hc : forall x : Conversation.t,
             Nat.eqb (Conversation._id x) k = true ->
             Nat.eqb (Conversation._id x) (Conversation._id c) = false).
  { intros x Hx. apply Nat.eqb_eq in Hx. apply Nat.eqb_neq. congruence. }
  assert (Hm : forall x : Message.t,
             Nat.eqb (Message.conversation x) k = true ->
             Nat.eqb (Message.conversation x) (Conversation._id c) = false).
  { intros x Hx. apply Nat.eqb_eq in Hx. apply Nat.eqb_neq. congruence. }
  unfold teardown, bind, modify, conversation_by_id, messages_of.
  destruct (List.length (Conversation.participants c) =? 2); cbn; split.
  - now apply filter_deleteOne_frame.
  - unfold deleteMany, updateMany. rewrite filter_filter_frame.
    + apply filter_map_frame.
      * intros x. now destruct (_ && _).
      * intros x Hx. now rewrite (Hm x Hx).
    + intros x Hx. now rewrite (Hm x Hx).
  - apply filter_updateOne_frame; auto.
  - unfold updateMany. apply filter_map_frame.
    + intros x. now destruct (_ && _).
    + intros x Hx. now rewrite (Hm x Hx).
Qed.

Lemma teardown_hit (c : Conversation.t) (db : Db) :
  conversation_by_id (Conversation._id c) db = [c] ->
  (List.length (Conversation.participants c) = 2 ->
     conversation_by_id (Conversation._id c) (snd (teardown req userId c db)) = [] /\
     messages_of (Conversation._id c) (snd (teardown req userId c db)) = [])
  /\
  (List.length (Conversation.participants c) <> 2 ->
     conversation_by_id (Conversation._id c) (snd (teardown req userId c db)) =
       [Conversation.touch (now req) (Conversation.set_participants (pull userId) c)] /\
     messages_of (Conversation._id c) (snd (teardown req userId c db)) =
       map (redact req userId) (messages_of (Conversation._id c) db)).
Proof.
  intros Hone. unfold teardown, bind, modify, conversation_by_id, messages_of in *.
  split; intros Hlen.
  - apply Nat.eqb_eq in Hlen. rewrite Hlen. cbn. split.
    + unfold findByIdAndDelete. now rewrite filter_deleteOne_hit, Hone.
    + unfold deleteMany. apply filter_filter_none.
      intros x Hx. now rewrite Hx.
  - apply Nat.eqb_neq in Hlen. rewrite Hlen. cbn. split.
    + unfold findByIdAndUpdate. rewrite filter_updateOne_hit; [now rewrite Hone|auto].
    + unfold updateMany. rewrite filter_map_commute.
      * apply map_ext_in. intros x Hx. apply filter_In in Hx as (_ & Hx).
        unfold redact. now rewrite Hx.
      * intros x. now destruct (_ && _).
Qed.

Lemma forEach_teardown_cons (c : Conversation.t) (l : list Conversation.t) (db : Db) :
  forEach (c :: l) (teardown req userId) db =
  forEach l (teardown req userId) (snd (teardown req userId c db)).
Proof. cbn. unfold bind at 1. now rewrite teardown_run. Qed.

Lemma forEach_teardown_run (l : list Conversation.t) (db : Db) :
  forEach l (teardown req userId) db =
    (Continue tt, snd (forEach l (teardown req userId) db)) /\
  users (snd (forEach l (teardown req userId) db)) = users db /\
  posts (snd (forEach l (teardown req userId) db)) = posts db.
Proof.
  revert db. induction l as [|c l IH]; intros db; [now cbn|].
  rewrite forEach_teardown_cons.
  destruct (IH (snd (teardown req userId c db))) as (E & Hu & Hp).
  destruct (teardown_users_posts c db) as (Hu' & Hp').
  repeat split; [exact E|congruence|congruence].
Qed.

Lemma forEach_teardown_frame (l : list Conversation.t) (db : Db) (k : ObjectId) :
  ~ In k (map Conversation._id l) ->
  conversation_by_id k (snd (forEach l (teardown req userId) db)) = conversation_by_id k db /\
  messages_of k (snd (forEach l (teardown req userId) db)) = messages_of k db.
Proof.
  revert db. induction l as [|c l IH]; intros db Hk; [now cbn|].
  rewrite forEach_teardown_cons. cbn in Hk.
  destruct (IH (snd (teardown req userId c db))) as (E1 & E2); [tauto|].
  destruct (@teardown_frame c db k) as (F1 & F2); [tauto|].
  split; congruence.
Qed.

Lemma forEach_teardown_hit (l : list Conversation.t) (db : Db) (c : Conversation.t) :
  NoDup (map Conversation._id l) -> In c l ->
  conversation_by_id (Conversation._id c) db = [c] ->
  (List.length (Conversation.participants c) = 2 ->
     conversation_by_id (Conversation._id c) (snd (forEach l (teardown req userId) db)) = [] /\
     messages_of (Conversation._id c) (snd (forEach l (teardown req userId) db)) = [])
  /\
  (List.length (Conversation.participants c) <> 2 ->
     conversation_by_id (Conversation._id c) (snd (forEach l (teardown req userId) db)) =
       [Conversation.touch (now req) (Conversation.set_participants (pull userId) c)] /\
     messages_of (Conversation._id c) (snd (forEach l (teardown req userId) db)) =
       map (redact req userId) (messages_of (Conversation._id c) db)).
Proof.
  revert db. induction l as [|x l IH]; intros db Hnd Hin Hone; [contradiction|].
  rewrite forEach_teardown_cons.
  inversion Hnd as [|? ? Hx Hl]; subst.
  destruct Hin as [->|Hin].
  - destruct (@forEach_teardown_frame l (snd (teardown req userId c db)) _ Hx) as (-> & ->).
    now apply teardown_hit.
  - assert (Hne : Conversation._id x <> Conversation._id c).
    { intros E. apply Hx. rewrite E. now apply in_map. }
    destruct (@teardown_frame x db _ Hne) as (F1 & F2).
    destruct (IH (snd (teardown req userId x db)) Hl Hin) as (G1 & G2); [congruence|].
    rewrite F2 in G2. auto.
Qed.

End Teardown.

Lemma recount_step (date : Date) (p : Post.t) (db : Db) :
  Post.validate p = true ->
  recount date p db =
    (Continue tt, with_posts (saveLoaded Post._id (recounted date p)) db).
Proof.
  intros Hp. unfold recount, recounted, Post_save, pre_save.
  cbn [likesModified likesCountModified doc orb].
  change (Post.validate (Post.set_likesCount _ p)) with (Post.validate p).
  rewrite Hp. now destruct (Z.eqb _ _).
Qed.

Lemma recounted_valid (date : Date) (p : Post.t) :
  Post.validate (recounted date p) = Post.validate p.
Proof. unfold recounted. now destruct (Z.eqb _ _). Qed.

Lemma recount_run (date : Date) (l : list Post.t) (db : Db) :
  Forall (fun p => Post.validate p = true) l ->
  exists db',
    forEach l (recount date) db = (Continue tt, db') /\
    users db' = users db /\ conversations db' = conversations db /\
    messages db' = messages db /\
    (Forall (fun p => Post.validate p = true) (posts db) ->
     Forall (fun p => Post.validate p = true) (posts db')).
Proof.
  intros Hl. revert db. induction Hl as [|p l Hp _ IH]; intros db.
  - exists db. now cbn.
  - cbn [forEach]. unfold bind at 1. rewrite (@recount_step date p db Hp).
    destruct (IH (with_posts (saveLoaded Post._id (recounted date p)) db))
      as (db' & E & Hu & Hc & Hm & Hv).
    exists db'. rewrite E. repeat split; auto.
    intros Hall. apply Hv. cbn [posts with_posts].
    apply saveLoaded_Forall; [|exact Hall]. now rewrite recounted_valid.
Qed.

Lemma valid_after_pull (date : Date) (userId : ObjectId) (ps : list Post.t) :
  Forall (fun p => Post.validate p = true) ps ->
  Forall (fun p => Post.validate p = true)
    (filter hasLikes
       (updateMany (likedBy userId)
          (stamped Post.touch date
             (fun p => Post.set_likes
                (filter (fun like => negb (Nat.eqb (Like.user like) userId)) (Post.likes p))
                p))
          (deleteMany (fun p => Nat.eqb (Post.author p) userId) ps))).
Proof.
  intros H. rewrite Forall_forall in *. intros p Hp.
  apply filter_In in Hp as (Hp & _). unfold updateMany in Hp.
  apply in_map_iff in Hp as (p0 & <- & Hp0).
  apply filter_In in Hp0 as (Hp0 & _).
  destruct (likedBy userId p0); auto.
  change (Post.validate p0 = true). auto.
Qed.

Lemma unique_filter (p : Conversation.t -> bool) (cs : list Conversation.t) :
  NoDup (map Conversation._id cs) -> NoDup (map Conversation._id (filter p cs)).
Proof.
  induction cs as [|x l IH]; cbn; [constructor|].
  intros Hnd. inversion Hnd as [|? ? Hx Hl]; subst.
  destruct (p x); cbn; auto.
  constructor; auto. intros H. apply Hx.
  apply in_map_iff in H as (y & E & Hy). apply filter_In in Hy as (Hy & _).
  rewrite <- E. now apply in_map.
Qed.

(** With posts that satisfy their schema the deletion runs to its end:
    the users lose every reference to the deleted user, then the deleted
    user; the conversations and messages are those left by the loop of
    step 5. *)
Lemma delete_account_run (req : Req) (db : Db) :
  Forall (fun p => Post.validate p = true) (posts db) ->
  exists us ps,
    Forall (fun p => Post.validate p = true) ps /\
    delete_account req db =
      (json 200 (JRedirect "Cuenta eliminada exitosamente" "/login"),
       with_users (findByIdAndDelete User._id (User._id (req_user req)))
         (snd (forEach
                 (filter (fun c => includes (User._id (req_user req))
                                            (Conversation.participants c))
                         (conversations db))
                 (teardown req (User._id (req_user req)))
                 (mkDb us ps (conversations db) (messages db))))) /\
    us = updateMany (fun u => includes (User._id (req_user req)) (User.following u))
           (stamped User.touch (now req) (User.set_following (pull (User._id (req_user req)))))
           (updateMany (fun u => includes (User._id (req_user req)) (User.followers u))
              (stamped User.touch (now req)
                 (User.set_followers (pull (User._id (req_user req))))) (users db)).
Proof.
  intros Hvalid.
  set (userId := User._id (req_user req)).
  unfold delete_account, route. fold userId.
  unfold bind at 1, modify at 1. unfold bind at 1, modify at 1.
  unfold bind at 1, gets at 1.
  set (db2 := with_posts _ (with_posts _ db)).
  destruct (@recount_run (now req) (filter hasLikes (posts db2)) db2)
    as (db3 & E3 & Hu3 & Hc3 & Hm3 & Hv3); [apply valid_after_pull, Hvalid|].
  cbn [users conversations messages with_posts db2] in Hu3, Hc3, Hm3.
  unfold bind at 1. rewrite E3.
  unfold bind at 1, modify at 1. unfold bind at 1, modify at 1.
  unfold bind at 1, gets at 1. cbn [conversations with_users].
  rewrite Hc3.
  set (db4 := with_users _ (with_users _ db3)).
  set (mine := filter _ (conversations db)).
  destruct (forEach_teardown_run req userId mine db4) as (E5 & _ & _).
  unfold bind at 1. rewrite E5.
  assert (Hd : db4 = mkDb
            (updateMany (fun u => includes userId (User.following u))
               (stamped User.touch (now req) (User.set_following (pull userId)))
               (updateMany (fun u => includes userId (User.followers u))
                  (stamped User.touch (now req) (User.set_followers (pull userId)))
                  (users db)))
            (posts db3) (conversations db) (messages db))
    by (unfold db4, with_users; cbn [users posts conversations messages]; congruence).
  rewrite Hd.
  unfold bind, modify, ret.
  eexists _, (posts db3). repeat split.
  apply Hv3. unfold db2. cbn [posts with_posts].
  clear -Hvalid. rewrite Forall_forall in *. intros p Hp.
  unfold updateMany in Hp. apply in_map_iff in Hp as (p0 & <- & Hp0).
  apply filter_In in Hp0 as (Hp0 & _).
  destruct (likedBy _ p0); [change (Post.validate p0 = true)|]; auto.
Qed.

(** C9. Let U be the user deleting the account, in a store where
    conversation identifiers are unique and the posts satisfy their schema
    (two parts of [Db_wf]), and let C be a conversation in which U
    participates.  DELETE
    /delete-account answers 200, and afterwards: when C has exactly two
    participants, no conversation record carries C's identifier and no
    message belongs to C; when C has any other number of participants, the
    record of C is kept with U taken out of its participant list and
    [updatedAt] set to the time of the request, nothing else changed, and
    the messages of C are all kept, those of the other senders as they
    were and those of U flagged as deleted, with [deletedAt] and
    [updatedAt] set to the time of the request and their content
    replaced. *)
Theorem delete_account_conversations :
  forall (req : Req) (db : Db) (c : Conversation.t),
    NoDup (map Conversation._id (conversations db)) ->
    Forall (fun p => Post.validate p = true) (posts db) ->
    In c (conversations db) ->
    In (User._id (req_user req)) (Conversation.participants c) ->
    exists db',
      delete_account req db =
        (json 200 (JRedirect "Cuenta eliminada exitosamente" "/login"), db') /\
      (List.length (Conversation.participants c) = 2 ->
         conversation_by_id (Conversation._id c) db' = [] /\
         messages_of (Conversation._id c) db' = [])
      /\
      (List.length (Conversation.participants c) <> 2 ->
         conversation_by_id (Conversation._id c) db' =
           [Conversation.mk (Conversation._id c)
              (pull (User._id (req_user req)) (Conversation.participants c))
              (Conversation.lastMessage c) (Conversation.lastActivity c) (now req)] /\
         messages_of (Conversation._id c) db' =
           map (fun m =>
                  if Nat.eqb (Message.sender m) (User._id (req_user req))
                  then Message.mk (Message._id m) (Message.conversation m) (Message.sender m)
                         (js "[Usuario eliminado]") (Message.image m) (Message.messageType m)
                         true (Some (now req)) (Message.createdAt m) (now req)
                  else m)
               (messages_of (Conversation._id c) db)).
Proof.
  intros req db c Hnd Hvalid Hc Hpart.
  destruct (@delete_account_run req db Hvalid) as (us & ps & _ & E & _).
  set (userId := User._id (req_user req)) in *.
  set (db4 := mkDb us ps (conversations db) (messages db)) in *.
  set (mine := filter (fun x => includes userId (Conversation.participants x))
                      (conversations db)) in *.
  eexists. split; [exact E|].
  assert (Hin : In c mine).
  { apply filter_In. split; auto. now apply includes_In. }
  assert (Hone : conversation_by_id (Conversation._id c) db4 = [c]).
  { now apply unique_by_id. }
  destruct (@forEach_teardown_hit req userId mine db4 c (unique_filter _ _ Hnd) Hin Hone)
    as (H2 & Hn).
  split; intros Hlen.
  - exact (H2 Hlen).
  - exact (Hn Hlen).
Qed.

Lemma sample_trio_unique : NoDup (map Conversation._id (conversations Sample.trio_db)).
Proof.
  cbn. constructor.
  - intros [H|[]]. discriminate H.
  - constructor; [intros []|constructor].
Defined.

Lemma delete_account_conversations_witness :
  (exists db',
     delete_account (Sample.request Sample.alice) Sample.trio_db =
       (json 200 (JRedirect "Cuenta eliminada exitosamente" "/login"), db') /\
     conversation_by_id 5 db' = [] /\ messages_of 5 db' = [])
  /\
  (exists db',
     delete_account (Sample.request Sample.alice) Sample.trio_db =
       (json 200 (JRedirect "Cuenta eliminada exitosamente" "/login"), db') /\
     conversation_by_id 7 db' = [Conversation.mk 7 [2; 3] None 0 1000] /\
     messages_of 7 db' =
       [Message.mk 31 7 1 (js "[Usuario eliminado]") None Message.text true (Some 1000) 1 1000;
        Message.mk 32 7 2 (js "b") None Message.text false None 2 2]).
Proof.
  split.
  - destruct (@delete_account_conversations (Sample.request Sample.alice) Sample.trio_db
                Sample.chat sample_trio_unique (Forall_nil _)
                (or_intror (or_introl eq_refl)) (or_introl eq_refl))
      as (db' & E & Htwo & _).
    exists db'. split; [exact E|]. exact (Htwo eq_refl).
  - destruct (@delete_account_conversations (Sample.request Sample.alice) Sample.trio_db
                Sample.group sample_trio_unique (Forall_nil _)
                (or_introl eq_refl) (or_introl eq_refl))
      as (db' & E & _ & Hother).
    exists db'. split; [exact E|]. apply Hother. discriminate.
Defined.

(** ** The mirrored follow relation is an invariant *)

Lemma includes_app (x : ObjectId) (l1 l2 : list ObjectId) :
  includes x (l1 ++ l2) = includes x l1 || includes x l2.
Proof. apply existsb_app. Qed.

Lemma includes_addToSet (x y : ObjectId) (l : list ObjectId) :
  includes x (addToSet y l) = Nat.eqb x y || includes x l.
Proof.
  unfold addToSet. destruct (includes y l) eqn:E.
  - destruct (Nat.eqb x y) eqn:Exy; auto.
    apply Nat.eqb_eq in Exy. now subst.
  - rewrite includes_app. cbn. rewrite orb_false_r. apply orb_comm.
Qed.

Lemma includes_pull (x y : ObjectId) (l : list ObjectId) :
  includes x (pull y l) = negb (Nat.eqb x y) && includes x l.
Proof.
  unfold pull, includes. induction l as [|z l IH]; cbn.
  - now rewrite andb_false_r.
  - destruct (Nat.eqb z y) eqn:Ezy; cbn; rewrite IH.
    + apply Nat.eqb_eq in Ezy. subst z.
      destruct (Nat.eqb x y); cbn; auto.
    + destruct (Nat.eqb x z) eqn:Exz; cbn; auto.
      apply Nat.eqb_eq in Exz. subst z. now rewrite Ezy.
Qed.

Lemma findById_update_inv (i a : ObjectId) (f : User.t -> User.t) (us : list User.t)
    (u' : User.t) :
  (forall d, User._id (f d) = User._id d) ->
  findById User._id a (findByIdAndUpdate User._id i f us) = Some u' ->
  exists u, findById User._id a us = Some u /\ u' = if Nat.eqb a i then f u else u.
Proof.
  intros Hf. rewrite findById_update; auto.
  destruct (findById User._id a us) as [u|]; destruct (Nat.eqb a i); cbn;
    intros E; try discriminate; injection E as <-; eauto.
Qed.

(** POST /follow/:username keeps the two arrays mirrored. *)
Lemma post_follow_mirrored (req : Req) (username : string) (db : Db) :
  follow_mirrored (users db) ->
  follow_mirrored (users (snd (post_follow req username db))).
Proof.
  intros Hmir. unfold post_follow, route, bind, gets, modify.
  destruct (findOne _ (users db)) as [t|]; [|exact Hmir].
  destruct (Nat.eqb (User._id t) (User._id (req_user req))); [exact Hmir|].
  destruct (findById User._id (User._id (req_user req)) (users db)) as [cu|]; [|exact Hmir].
  destruct (includes (User._id t) (User.following cu)); [exact Hmir|].
  cbn. intros a b ua' ub' Ha Hb.
  apply findById_update_inv in Ha as (ua1 & Ha & ->); [|reflexivity].
  apply findById_update_inv in Ha as (ua & Ha & ->); [|reflexivity].
  apply findById_update_inv in Hb as (ub1 & Hb & ->); [|reflexivity].
  apply findById_update_inv in Hb as (ub & Hb & ->); [|reflexivity].
  pose proof (Hmir a b ua ub Ha Hb) as E.
  destruct (Nat.eqb a (User._id t)), (Nat.eqb a (User._id (req_user req))) eqn:Ear,
           (Nat.eqb b (User._id t)) eqn:Ebt, (Nat.eqb b (User._id (req_user req)));
    unfold stamped, User.touch, User.set_following, User.set_followers;
    cbn [User.following User.followers];
    rewrite ?includes_addToSet, ?Ear, ?Ebt, ?E; cbn [orb]; auto.
Qed.

(** DELETE /unfollow/:username keeps the two arrays mirrored. *)
Lemma delete_unfollow_mirrored (req : Req) (username : string) (db : Db) :
  follow_mirrored (users db) ->
  follow_mirrored (users (snd (delete_unfollow req username db))).
Proof.
  intros Hmir. unfold delete_unfollow, route, bind, gets, modify.
  destruct (findOne _ (users db)) as [t|]; [|exact Hmir].
  cbn. intros a b ua' ub' Ha Hb.
  apply findById_update_inv in Ha as (ua1 & Ha & ->); [|reflexivity].
  apply findById_update_inv in Ha as (ua & Ha & ->); [|reflexivity].
  apply findById_update_inv in Hb as (ub1 & Hb & ->); [|reflexivity].
  apply findById_update_inv in Hb as (ub & Hb & ->); [|reflexivity].
  pose proof (Hmir a b ua ub Ha Hb) as E.
  destruct (Nat.eqb a (User._id t)), (Nat.eqb a (User._id (req_user req))) eqn:Ear,
           (Nat.eqb b (User._id t)) eqn:Ebt, (Nat.eqb b (User._id (req_user req)));
    unfold stamped, User.touch, User.set_following, User.set_followers;
    cbn [User.following User.followers];
    rewrite ?includes_pull, ?Ear, ?Ebt, ?E; cbn [negb andb]; auto.
Qed.

(** ** Well-formed stores *)

Section Membership.
Variable Doc : Type.

Lemma In_updateOne (p : Doc -> bool) (f : Doc -> Doc) (c : list Doc) (x : Doc) :
  In x (updateOne p f c) -> In x c \/ exists y, In y c /\ p y = true /\ x = f y.
Proof.
  induction c as [|d c IH]; cbn; [tauto|].
  destruct (p d) eqn:E; cbn.
  - intros [<-|H]; [right; exists d|]; auto.
  - intros [<-|H]; auto. destruct (IH H) as [H'|(y & Hy & Hp & ->)]; auto.
    right. exists y. auto.
Qed.

Lemma In_updateOne_image (p : Doc -> bool) (f : Doc -> Doc) (c : list Doc) (y : Doc) :
  In y c -> In y (updateOne p f c) \/ In (f y) (updateOne p f c).
Proof.
  induction c as [|d c IH]; cbn; [tauto|].
  destruct (p d) eqn:E; cbn.
  - intros [<-|H]; auto.
  - intros [<-|H]; auto. destruct (IH H); auto.
Qed.

Lemma In_deleteOne (p : Doc -> bool) (c : list Doc) (x : Doc) :
  In x (deleteOne p c) -> In x c.
Proof.
  induction c as [|d c IH]; cbn; auto.
  destruct (p d); cbn; [auto|]. intros [<-|H]; auto.
Qed.

End Membership.

Section CollectionInvariants.
Variable Doc : Type.
Variable id_of : Doc -> ObjectId.

Lemma ids_updateOne (p : Doc -> bool) (f : Doc -> Doc) (c : list Doc) :
  (forall d, id_of (f d) = id_of d) ->
  map id_of (updateOne p f c) = map id_of c.
Proof.
  intros Hf. induction c as [|x c IH]; cbn; auto.
  destruct (p x); cbn; now rewrite ?Hf, ?IH.
Qed.

Lemma ids_updateMany (p : Doc -> bool) (f : Doc -> Doc) (c : list Doc) :
  (forall d, id_of (f d) = id_of d) ->
  map id_of (updateMany p f c) = map id_of c.
Proof.
  intros Hf. unfold updateMany. rewrite map_map. apply map_ext.
  intros x. now destruct (p x).
Qed.

Lemma NoDup_deleteOne (p : Doc -> bool) (c : list Doc) :
  NoDup (map id_of c) -> NoDup (map id_of (deleteOne p c)).
Proof.
  induction c as [|d c IH]; cbn; auto.
  intros H. inversion H as [|? ? Hd Hc]; subst.
  destruct (p d); cbn; auto.
  constructor; auto. intros Hin. apply Hd.
  apply in_map_iff in Hin as (y & <- & Hy). apply in_map. now apply In_deleteOne in Hy.
Qed.

Lemma findById_absent (i : ObjectId) (c : list Doc) :
  ~ In i (map id_of c) -> findById id_of i c = None.
Proof.
  intros H. unfold findById. destruct (find _ c) as [d|] eqn:E; auto.
  apply find_some in E as (Hd & E). apply Nat.eqb_eq in E. subst i.
  destruct H. now apply in_map.
Qed.

Lemma findById_delete (i a : ObjectId) (c : list Doc) :
  NoDup (map id_of c) ->
  findById id_of a (findByIdAndDelete id_of i c) =
  if Nat.eqb a i then None else findById id_of a c.
Proof.
  unfold findByIdAndDelete. induction c as [|d c IH]; cbn; intros Hnd.
  - now destruct (Nat.eqb a i).
  - inversion Hnd as [|? ? Hd Hc]; subst.
    destruct (Nat.eqb (id_of d) i) eqn:Edi.
    + apply Nat.eqb_eq in Edi. subst i.
      destruct (Nat.eqb a (id_of d)) eqn:Ead.
      * apply Nat.eqb_eq in Ead. subst a. now apply findById_absent.
      * rewrite Nat.eqb_sym, Ead. reflexivity.
    + cbn. destruct (Nat.eqb (id_of d) a) eqn:Eda.
      * apply Nat.eqb_eq in Eda. subst a. now rewrite Edi.
      * now apply IH.
Qed.

Lemma findById_updateMany (a : ObjectId) (p : Doc -> bool) (f : Doc -> Doc) (c : list Doc) :
  (forall d, id_of (f d) = id_of d) ->
  findById id_of a (updateMany p f c) =
  option_map (fun d => if p d then f d else d) (findById id_of a c).
Proof.
  intros Hf. unfold findById, updateMany. induction c as [|d c IH]; cbn; auto.
  replace (id_of (if p d then f d else d)) with (id_of d) by (now destruct (p d)).
  now destruct (Nat.eqb (id_of d) a).
Qed.

Lemma findById_stored (i : ObjectId) (c : list Doc) :
  findById id_of i c <> None <-> In i (map id_of c).
Proof.
  split.
  - unfold findById. destruct (find _ c) as [d|] eqn:E; [intros _|congruence].
    apply find_some in E as (Hd & E). apply Nat.eqb_eq in E. subst i. now apply in_map.
  - intros H E. apply in_map_iff in H as (d & <- & Hd).
    apply (find_none _ _ E) in Hd. now rewrite Nat.eqb_refl in Hd.
Qed.

End CollectionInvariants.

Lemma stored_iff_listed (us : list User.t) (i : ObjectId) :
  findById User._id i us <> None <-> In i (map User._id us).
Proof. apply findById_stored. Qed.

(** The hypotheses of the properties above hold in a well-formed store. *)
Lemma wf_senders_resolve (db : Db) (conversationId : ObjectId) :
  Db_wf db -> senders_resolve db conversationId.
Proof.
  intros Hwf m Hm _ Hdel.
  destruct (wf_senders Hwf m Hm Hdel) as (c & Hc & _ & Hs).
  exact (wf_participants Hwf c _ Hc Hs).
Qed.

Lemma wf_stored_message_valid (db : Db) (messageId : ObjectId) (m : Message.t) :
  Db_wf db -> findById Message._id messageId (messages db) = Some m ->
  Message.validate m = true.
Proof.
  intros Hwf Hm. apply find_some in Hm as (Hm & _).
  pose proof (wf_messages Hwf) as H. rewrite Forall_forall in H. auto.
Qed.

(** Reading the history writes nothing. *)
Lemma get_messages_reads (req : Req) (conversationId : ObjectId) (page limit : nat) (db : Db) :
  snd (get_messages req conversationId page limit db) = db.
Proof.
  unfold get_messages, route, bind, gets.
  destruct (findById _ _ _) as [c|]; cbn; auto.
  destruct (includes _ _); cbn; auto.
  destruct (_ && _); cbn; auto.
  now destruct (mapM _ _).
Qed.

Lemma users_only_wf (db : Db) (us : list User.t) :
  Db_wf db -> map User._id us = map User._id (users db) -> follow_mirrored us ->
  Db_wf (mkDb us (posts db) (conversations db) (messages db)).
Proof.
  intros Hwf Hids Hmir.
  constructor; cbn [users posts conversations messages]; try apply Hwf; auto.
  - rewrite Hids. apply Hwf.
  - intros c p Hc Hp. apply stored_iff_listed. rewrite Hids. apply stored_iff_listed.
    exact (wf_participants Hwf c p Hc Hp).
Qed.

Lemma post_follow_frame (req : Req) (username : string) (db : Db) :
  exists us,
    snd (post_follow req username db) = mkDb us (posts db) (conversations db) (messages db) /\
    map User._id us = map User._id (users db).
Proof.
  unfold post_follow, route, bind, gets, modify.
  assert (Hsame : exists us, db = mkDb us (posts db) (conversations db) (messages db) /\
                             map User._id us = map User._id (users db)).
  { exists (users db). now destruct db. }
  destruct (findOne _ (users db)) as [t|]; [|exact Hsame].
  destruct (Nat.eqb (User._id t) (User._id (req_user req))); [exact Hsame|].
  destruct (findById User._id (User._id (req_user req)) (users db)) as [cu|]; [|exact Hsame].
  destruct (includes (User._id t) (User.following cu)); [exact Hsame|].
  cbn. eexists. split; [reflexivity|].
  unfold findByIdAndUpdate. cbn [users with_users]. now rewrite !ids_updateOne.
Qed.

Lemma delete_unfollow_frame (req : Req) (username : string) (db : Db) :
  exists us,
    snd (delete_unfollow req username db) =
      mkDb us (posts db) (conversations db) (messages db) /\
    map User._id us = map User._id (users db).
Proof.
  unfold delete_unfollow, route, bind, gets, modify.
  destruct (findOne _ (users db)) as [t|].
  - cbn. eexists. split; [reflexivity|].
    unfold findByIdAndUpdate. cbn [users with_users]. now rewrite !ids_updateOne.
  - exists (users db). now destruct db.
Qed.

Lemma post_follow_wf (req : Req) (username : string) (db : Db) :
  Db_wf db -> Db_wf (snd (post_follow req username db)).
Proof.
  intros Hwf. pose proof (@post_follow_mirrored req username db (wf_mirrored Hwf)) as Hmir.
  destruct (post_follow_frame req username db) as (us & E & Hids).
  rewrite E in *. now apply users_only_wf.
Qed.

Lemma delete_unfollow_wf (req : Req) (username : string) (db : Db) :
  Db_wf db -> Db_wf (snd (delete_unfollow req username db)).
Proof.
  intros Hwf. pose proof (@delete_unfollow_mirrored req username db (wf_mirrored Hwf)) as Hmir.
  destruct (delete_unfollow_frame req username db) as (us & E & Hids).
  rewrite E in *. now apply users_only_wf.
Qed.

Lemma db_eta (db : Db) : db = mkDb (users db) (posts db) (conversations db) (messages db).
Proof. now destruct db. Qed.

Lemma posts_only_wf (db : Db) (ps : list Post.t) :
  Db_wf db -> Forall (fun p => Post.validate p = true) ps ->
  Db_wf (mkDb (users db) ps (conversations db) (messages db)).
Proof.
  intros Hwf Hps.
  constructor; cbn [users posts conversations messages]; try apply Hwf; auto.
Qed.

Lemma Post_save_frame (date : Date) (this : PostDoc) (db : Db) :
  Forall (fun p => Post.validate p = true) (posts db) ->
  exists ps,
    snd (Post_save date this db) = mkDb (users db) ps (conversations db) (messages db) /\
    Forall (fun p => Post.validate p = true) ps.
Proof.
  intros Hall. unfold Post_save.
  destruct (Post.validate (pre_save this)) eqn:E; cbn.
  - eexists. split; [reflexivity|]. apply saveLoaded_Forall; [|exact Hall].
    now destruct (likesModified this || likesCountModified this).
  - exists (posts db). split; [apply db_eta|assumption].
Qed.

Lemma post_like_frame (req : Req) (postId : ObjectId) (db : Db) :
  Forall (fun p => Post.validate p = true) (posts db) ->
  exists ps,
    snd (post_like req postId db) = mkDb (users db) ps (conversations db) (messages db) /\
    Forall (fun p => Post.validate p = true) ps.
Proof.
  intros Hall.
  assert (Hsame : exists ps, db = mkDb (users db) ps (conversations db) (messages db) /\
                             Forall (fun p => Post.validate p = true) ps).
  { exists (posts db). split; [apply db_eta|assumption]. }
  unfold post_like, route. unfold bind at 1, gets at 1.
  destruct (findById Post._id postId (posts db)) as [p|]; [|exact Hsame].
  destruct (hasUserLiked _ _); [exact Hsame|].
  unfold addLike.
  destruct (find _ (Post.likes (doc (hydrate p)))); [exact Hsame|].
  cbn [negb]. unfold bind, gets.
  match goal with |- context [Post_save ?t ?d db] =>
    destruct (@Post_save_frame t d db Hall) as (ps & E & Hps);
    destruct (Post_save t d db) as [[post|r|] db']
  end; cbn in E |- *; subst db'; cbn [users]; eauto.
  destruct (recentLikes _ _); cbn; eauto.
Qed.

Lemma delete_like_frame (req : Req) (postId : ObjectId) (db : Db) :
  Forall (fun p => Post.validate p = true) (posts db) ->
  exists ps,
    snd (delete_like req postId db) = mkDb (users db) ps (conversations db) (messages db) /\
    Forall (fun p => Post.validate p = true) ps.
Proof.
  intros Hall.
  assert (Hsame : exists ps, db = mkDb (users db) ps (conversations db) (messages db) /\
                             Forall (fun p => Post.validate p = true) ps).
  { exists (posts db). split; [apply db_eta|assumption]. }
  unfold delete_like, route. unfold bind at 1, gets at 1.
  destruct (findById Post._id postId (posts db)) as [p|]; [|exact Hsame].
  destruct (hasUserLiked _ _); [|exact Hsame].
  unfold removeLike. cbn [negb].
  destruct (_ <? _); [|exact Hsame].
  cbn [negb]. unfold bind, gets.
  match goal with |- context [Post_save ?t ?d db] =>
    destruct (@Post_save_frame t d db Hall) as (ps & E & Hps);
    destruct (Post_save t d db) as [[post|r|] db']
  end; cbn in E |- *; subst db'; cbn [users]; eauto.
  destruct (recentLikes _ _); cbn; eauto.
Qed.

Lemma post_like_wf (req : Req) (postId : ObjectId) (db : Db) :
  Db_wf db -> Db_wf (snd (post_like req postId db)).
Proof.
  intros Hwf. destruct (@post_like_frame req postId db (wf_posts Hwf)) as (ps & -> & Hps).
  now apply posts_only_wf.
Qed.

Lemma delete_like_wf (req : Req) (postId : ObjectId) (db : Db) :
  Db_wf db -> Db_wf (snd (delete_like req postId db)).
Proof.
  intros Hwf. destruct (@delete_like_frame req postId db (wf_posts Hwf)) as (ps & -> & Hps).
  now apply posts_only_wf.
Qed.

Lemma Forall_updateOne (Doc : Type) (P : Doc -> Prop) (p : Doc -> bool) (f : Doc -> Doc)
    (c : list Doc) :
  (forall d, P d -> P (f d)) -> Forall P c -> Forall P (updateOne p f c).
Proof.
  intros Hf. induction 1 as [|x c Hx Hc IH]; cbn; [constructor|].
  destruct (p x); constructor; auto.
Qed.

Lemma delete_message_wf (req : Req) (messageId : ObjectId) (db : Db) :
  Db_wf db -> Db_wf (snd (delete_message req messageId db)).
Proof.
  intros Hwf. unfold delete_message, route, bind, gets.
  destruct (findById Message._id messageId (messages db)) as [m|]; [|exact Hwf].
  destruct (Nat.eqb (Message.sender m) (User._id (req_user req))); [|exact Hwf].
  cbn [negb]. unfold Message_save.
  destruct (Message.validate (Message.set_deleted (now req) m)) eqn:Ev; [|exact Hwf].
  cbn [fst snd]. unfold bind, modify, ret, with_messages. cbn [fst snd].
  constructor; cbn [users posts conversations messages]; try apply Hwf.
  - unfold saveLoaded, findByIdAndUpdate. apply Forall_updateOne; [|apply Hwf].
    intros d _. now destruct (_ || _).
  - intros x Hx Hdel. unfold saveLoaded, findByIdAndUpdate in Hx.
    apply In_updateOne in Hx as [Hx|(y & _ & _ & ->)].
    + exact (wf_senders Hwf x Hx Hdel).
    + now destruct (_ || _).
Qed.

Lemma gate_both_stored (us : list User.t) (a b : ObjectId) :
  checkMutualFollow us a b = true ->
  findById User._id a us <> None /\ findById User._id b us <> None.
Proof.
  unfold checkMutualFollow.
  destruct (findById User._id a us), (findById User._id b us); try discriminate.
  split; discriminate.
Qed.

Lemma post_conversation_wf (req : Req) (username : string) (db : Db) :
  Db_wf db ->
  ~ In (newId req) (map Conversation._id (conversations db)) ->
  Db_wf (snd (post_conversation req username db)).
Proof.
  intros Hwf Hfresh. unfold post_conversation, route, bind, gets.
  destruct (findOne _ (users db)) as [t|]; [|exact Hwf].
  destruct (checkMutualFollow _ _ _) eqn:Hgate; [|exact Hwf].
  cbn [negb].
  destruct (Conversation.findConversation _ _ _) as [c|]; [exact Hwf|].
  cbn. apply gate_both_stored in Hgate as (Hme & Ht). unfold with_conversations.
  constructor; cbn [users posts conversations messages]; try apply Hwf.
  - unfold saveNew. rewrite map_app. cbn.
    apply NoDup_app; [apply Hwf|apply NoDup_cons; [tauto|constructor]|].
    intros i Hi [<-|[]]. contradiction.
  - intros c p Hc Hp. unfold saveNew in Hc. apply in_app_iff in Hc as [Hc|[<-|[]]].
    + exact (wf_participants Hwf c p Hc Hp).
    + cbn in Hp. destruct Hp as [<-|[<-|[]]]; assumption.
  - intros m Hm Hdel. destruct (wf_senders Hwf m Hm Hdel) as (c & Hc & Hid & Hs).
    exists c. repeat split; auto. unfold saveNew. apply in_app_iff. now left.
Qed.

Lemma post_message_wf (req : Req) (form : MessageForm) (db : Db) :
  Db_wf db -> Db_wf (snd (post_message req form db)).
Proof.
  intros Hwf. unfold post_message, route.
  destruct (validationResult form) as [|e es]; [|exact Hwf].
  destruct (form_conversationId form) as [cid|]; [|exact Hwf].
  destruct (_ && _); [exact Hwf|].
  unfold bind at 1, gets at 1.
  destruct (findById Conversation._id cid (conversations db)) as [conv|] eqn:Hconv;
    [|exact Hwf].
  destruct (includes _ (Conversation.participants conv)) eqn:Hpart; [|exact Hwf].
  cbn [negb]. unfold bind at 1, gets at 1.
  match goal with |- context [negb ?g] => destruct g end; [|exact Hwf].
  cbn [negb]. unfold bind at 1, Message_save_new.
  match goal with |- context [Message.validate ?m] =>
    set (message := m); destruct (Message.validate message) eqn:Ev
  end; [|exact Hwf].
  unfold modify at 1. unfold bind, gets, modify.
  assert (Hgoal : Db_wf (mkDb (users db) (posts db)
                    (findByIdAndUpdate Conversation._id cid
                       (stamped Conversation.touch (now req)
                          (Conversation.set_last (Message._id message) (now req)))
                       (conversations db))
                    (messages db ++ [message]))).
  { apply find_some in Hconv as (Hin & Hid). apply Nat.eqb_eq in Hid.
    apply includes_In in Hpart.
    constructor; cbn [users posts conversations messages]; try apply Hwf.
    - unfold findByIdAndUpdate. rewrite ids_updateOne; [apply Hwf|reflexivity].
    - apply Forall_app. split; [apply Hwf|]. now constructor.
    - intros c p Hc Hp. unfold findByIdAndUpdate in Hc.
      apply In_updateOne in Hc as [Hc|(y & Hy & _ & ->)].
      + exact (wf_participants Hwf c p Hc Hp).
      + exact (wf_participants Hwf y p Hy Hp).
    - assert (Hkeep : forall c, In c (conversations db) ->
                exists c', In c' (findByIdAndUpdate Conversation._id cid
                                    (stamped Conversation.touch (now req)
                                       (Conversation.set_last (Message._id message) (now req)))
                                    (conversations db)) /\
                           Conversation._id c' = Conversation._id c /\
                           Conversation.participants c' = Conversation.participants c).
      { intros c Hc.
        destruct (In_updateOne_image
                    (fun d => Nat.eqb (Conversation._id d) cid)
                    (stamped Conversation.touch (now req)
                       (Conversation.set_last (Message._id message) (now req))) _ _ Hc);
          eexists; split; eauto. }
      intros m Hm Hdel. apply in_app_iff in Hm as [Hm|[<-|[]]].
      + destruct (wf_senders Hwf m Hm Hdel) as (c & Hc & Hcid & Hs).
        destruct (Hkeep c Hc) as (c' & Hc' & E1 & E2).
        exists c'. rewrite E1, E2. auto.
      + destruct (Hkeep conv Hin) as (c' & Hc' & E1 & E2).
        exists c'. rewrite E1, E2. cbn. auto. }
  now destruct (formatMessage _ _ _ _).
Qed.

Section TeardownInvariants.
Variable req : Req.
Variable userId : ObjectId.

Lemma forEach_teardown_inv (P : Db -> Prop) :
  (forall c db, P db -> P (snd (teardown req userId c db))) ->
  forall l db, P db -> P (snd (forEach l (teardown req userId) db)).
Proof.
  intros Hstep l. induction l as [|c l IH]; intros db Hdb; [exact Hdb|].
  rewrite forEach_teardown_cons. apply IH, Hstep, Hdb.
Qed.

Lemma teardown_unique (c : Conversation.t) (db : Db) :
  NoDup (map Conversation._id (conversations db)) ->
  NoDup (map Conversation._id (conversations (snd (teardown req userId c db)))).
Proof.
  intros H. unfold teardown, bind, modify.
  destruct (List.length (Conversation.participants c) =? 2); cbn.
  - now apply NoDup_deleteOne.
  - unfold findByIdAndUpdate. now rewrite ids_updateOne.
Qed.

Lemma teardown_valid (c : Conversation.t) (db : Db) :
  Forall (fun m => Message.validate m = true) (messages db) ->
  Forall (fun m => Message.validate m = true) (messages (snd (teardown req userId c db))).
Proof.
  intros H.
  assert (H1 : Forall (fun m => Message.validate m = true)
                 (updateMany
                    (fun m => Nat.eqb (Message.conversation m) (Conversation._id c)
                              && Nat.eqb (Message.sender m) userId)
                    (stamped Message.touch (now req)
                       (Message.set_redacted (now req) (js "[Usuario eliminado]")))
                    (messages db))).
  { unfold updateMany. rewrite Forall_forall in *. intros m Hm.
    apply in_map_iff in Hm as (m0 & <- & Hm0).
    destruct (_ && _); auto.
    unfold Message.validate. cbn. now rewrite orb_true_r. }
  unfold teardown, bind, modify.
  destruct (List.length (Conversation.participants c) =? 2); cbn; auto.
  unfold deleteMany. rewrite Forall_forall in *. intros m Hm.
  apply filter_In in Hm as (Hm & _). auto.
Qed.

End TeardownInvariants.

Lemma same_id_same_conversation (cs : list Conversation.t) (c1 c2 : Conversation.t) :
  NoDup (map Conversation._id cs) -> In c1 cs -> In c2 cs ->
  Conversation._id c1 = Conversation._id c2 -> c1 = c2.
Proof.
  intros Hnd H1 H2 E.
  assert (H : In c2 (filter (fun x => Nat.eqb (Conversation._id x) (Conversation._id c1)) cs)).
  { apply filter_In. split; auto. apply Nat.eqb_eq. auto. }
  rewrite (@unique_by_id cs c1 Hnd H1) in H. destruct H as [H|[]]. exact H.
Qed.

Section AfterTeardown.
Variable req : Req.
Variable userId : ObjectId.
Variable db4 : Db.
Hypothesis Hnd : NoDup (map Conversation._id (conversations db4)).

Local Abbreviation mine :=
  (filter (fun c => includes userId (Conversation.participants c)) (conversations db4)).
Local Abbreviation db5 := (snd (forEach mine (teardown req userId) db4)).

Lemma mine_by_id (k : ObjectId) :
  In k (map Conversation._id mine) ->
  exists c, In c (conversations db4) /\ Conversation._id c = k /\
            includes userId (Conversation.participants c) = true /\
            conversation_by_id k db4 = [c] /\ In c mine.
Proof.
  intros Hk. apply in_map_iff in Hk as (c & <- & Hc).
  pose proof Hc as Hc'. apply filter_In in Hc' as (Hin & Hinc).
  exists c. repeat split; auto. now apply unique_by_id.
Qed.

Lemma conversations_after (c' : Conversation.t) :
  In c' (conversations db5) ->
  (In c' (conversations db4) /\ includes userId (Conversation.participants c') = false)
  \/
  (exists c, In c (conversations db4) /\
             includes userId (Conversation.participants c) = true /\
             c' = Conversation.touch (now req) (Conversation.set_participants (pull userId) c)).
Proof.
  intros Hc'.
  assert (Hview : In c' (conversation_by_id (Conversation._id c') db5)).
  { apply filter_In. split; auto. apply Nat.eqb_refl. }
  destruct (in_dec Nat.eq_dec (Conversation._id c') (map Conversation._id mine)) as [Hk|Hk].
  - destruct (@mine_by_id _ Hk) as (c & Hc & Hid & Hinc & Hone & Hmine).
    rewrite <- Hid in Hone, Hview.
    destruct (@forEach_teardown_hit req userId mine db4 c (@unique_filter _ _ Hnd) Hmine Hone)
      as (H2 & Hn).
    destruct (Nat.eq_dec (List.length (Conversation.participants c)) 2) as [Hlen|Hlen].
    + destruct (H2 Hlen) as (E & _). rewrite E in Hview. destruct Hview.
    + destruct (Hn Hlen) as (E & _). rewrite E in Hview.
      destruct Hview as [<-|[]]. right. exists c. auto.
  - destruct (@forEach_teardown_frame req userId mine db4 _ Hk) as (E & _).
    rewrite E in Hview. apply filter_In in Hview as (Hin & _).
    left. split; auto.
    destruct (includes userId (Conversation.participants c')) eqn:Hinc; auto.
    destruct Hk. apply in_map. apply filter_In. auto.
Qed.

Lemma conversations_kept (c : Conversation.t) :
  In c (conversations db4) ->
  (includes userId (Conversation.participants c) = false -> In c (conversations db5)) /\
  (includes userId (Conversation.participants c) = true ->
   List.length (Conversation.participants c) <> 2 ->
   In (Conversation.touch (now req) (Conversation.set_participants (pull userId) c))
      (conversations db5)).
Proof.
  intros Hc. pose proof (@unique_by_id _ _ Hnd Hc) as Hone.
  fold (conversation_by_id (Conversation._id c) db4) in Hone. split.
  - intros Hinc.
    assert (Hk : ~ In (Conversation._id c) (map Conversation._id mine)).
    { intros Hk. destruct (@mine_by_id _ Hk) as (c2 & Hc2 & Hid & Hinc2 & _).
      rewrite (@same_id_same_conversation _ _ _ Hnd Hc2 Hc Hid) in Hinc2. congruence. }
    destruct (@forEach_teardown_frame req userId mine db4 _ Hk) as (E & _).
    rewrite Hone in E.
    assert (H : In c (conversation_by_id (Conversation._id c) db5)) by (rewrite E; now left).
    now apply filter_In in H.
  - intros Hinc Hlen.
    assert (Hmine : In c mine) by (apply filter_In; auto).
    destruct (@forEach_teardown_hit req userId mine db4 c (@unique_filter _ _ Hnd) Hmine Hone)
      as (_ & Hn).
    destruct (Hn Hlen) as (E & _).
    assert (H : In (Conversation.touch (now req) (Conversation.set_participants (pull userId) c))
                  (conversation_by_id (Conversation._id c) db5)) by (rewrite E; now left).
    now apply filter_In in H.
Qed.

Lemma messages_after (m : Message.t) :
  In m (messages db5) ->
  (~ In (Message.conversation m) (map Conversation._id mine) /\ In m (messages db4))
  \/
  (exists c m0, In c (conversations db4) /\
                includes userId (Conversation.participants c) = true /\
                Conversation._id c = Message.conversation m /\
                List.length (Conversation.participants c) <> 2 /\
                In m0 (messages db4) /\ m = redact req userId m0).
Proof.
  intros Hm.
  assert (Hview : In m (messages_of (Message.conversation m) db5)).
  { apply filter_In. split; auto. apply Nat.eqb_refl. }
  destruct (in_dec Nat.eq_dec (Message.conversation m) (map Conversation._id mine)) as [Hk|Hk].
  - destruct (@mine_by_id _ Hk) as (c & Hc & Hid & Hinc & Hone & Hmine).
    rewrite <- Hid in Hone, Hview.
    destruct (@forEach_teardown_hit req userId mine db4 c (@unique_filter _ _ Hnd) Hmine Hone)
      as (H2 & Hn).
    destruct (Nat.eq_dec (List.length (Conversation.participants c)) 2) as [Hlen|Hlen].
    + destruct (H2 Hlen) as (_ & E). rewrite E in Hview. destruct Hview.
    + destruct (Hn Hlen) as (_ & E). rewrite E in Hview.
      apply in_map_iff in Hview as (m0 & <- & Hm0). apply filter_In in Hm0 as (Hm0 & _).
      right. exists c, m0. repeat split; auto.
  - destruct (@forEach_teardown_frame req userId mine db4 _ Hk) as (_ & E).
    rewrite E in Hview. apply filter_In in Hview as (Hin & _).
    left. auto.
Qed.

End AfterTeardown.

Section Scrub.
Variable date : Date.
Variable userId : ObjectId.
Variable us0 : list User.t.
Hypothesis Hids : NoDup (map User._id us0).

Local Abbreviation scrubbed :=
  (updateMany (fun u => includes userId (User.following u))
     (stamped User.touch date (User.set_following (pull userId)))
     (updateMany (fun u => includes userId (User.followers u))
        (stamped User.touch date (User.set_followers (pull userId))) us0)).

Lemma scrubbed_ids : map User._id scrubbed = map User._id us0.
Proof. now rewrite !ids_updateMany. Qed.

Lemma scrubbed_find (a : ObjectId) (u' : User.t) :
  findById User._id a (findByIdAndDelete User._id userId scrubbed) = Some u' ->
  a <> userId /\
  exists u, findById User._id a us0 = Some u /\
            User.following u' = pull userId (User.following u) /\
            User.followers u' = pull userId (User.followers u).
Proof.
  rewrite findById_delete by (rewrite scrubbed_ids; exact Hids).
  destruct (Nat.eqb a userId) eqn:Ea; [discriminate|].
  apply Nat.eqb_neq in Ea.
  rewrite !findById_updateMany by reflexivity.
  destruct (findById User._id a us0) as [u|]; [|discriminate].
  cbn. intros E. injection E as <-. split; auto. exists u. split; auto.
  unfold stamped.
  destruct (includes userId (User.followers u)) eqn:E1;
    cbn [User.following User.followers User.set_followers User.touch];
    destruct (includes userId (User.following u)) eqn:E2;
    cbn [User.following User.followers User.set_following User.set_followers User.touch];
    rewrite ?(pull_absent _ _ E1), ?(pull_absent _ _ E2); auto.
Qed.

Lemma scrubbed_stored (p : ObjectId) :
  p <> userId -> findById User._id p us0 <> None ->
  findById User._id p (findByIdAndDelete User._id userId scrubbed) <> None.
Proof.
  intros Hp Hs.
  rewrite findById_delete by (rewrite scrubbed_ids; exact Hids).
  apply Nat.eqb_neq in Hp. rewrite Hp.
  rewrite !findById_updateMany by reflexivity.
  now destruct (findById User._id p us0).
Qed.

Lemma scrubbed_mirrored :
  follow_mirrored us0 ->
  follow_mirrored (findByIdAndDelete User._id userId scrubbed).
Proof.
  intros Hmir a b ua' ub' Ha Hb.
  apply scrubbed_find in Ha as (Hau & ua & Ha & -> & _).
  apply scrubbed_find in Hb as (Hbu & ub & Hb & _ & ->).
  rewrite !includes_pull.
  apply Nat.eqb_neq in Hau, Hbu. rewrite Hau, Hbu. cbn.
  exact (Hmir a b ua ub Ha Hb).
Qed.

Lemma scrubbed_unique : NoDup (map User._id (findByIdAndDelete User._id userId scrubbed)).
Proof. apply NoDup_deleteOne. rewrite scrubbed_ids. exact Hids. Qed.

End Scrub.

Lemma pull_In (x y : ObjectId) (l : list ObjectId) :
  In x (pull y l) <-> x <> y /\ In x l.
Proof.
  unfold pull. rewrite filter_In, negb_true_iff, Nat.eqb_neq. tauto.
Qed.

(** DELETE /delete-account keeps the store well-formed. *)
Lemma delete_account_wf (req : Req) (db : Db) :
  Db_wf db -> Db_wf (snd (delete_account req db)).
Proof.
  intros Hwf.
  destruct (@delete_account_run req db (wf_posts Hwf)) as (us & ps & Hps & E & Hus).
  rewrite E. cbn [snd]. clear E.
  set (userId := User._id (req_user req)) in *.
  set (db4 := mkDb us ps (conversations db) (messages db)).
  pose proof (wf_conversation_ids Hwf) as Hnd.
  change (conversations db) with (conversations db4) in Hnd.
  pose proof (@conversations_after req userId db4 Hnd) as Hafter.
  pose proof (@conversations_kept req userId db4 Hnd) as Hkept.
  pose proof (@messages_after req userId db4 Hnd) as Hmsgs.
  cbn [conversations messages db4] in Hafter, Hkept, Hmsgs. fold db4 in Hafter, Hkept, Hmsgs.
  set (mine := filter (fun c => includes userId (Conversation.participants c))
                      (conversations db)) in *.
  destruct (forEach_teardown_run req userId mine db4) as (_ & Hu5 & Hp5).
  set (db5 := snd (forEach mine (teardown req userId) db4)) in *.
  cbn [users posts db4] in Hu5, Hp5.
  unfold with_users. rewrite Hu5, Hp5, Hus.
  constructor; cbn [users posts conversations messages].
  - apply scrubbed_unique, Hwf.
  - apply (@forEach_teardown_inv req userId
             (fun d => NoDup (map Conversation._id (conversations d)))).
    + intros c d. apply teardown_unique.
    + exact Hnd.
  - apply scrubbed_mirrored; apply Hwf.
  - exact Hps.
  - apply (@forEach_teardown_inv req userId
             (fun d => Forall (fun m => Message.validate m = true) (messages d))).
    + intros c d. apply teardown_valid.
    + apply Hwf.
  - intros c' p Hc' Hp. apply scrubbed_stored; [apply Hwf| |].
    + destruct (Hafter c' Hc') as [(Hin & Hinc)|(c & Hc & Hinc & ->)].
      * intros ->. apply includes_In in Hp. congruence.
      * cbn in Hp. apply pull_In in Hp. tauto.
    + destruct (Hafter c' Hc') as [(Hin & Hinc)|(c & Hc & Hinc & ->)].
      * exact (wf_participants Hwf c' p Hin Hp).
      * cbn in Hp. apply pull_In in Hp as (_ & Hp).
        exact (wf_participants Hwf c p Hc Hp).
  - intros m Hm Hdel.
    destruct (Hmsgs m Hm) as [(Hk & Hin)|(c & m0 & Hc & Hinc & Hid & Hlen & Hm0 & ->)].
    + destruct (wf_senders Hwf m Hin Hdel) as (c & Hc & Hid & Hs).
      exists c. repeat split; auto.
      apply (Hkept c Hc).
      destruct (includes userId (Conversation.participants c)) eqn:Hinc; auto.
      destruct Hk. rewrite <- Hid. apply in_map. apply filter_In. auto.
    + unfold redact in Hdel, Hid |- *.
      destruct (Nat.eqb (Message.sender m0) userId) eqn:Es; [discriminate|].
      destruct (wf_senders Hwf m0 Hm0 Hdel) as (c0 & Hc0 & Hid0 & Hs).
      assert (c0 = c).
      { apply (@same_id_same_conversation (conversations db) c0 c
                 (wf_conversation_ids Hwf) Hc0 Hc).
        congruence. }
      subst c0.
      exists (Conversation.touch (now req) (Conversation.set_participants (pull userId) c)).
      repeat split; auto.
      * now apply (Hkept c Hc).
      * cbn. apply pull_In. split; auto. now apply Nat.eqb_neq.
Qed.

(** Every handler keeps the store well-formed, so the hypotheses of the
    properties above on the store hold after any sequence of requests
    served from a well-formed store. *)
Theorem step_wf (db db' : Db) : Db_wf db -> step db db' -> Db_wf db'.
Proof.
  intros Hwf Hstep. destruct Hstep.
  - now apply post_conversation_wf.
  - now rewrite get_messages_reads.
  - now apply post_message_wf.
  - now apply delete_message_wf.
  - now apply post_like_wf.
  - now apply delete_like_wf.
  - now apply post_follow_wf.
  - now apply delete_unfollow_wf.
  - now apply delete_account_wf.
Qed.

Theorem steps_wf (db db' : Db) : Db_wf db -> steps db db' -> Db_wf db'.
Proof.
  intros Hwf Hsteps. induction Hsteps as [|db1 db2 _ IH Hstep]; auto.
  exact (step_wf IH Hstep).
Qed.

Ltac sample_wf :=
  constructor;
  [ cbn; repeat constructor; cbn; intuition discriminate
  | cbn; repeat constructor; cbn; intuition discriminate
  | exact sample_people_mirrored
  | repeat constructor
  | repeat constructor
  | cbn; intros c p Hc Hp;
    repeat match goal with
           | H : _ \/ _ |- _ => destruct H
           | H : False |- _ => destruct H
           end; subst; cbn in *;
    repeat match goal with
           | H : _ \/ _ |- _ => destruct H
           | H : False |- _ => destruct H
           end; subst; discriminate
  | cbn; intros m Hm Hdel;
    repeat match goal with
           | H : _ \/ _ |- _ => destruct H
           | H : False |- _ => destruct H
           end; subst; try discriminate ].

(** The sample stores are well-formed. *)
Lemma sample_db_wf : Db_wf Sample.db.
Proof. sample_wf; exists Sample.chat; cbn; auto. Qed.

Lemma sample_stale_db_wf : Db_wf Sample.stale_db.
Proof. sample_wf. Qed.

Lemma sample_liked_db_wf : Db_wf Sample.liked_db.
Proof. sample_wf. Qed.

Lemma sample_trio_db_wf : Db_wf Sample.trio_db.
Proof.
  sample_wf; [exists Sample.group|exists Sample.group|exists Sample.chat]; cbn; auto.
Qed.

(** * Further properties *)

(** ** Follow routes *)

Section FindAfterUpdate.
Variable Doc : Type.

Lemma find_updateOne_some (p q : Doc -> bool) (f : Doc -> Doc) (c : list Doc) (d : Doc) :
  (forall x, q (f x) = q x) ->
  find q c = Some d ->
  exists d', find q (updateOne p f c) = Some d' /\ (d' = d \/ d' = f d).
Proof.
  intros Hq. induction c as [|x c IH]; cbn; [discriminate|].
  destruct (p x) eqn:Ep; cbn.
  - rewrite Hq. destruct (q x); intros E.
    + injection E as <-. eauto.
    + eauto.
  - destruct (q x); intros E.
    + injection E as <-. eauto.
    + auto.
Qed.

Lemma updateOne_updateOne (p : Doc -> bool) (f g : Doc -> Doc) (c : list Doc) :
  (forall x, p (f x) = p x) ->
  updateOne p g (updateOne p f c) = updateOne p (fun x => g (f x)) c.
Proof.
  intros Hp. induction c as [|x c IH]; cbn; auto.
  destruct (p x) eqn:Ep; cbn.
  - now rewrite Hp, Ep.
  - now rewrite Ep, IH.
Qed.

Lemma updateOne_commute (p1 p2 : Doc -> bool) (f1 f2 : Doc -> Doc) (c : list Doc) :
  (forall x, p1 x = true -> p2 x = false) ->
  (forall x, p1 (f2 x) = p1 x) -> (forall x, p2 (f1 x) = p2 x) ->
  updateOne p1 f1 (updateOne p2 f2 c) = updateOne p2 f2 (updateOne p1 f1 c).
Proof.
  intros Hd H12 H21. induction c as [|x c IH]; cbn; auto.
  destruct (p2 x) eqn:E2; destruct (p1 x) eqn:E1; cbn.
  - rewrite (Hd x E1) in E2. discriminate.
  - now rewrite H12, E1, E2.
  - now rewrite H21, E1, E2.
  - now rewrite E1, E2, IH.
Qed.

End FindAfterUpdate.

Lemma findOne_username_update (username : string) (i : ObjectId) (f : User.t -> User.t)
    (us : list User.t) (target : User.t) :
  (forall u, User.username (f u) = User.username u) ->
  (forall u, User._id (f u) = User._id u) ->
  findOne (fun u => String.eqb (User.username u) username) us = Some target ->
  exists target',
    findOne (fun u => String.eqb (User.username u) username)
            (findByIdAndUpdate User._id i f us) = Some target' /\
    User._id target' = User._id target.
Proof.
  intros Hname Hid Hfind. unfold findOne, findByIdAndUpdate in *.
  assert (Hq : forall x, String.eqb (User.username (f x)) username
                         = String.eqb (User.username x) username)
    by (intros x; now rewrite Hname).
  destruct (@find_updateOne_some _ (fun d => Nat.eqb (User._id d) i) _ f us target Hq Hfind)
    as (t' & Ht' & [E|E]); subst t'; eauto.
Qed.

Lemma pull_addToSet (x : ObjectId) (l : list ObjectId) :
  includes x l = false -> pull x (addToSet x l) = l.
Proof.
  intros H. unfold addToSet. rewrite H. unfold pull. rewrite filter_app. cbn.
  rewrite Nat.eqb_refl. cbn. rewrite app_nil_r. now apply pull_absent.
Qed.

Lemma pull_pull (x : ObjectId) (l : list ObjectId) : pull x (pull x l) = pull x l.
Proof.
  apply pull_absent. rewrite includes_pull. now rewrite Nat.eqb_refl.
Qed.

(** The users after a follow that passes the checks of the handler. *)
Lemma post_follow_run (req : Req) (username : string) (db : Db) (target currentUser : User.t) :
  findOne (fun u => String.eqb (User.username u) username) (users db) = Some target ->
  findById User._id (User._id (req_user req)) (users db) = Some currentUser ->
  User._id target <> User._id (req_user req) ->
  includes (User._id target) (User.following currentUser) = false ->
  post_follow req username db =
    (json 200 (JFollow "Usuario seguido exitosamente" true),
     mkDb (findByIdAndUpdate User._id (User._id target)
             (stamped User.touch (now req)
                (User.set_followers (addToSet (User._id (req_user req)))))
             (findByIdAndUpdate User._id (User._id (req_user req))
                (stamped User.touch (now req)
                   (User.set_following (addToSet (User._id target)))) (users db)))
          (posts db) (conversations db) (messages db)).
Proof.
  intros Hfind Hcur Hne Hfol. unfold post_follow, route, bind, gets, modify.
  rewrite Hfind. apply Nat.eqb_neq in Hne. rewrite Hne, Hcur, Hfol. reflexivity.
Qed.

(** X1. A follow request by a stored user R for another stored user T
    that R does not follow yet answers 200 and records the relation on
    both sides: afterwards T is in the [following] list of R and R is in
    the [followers] list of T; the documents of the other users, the
    posts, the conversations and the messages are as before. *)
Theorem post_follow_records :
  forall (req : Req) (username : string) (db : Db) (target currentUser : User.t),
    findOne (fun u => String.eqb (User.username u) username) (users db) = Some target ->
    findById User._id (User._id (req_user req)) (users db) = Some currentUser ->
    User._id target <> User._id (req_user req) ->
    includes (User._id target) (User.following currentUser) = false ->
    let r := post_follow req username db in
    fst r = json 200 (JFollow "Usuario seguido exitosamente" true) /\
    (exists u, findById User._id (User._id (req_user req)) (users (snd r)) = Some u /\
               includes (User._id target) (User.following u) = true /\
               User.followers u = User.followers currentUser) /\
    (exists t, findById User._id (User._id target) (users (snd r)) = Some t /\
               includes (User._id (req_user req)) (User.followers t) = true) /\
    (forall k, k <> User._id (req_user req) -> k <> User._id target ->
               findById User._id k (users (snd r)) = findById User._id k (users db)) /\
    posts (snd r) = posts db /\ conversations (snd r) = conversations db /\
    messages (snd r) = messages db.
Proof.
  intros req username db target currentUser Hfind Hcur Hne Hfol r. subst r.
  rewrite (post_follow_run _ _ _ Hfind Hcur Hne Hfol). cbn [fst snd users posts conversations messages].
  pose proof Hne as Hne'. apply Nat.eqb_neq in Hne'.
  repeat split.
  - rewrite !findById_update by reflexivity.
    rewrite Nat.eqb_sym, Hne', Nat.eqb_refl, Hcur. cbn.
    eexists. split; [reflexivity|].
    unfold stamped, User.touch, User.set_following, User.set_followers.
    cbn [User.following User.followers].
    split; auto. rewrite includes_addToSet, Nat.eqb_refl. reflexivity.
  - rewrite !findById_update by reflexivity. rewrite Nat.eqb_refl, Hne'.
    apply find_some in Hfind as (Hin & _).
    destruct (findById_In User._id _ _ Hin) as (t & Ht). rewrite Ht. cbn.
    eexists. split; [reflexivity|].
    unfold stamped, User.touch, User.set_following, User.set_followers.
    cbn [User.following User.followers].
    rewrite includes_addToSet, Nat.eqb_refl. reflexivity.
  - intros k Hk1 Hk2. rewrite !findById_update by reflexivity.
    apply Nat.eqb_neq in Hk1, Hk2. now rewrite Hk1, Hk2.
Qed.

Lemma delete_unfollow_run (req : Req) (username : string) (db : Db) (target : User.t) :
  findOne (fun u => String.eqb (User.username u) username) (users db) = Some target ->
  delete_unfollow req username db =
    (json 200 (JFollow "Dejaste de seguir al usuario" false),
     mkDb (findByIdAndUpdate User._id (User._id target)
             (stamped User.touch (now req)
                (User.set_followers (pull (User._id (req_user req)))))
             (findByIdAndUpdate User._id (User._id (req_user req))
                (stamped User.touch (now req)
                   (User.set_following (pull (User._id target)))) (users db)))
          (posts db) (conversations db) (messages db)).
Proof.
  intros Hfind. unfold delete_unfollow, route, bind, gets, modify.
  now rewrite Hfind.
Qed.

(** What the two updates of an unfollow at time [n] leave in the documents
    of the requester [r] and of the target [t]: the other is gone from the
    list, and the same update again changes nothing. *)
Lemma unfollowed_find (n : Date) (r t : ObjectId) (us : list User.t) :
  let F := stamped User.touch n (User.set_followers (pull r)) in
  let G := stamped User.touch n (User.set_following (pull t)) in
  let us' := findByIdAndUpdate User._id t F (findByIdAndUpdate User._id r G us) in
  (forall d, findById User._id r us' = Some d ->
             includes t (User.following d) = false /\ G d = d) /\
  (forall d, findById User._id t us' = Some d ->
             includes r (User.followers d) = false /\ F d = d).
Proof.
  cbv zeta. split; intros d Hd.
  - apply findById_update_inv in Hd as (d1 & Hd & ->); [|reflexivity].
    apply findById_update_inv in Hd as (d0 & Hd & ->); [|reflexivity].
    rewrite Nat.eqb_refl.
    destruct (Nat.eqb r t); unfold stamped, User.touch, User.set_following, User.set_followers;
      cbn [User._id User.username User.profilePicture User.following User.followers
           User.updatedAt];
      rewrite includes_pull, Nat.eqb_refl, pull_pull; auto.
  - apply findById_update_inv in Hd as (d1 & Hd & ->); [|reflexivity].
    rewrite Nat.eqb_refl.
    unfold stamped, User.touch, User.set_followers;
      cbn [User._id User.username User.profilePicture User.following User.followers
           User.updatedAt].
    rewrite includes_pull, Nat.eqb_refl, pull_pull. auto.
Qed.

Lemma findOne_after_two_updates (username : string) (i j : ObjectId)
    (f g : User.t -> User.t) (us : list User.t) (target : User.t) :
  (forall u, User.username (f u) = User.username u) ->
  (forall u, User._id (f u) = User._id u) ->
  (forall u, User.username (g u) = User.username u) ->
  (forall u, User._id (g u) = User._id u) ->
  findOne (fun u => String.eqb (User.username u) username) us = Some target ->
  exists target',
    findOne (fun u => String.eqb (User.username u) username)
            (findByIdAndUpdate User._id j g (findByIdAndUpdate User._id i f us))
      = Some target' /\
    User._id target' = User._id target.
Proof.
  intros Hf1 Hf2 Hg1 Hg2 Hfind.
  destruct (@findOne_username_update username i f us target Hf1 Hf2 Hfind) as (t1 & H1 & E1).
  destruct (@findOne_username_update username j g _ t1 Hg1 Hg2 H1) as (t2 & H2 & E2).
  exists t2. split; auto. congruence.
Qed.

(** X2. Follow, then unfollow, restores the lists and leaves the two
    modification times: when a stored user R follows another stored user
    T for the first time (T is not in R's [following] and R is not in T's
    [followers]) and then, in a later request, unfollows T, the unfollow
    answers its message of success, and the database is the one before
    the follow but for the [updatedAt] of the documents of R and T, which
    hold the time of the unfollow request.  The [following] and
    [followers] lists of R and T, like every other field and document,
    are what they were. *)
Theorem follow_then_unfollow :
  forall (req req' : Req) (username : string) (db : Db) (target currentUser : User.t),
    findOne (fun u => String.eqb (User.username u) username) (users db) = Some target ->
    findById User._id (User._id (req_user req)) (users db) = Some currentUser ->
    User._id target <> User._id (req_user req) ->
    includes (User._id target) (User.following currentUser) = false ->
    (forall t, findById User._id (User._id target) (users db) = Some t ->
               includes (User._id (req_user req)) (User.followers t) = false) ->
    User._id (req_user req') = User._id (req_user req) ->
    delete_unfollow req' username (snd (post_follow req username db)) =
      (json 200 (JFollow "Dejaste de seguir al usuario" false),
       mkDb (findByIdAndUpdate User._id (User._id target) (User.touch (now req'))
               (findByIdAndUpdate User._id (User._id (req_user req)) (User.touch (now req'))
                  (users db)))
            (posts db) (conversations db) (messages db)).
Proof.
  intros req req' username db target currentUser Hfind Hcur Hne Hfol Hback Hsame.
  rewrite (post_follow_run _ _ _ Hfind Hcur Hne Hfol). cbn [snd].
  set (r := User._id (req_user req)) in *. set (t := User._id target) in *.
  destruct (@findOne_after_two_updates username r t
              (stamped User.touch (now req) (User.set_following (addToSet t)))
              (stamped User.touch (now req) (User.set_followers (addToSet r)))
              (users db) target) as (target' & Hfind' & Eid); auto.
  match goal with |- delete_unfollow _ _ ?d = _ =>
    rewrite (@delete_unfollow_run req' username d target' Hfind')
  end.
  cbn [users posts conversations messages]. rewrite Hsame. fold r. rewrite Eid. fold t.
  f_equal. f_equal.
  unfold findByIdAndUpdate.
  assert (Hrt : forall x : User.t, Nat.eqb (User._id x) r = true -> Nat.eqb (User._id x) t = false).
  { intros x Hx. apply Nat.eqb_eq in Hx. rewrite Hx. apply Nat.eqb_neq. auto. }
  rewrite (updateOne_commute (fun d => Nat.eqb (User._id d) r) (fun d => Nat.eqb (User._id d) t))
    by auto.
  rewrite updateOne_updateOne by auto.
  rewrite (updateOne_updateOne (fun d => Nat.eqb (User._id d) r)) by auto.
  rewrite (@updateOne_agree _ (fun d => Nat.eqb (User._id d) r) _ (User.touch (now req'))
             (users db)).
  - apply updateOne_agree. intros d Hd.
    fold (findByIdAndUpdate User._id r (User.touch (now req')) (users db)) in Hd.
    fold (findById User._id t (findByIdAndUpdate User._id r (User.touch (now req')) (users db)))
      in Hd.
    apply findById_update_inv in Hd as (d0 & Hd & ->); [|reflexivity].
    apply Nat.eqb_neq in Hne. fold t r in Hne. rewrite Hne.
    specialize (Hback d0 Hd).
    destruct d0; unfold stamped, User.touch, User.set_followers;
      cbn [User._id User.username User.profilePicture User.followers User.following
           User.updatedAt] in *.
    now rewrite pull_addToSet.
  - intros d Hd. fold (findById User._id r (users db)) in Hd. rewrite Hcur in Hd.
    injection Hd as <-.
    destruct currentUser; unfold stamped, User.touch, User.set_following;
      cbn [User._id User.username User.profilePicture User.followers User.following
           User.updatedAt] in *.
    now rewrite pull_addToSet.
Qed.


(** X4. The follow status follows the requests: for a stored requester R
    and another user T, GET /status/:username answers [isFollowing: true]
    after a follow request (whether that request answered 200 or refused a
    follow already in place), and [isFollowing: false] after an unfollow
    request. *)
Theorem status_after_requests :
  forall (req : Req) (username : string) (db : Db) (target currentUser : User.t),
    findOne (fun u => String.eqb (User.username u) username) (users db) = Some target ->
    findById User._id (User._id (req_user req)) (users db) = Some currentUser ->
    (User._id target <> User._id (req_user req) ->
     get_status req username (snd (post_follow req username db)) = answer 200 (VStatus true))
    /\
    get_status req username (snd (delete_unfollow req username db)) =
      answer 200 (VStatus false).
Proof.
  intros req username db target currentUser Hfind Hcur. split.
  - intros Hne.
    destruct (includes (User._id target) (User.following currentUser)) eqn:Hfol.
    + assert (E : snd (post_follow req username db) = db).
      { unfold post_follow, route, bind, gets. rewrite Hfind.
        apply Nat.eqb_neq in Hne. now rewrite Hne, Hcur, Hfol. }
      rewrite E. unfold get_status. now rewrite Hfind, Hcur, Hfol.
    + rewrite (post_follow_run _ _ _ Hfind Hcur Hne Hfol). cbn [snd].
      set (r := User._id (req_user req)) in *. set (t := User._id target) in *.
      destruct (@findOne_after_two_updates username r t
                  (stamped User.touch (now req) (User.set_following (addToSet t)))
                  (stamped User.touch (now req) (User.set_followers (addToSet r)))
                  (users db) target) as (target' & Hfind' & Eid); auto.
      unfold get_status. cbn [users]. rewrite Hfind'. fold r.
      rewrite !findById_update by reflexivity.
      apply Nat.eqb_neq in Hne. rewrite Nat.eqb_sym, Hne, Nat.eqb_refl, Hcur. cbn [option_map].
      rewrite Eid. fold t. unfold stamped, User.touch, User.set_following. cbn [User.following].
      now rewrite includes_addToSet, Nat.eqb_refl.
  - rewrite (delete_unfollow_run req _ _ Hfind). cbn [snd].
    set (r := User._id (req_user req)) in *. set (t := User._id target) in *.
    destruct (@findOne_after_two_updates username r t
                (stamped User.touch (now req) (User.set_following (pull t)))
                (stamped User.touch (now req) (User.set_followers (pull r)))
                (users db) target) as (target' & Hfind' & Eid); auto.
    unfold get_status. cbn [users]. rewrite Hfind'. fold r.
    destruct (unfollowed_find (now req) r t (users db)) as (Hr & _). cbv zeta in Hr.
    set (us' := findByIdAndUpdate User._id t _ _) in *.
    destruct (findById User._id r us') as [d|] eqn:Hd.
    + rewrite Eid. fold t. now rewrite (proj1 (Hr d eq_refl)).
    + unfold us' in Hd. rewrite !findById_update in Hd by reflexivity.
      rewrite Nat.eqb_refl, Hcur in Hd. now destruct (Nat.eqb r t).
Qed.

(** X5. Unfollowing closes the chat: after an unfollow request by R for a
    stored user T, the mutual-follow check of R and T is false, GET
    /can-chat answers [canChat: false] and POST /conversation answers 403
    and writes nothing. *)
Theorem unfollow_closes_chat :
  forall (req : Req) (username : string) (db : Db) (target : User.t),
    findOne (fun u => String.eqb (User.username u) username) (users db) = Some target ->
    let db' := snd (delete_unfollow req username db) in
    checkMutualFollow (users db') (User._id (req_user req)) (User._id target) = false /\
    (exists reason, get_can_chat req username db' = answer 200 (VCanChat false (Some reason))) /\
    post_conversation req username db' =
      (json 403 (JMessage "No pueden chatear. Deben seguirse mutuamente."), db').
Proof.
  intros req username db target Hfind db'. subst db'.
  rewrite (delete_unfollow_run req _ _ Hfind). cbn [snd].
  set (r := User._id (req_user req)) in *. set (t := User._id target) in *.
  destruct (@findOne_after_two_updates username r t
              (stamped User.touch (now req) (User.set_following (pull t)))
              (stamped User.touch (now req) (User.set_followers (pull r)))
              (users db) target) as (target' & Hfind' & Eid); auto.
  destruct (unfollowed_find (now req) r t (users db)) as (Hr & _). cbv zeta in Hr.
  set (us' := findByIdAndUpdate User._id t _ _) in *.
  assert (Hgate : checkMutualFollow us' r t = false).
  { unfold checkMutualFollow.
    destruct (findById User._id r us') as [d|] eqn:Hd; auto.
    destruct (findById User._id t us'); auto.
    cbn. now rewrite (proj1 (Hr d eq_refl)). }
  repeat split; auto.
  - unfold get_can_chat. cbn [users]. rewrite Hfind'. fold r. rewrite Eid. fold t.
    destruct (Nat.eqb t r); [eauto|]. rewrite Hgate. eauto.
  - unfold post_conversation, route, bind, gets. cbn [users]. rewrite Hfind'.
    fold r. rewrite Eid. fold t. cbn. now rewrite Hgate.
Qed.

Lemma post_follow_records_witness :
  fst (post_follow (Sample.request Sample.carol) "dave" Sample.db) =
    json 200 (JFollow "Usuario seguido exitosamente" true) /\
  posts (snd (post_follow (Sample.request Sample.carol) "dave" Sample.db)) = posts Sample.db.
Proof.
  pose proof (@post_follow_records (Sample.request Sample.carol) "dave" Sample.db
                Sample.dave Sample.carol eq_refl eq_refl ltac:(discriminate) eq_refl) as H.
  split; apply H.
Defined.

Lemma follow_then_unfollow_witness :
  delete_unfollow (mkReq Sample.carol "https" "orbya.example" 2000 98) "dave"
    (snd (post_follow (Sample.request Sample.carol) "dave" Sample.db)) =
  (json 200 (JFollow "Dejaste de seguir al usuario" false),
   mkDb [Sample.alice; Sample.bob;
         User.mk 3 "carol" None [] [] 2000; User.mk 4 "dave" None [] [] 2000]
        (posts Sample.db) (conversations Sample.db) (messages Sample.db)).
Proof.
  apply (@follow_then_unfollow (Sample.request Sample.carol)
           (mkReq Sample.carol "https" "orbya.example" 2000 98) "dave" Sample.db
           Sample.dave Sample.carol eq_refl eq_refl ltac:(discriminate) eq_refl).
  - intros t H. cbn in H. injection H as <-. reflexivity.
  - reflexivity.
Defined.

Lemma status_after_requests_witness :
  get_status (Sample.request Sample.carol) "dave"
    (snd (post_follow (Sample.request Sample.carol) "dave" Sample.db)) =
    answer 200 (VStatus true)
  /\
  get_status (Sample.request Sample.alice) "bob"
    (snd (delete_unfollow (Sample.request Sample.alice) "bob" Sample.db)) =
    answer 200 (VStatus false).
Proof.
  split.
  - apply (proj1 (@status_after_requests (Sample.request Sample.carol) "dave" Sample.db
                    Sample.dave Sample.carol eq_refl eq_refl)).
    discriminate.
  - apply (proj2 (@status_after_requests (Sample.request Sample.alice) "bob" Sample.db
                    Sample.bob Sample.alice eq_refl eq_refl)).
Defined.

Lemma unfollow_closes_chat_witness :
  checkMutualFollow
    (users (snd (delete_unfollow (Sample.request Sample.alice) "bob" Sample.db))) 1 2 = false.
Proof.
  exact (proj1 (@unfollow_closes_chat (Sample.request Sample.alice) "bob" Sample.db
                  Sample.bob eq_refl)).
Defined.

(** ** Chat eligibility and conversation creation *)

(** Chat eligibility is the same seen from either side: when two
    requesters each name the other, GET /can-chat gives both the same
    reply. *)
Theorem can_chat_symmetric :
  forall (reqA reqB : Req) (nameA nameB : string) (db : Db) (a b : User.t),
    findOne (fun u => String.eqb (User.username u) nameA) (users db) = Some a ->
    findOne (fun u => String.eqb (User.username u) nameB) (users db) = Some b ->
    User._id a = User._id (req_user reqA) ->
    User._id b = User._id (req_user reqB) ->
    get_can_chat reqA nameB db = get_can_chat reqB nameA db.
Proof.
  intros reqA reqB nameA nameB db a b Ha Hb Ea Eb.
  unfold get_can_chat. rewrite Ha, Hb, Ea, Eb.
  rewrite (Nat.eqb_sym (User._id (req_user reqA))).
  destruct (Nat.eqb (User._id (req_user reqB)) (User._id (req_user reqA))); auto.
  assert (E : checkMutualFollow (users db) (User._id (req_user reqA)) (User._id (req_user reqB))
              = checkMutualFollow (users db) (User._id (req_user reqB)) (User._id (req_user reqA))).
  { unfold checkMutualFollow.
    destruct (findById User._id (User._id (req_user reqA)) (users db)),
             (findById User._id (User._id (req_user reqB)) (users db)); auto.
    apply andb_comm. }
  now rewrite E.
Qed.

Lemma can_chat_symmetric_witness :
  get_can_chat (Sample.request Sample.alice) "bob" Sample.db =
  get_can_chat (Sample.request Sample.bob) "alice" Sample.db.
Proof.
  apply (@can_chat_symmetric (Sample.request Sample.alice) (Sample.request Sample.bob)
           "alice" "bob" Sample.db Sample.alice Sample.bob); reflexivity.
Defined.

(** X7. Eligibility and creation agree: for a stored user other than the
    requester, POST /conversation/:username answers 200 exactly when GET
    /can-chat/:username answers [canChat: true], and 403 when it answers
    [canChat: false]. *)
Theorem can_chat_decides_creation :
  forall (req : Req) (username : string) (db : Db) (target : User.t),
    findOne (fun u => String.eqb (User.username u) username) (users db) = Some target ->
    User._id target <> User._id (req_user req) ->
    exists canChat reason,
      get_can_chat req username db = answer 200 (VCanChat canChat reason) /\
      status (fst (post_conversation req username db)) = if canChat then 200 else 403.
Proof.
  intros req username db target Hfind Hne.
  unfold get_can_chat, post_conversation, route, bind, gets. rewrite Hfind.
  apply Nat.eqb_neq in Hne. rewrite Hne.
  destruct (checkMutualFollow _ _ _); cbn [negb].
  - do 2 eexists. split; [reflexivity|].
    now destruct (Conversation.findConversation _ _ _).
  - do 2 eexists. split; reflexivity.
Qed.

Lemma can_chat_decides_creation_witness :
  exists canChat reason,
    get_can_chat (Sample.request Sample.alice) "bob" Sample.db =
      answer 200 (VCanChat canChat reason) /\
    status (fst (post_conversation (Sample.request Sample.alice) "bob" Sample.db)) =
      if canChat then 200 else 403.
Proof.
  apply (@can_chat_decides_creation (Sample.request Sample.alice) "bob" Sample.db Sample.bob).
  - reflexivity.
  - discriminate.
Defined.

Lemma find_app_none (A : Type) (p : A -> bool) (l l' : list A) :
  find p l = None -> find p (l ++ l') = find p l'.
Proof.
  induction l as [|x l IH]; cbn; [reflexivity|].
  destruct (p x); [discriminate|exact IH].
Qed.

Lemma find_app_some (A : Type) (p : A -> bool) (l l' : list A) (d : A) :
  find p l = Some d -> find p (l ++ l') = Some d.
Proof.
  induction l as [|x l IH]; cbn; [discriminate|].
  destruct (p x); [auto|exact IH].
Qed.

Lemma find_pointwise (A : Type) (p q : A -> bool) (l : list A) :
  (forall x, p x = q x) -> find p l = find q l.
Proof.
  intros E. induction l as [|x l IH]; cbn; [reflexivity|].
  now rewrite E, IH.
Qed.

Lemma gate_swap (us : list User.t) (a b : ObjectId) :
  checkMutualFollow us b a = checkMutualFollow us a b.
Proof.
  unfold checkMutualFollow.
  destruct (findById User._id a us), (findById User._id b us); auto.
  apply andb_comm.
Qed.

Lemma findConversation_swap (a b : ObjectId) (cs : list Conversation.t) :
  Conversation.findConversation b a cs = Conversation.findConversation a b cs.
Proof.
  unfold Conversation.findConversation, findOne.
  apply find_pointwise. intros x. apply andb_comm.
Qed.

Lemma post_conversation_run (req : Req) (username : string) (db : Db) (target : User.t) :
  findOne (fun u => String.eqb (User.username u) username) (users db) = Some target ->
  checkMutualFollow (users db) (User._id (req_user req)) (User._id target) = true ->
  post_conversation req username db =
    match Conversation.findConversation (User._id (req_user req)) (User._id target)
            (conversations db) with
    | Some c =>
        (json 200 (JConversation (Conversation._id c)
                     (map (userView req) (populateMany (users db) (Conversation.participants c)))),
         db)
    | None =>
        (json 200 (JConversation (newId req)
                     (map (userView req)
                        (populateMany (users db) [User._id (req_user req); User._id target]))),
         with_conversations
           (saveNew (Conversation.mk (newId req) [User._id (req_user req); User._id target]
                       None (now req) (now req))) db)
    end.
Proof.
  intros Hfind Hgate.
  unfold post_conversation, route, bind, gets. rewrite Hfind, Hgate. cbn [negb].
  destruct (Conversation.findConversation _ _ _); reflexivity.
Qed.

Lemma post_conversation_ok (req : Req) (username : string) (db db' : Db) (r : Response) :
  post_conversation req username db = (r, db') -> status r = 200 ->
  exists target,
    findOne (fun u => String.eqb (User.username u) username) (users db) = Some target /\
    checkMutualFollow (users db) (User._id (req_user req)) (User._id target) = true.
Proof.
  unfold post_conversation, route, bind, gets.
  destruct (findOne _ (users db)) as [target|]; cbn.
  - destruct (checkMutualFollow _ _ _) eqn:Hg; cbn.
    + eauto.
    + intros H; injection H as <- _. discriminate.
  - intros H; injection H as <- _. discriminate.
Qed.

(** X8. Get-or-create creates at most once: after POST
    /conversation/:username has answered 200, the same request again, and
    the request of the other user for the first one, both answer 200 with
    the same conversation identifier and write nothing. *)
Theorem post_conversation_once :
  forall (req : Req) (username : string) (db db' : Db) (r : Response),
    post_conversation req username db = (r, db') -> status r = 200 ->
    exists (cid : ObjectId) (people : list UserView) (target : User.t),
      r = json 200 (JConversation cid people) /\
      findOne (fun u => String.eqb (User.username u) username) (users db) = Some target /\
      (forall req2 : Req,
         User._id (req_user req2) = User._id (req_user req) ->
         exists people2,
           post_conversation req2 username db' = (json 200 (JConversation cid people2), db')) /\
      (forall (req2 : Req) (username2 : string) (me : User.t),
         findOne (fun u => String.eqb (User.username u) username2) (users db) = Some me ->
         User._id me = User._id (req_user req) ->
         User._id (req_user req2) = User._id target ->
         exists people2,
           post_conversation req2 username2 db' = (json 200 (JConversation cid people2), db')).
Proof.
  intros req username db db' r Hrun Hok.
  destruct (post_conversation_ok _ _ _ Hrun Hok) as (target & Hfind & Hgate).
  rewrite (post_conversation_run _ _ _ Hfind Hgate) in Hrun.
  assert (Hagain : exists c,
            users db' = users db /\
            Conversation.findConversation (User._id (req_user req)) (User._id target)
              (conversations db') = Some c /\
            exists people, r = json 200 (JConversation (Conversation._id c) people)).
  { destruct (Conversation.findConversation _ _ (conversations db)) as [c|] eqn:Hc.
    - injection Hrun as <- <-. exists c. repeat split; eauto.
    - injection Hrun as <- <-.
      exists (Conversation.mk (newId req) [User._id (req_user req); User._id target]
                None (now req) (now req)).
      split; [reflexivity|]. split; [|eauto].
      unfold with_conversations, saveNew. cbn [conversations].
      unfold Conversation.findConversation, findOne in *.
      rewrite (find_app_none _ _ _ Hc). cbn [find Conversation.participants].
      unfold includes. cbn [existsb]. rewrite !Nat.eqb_refl, ?orb_true_r. reflexivity. }
  destruct Hagain as (c & Hus & Hc & people & ->).
  exists (Conversation._id c), people, target.
  split; [reflexivity|]. split; [exact Hfind|]. split.
  - intros req2 E.
    assert (Hfind2 : findOne (fun u => String.eqb (User.username u) username) (users db')
                     = Some target) by now rewrite Hus.
    assert (Hgate2 : checkMutualFollow (users db') (User._id (req_user req2)) (User._id target)
                     = true) by now rewrite Hus, E.
    rewrite (post_conversation_run _ _ _ Hfind2 Hgate2), E, Hc. eauto.
  - intros req2 username2 me Hme Eme E.
    assert (Hfind2 : findOne (fun u => String.eqb (User.username u) username2) (users db')
                     = Some me) by now rewrite Hus.
    assert (Hgate2 : checkMutualFollow (users db') (User._id (req_user req2)) (User._id me)
                     = true) by now rewrite Hus, E, Eme, gate_swap.
    rewrite (post_conversation_run _ _ _ Hfind2 Hgate2), E, Eme, findConversation_swap, Hc.
    eauto.
Qed.

Lemma post_conversation_once_witness :
  exists (cid : ObjectId) (people : list UserView) (target : User.t),
    fst (post_conversation (Sample.request Sample.alice) "bob" newcomers) =
      json 200 (JConversation cid people) /\
    findOne (fun u => String.eqb (User.username u) "bob") (users newcomers) = Some target /\
    (forall req2 : Req,
       User._id (req_user req2) = 1 ->
       exists people2,
         post_conversation req2 "bob"
           (snd (post_conversation (Sample.request Sample.alice) "bob" newcomers)) =
         (json 200 (JConversation cid people2),
          snd (post_conversation (Sample.request Sample.alice) "bob" newcomers))) /\
    (forall (req2 : Req) (username2 : string) (me : User.t),
       findOne (fun u => String.eqb (User.username u) username2) (users newcomers) = Some me ->
       User._id me = 1 ->
       User._id (req_user req2) = User._id target ->
       exists people2,
         post_conversation req2 username2
           (snd (post_conversation (Sample.request Sample.alice) "bob" newcomers)) =
         (json 200 (JConversation cid people2),
          snd (post_conversation (Sample.request Sample.alice) "bob" newcomers))).
Proof.
  apply (@post_conversation_once (Sample.request Sample.alice) "bob" newcomers
           (snd (post_conversation (Sample.request Sample.alice) "bob" newcomers))
           (fst (post_conversation (Sample.request Sample.alice) "bob" newcomers))).
  - reflexivity.
  - reflexivity.
Defined.

(** ** Sending, deleting and listing messages *)

Lemma post_message_sent (req : Req) (form : MessageForm) (db : Db)
    (conversationId : ObjectId) (conversation : Conversation.t) (other : ObjectId) :
  validationResult form = [] ->
  form_conversationId form = Some conversationId ->
  truthy_text (form_content form) || truthy (form_file form) = true ->
  Message.validate (new_message req form conversationId) = true ->
  findById Conversation._id conversationId (conversations db) = Some conversation ->
  includes (User._id (req_user req)) (Conversation.participants conversation) = true ->
  find (fun p => negb (Nat.eqb p (User._id (req_user req))))
       (Conversation.participants conversation) = Some other ->
  checkMutualFollow (users db) (User._id (req_user req)) other = true ->
  exists u,
    findById User._id (User._id (req_user req)) (users db) = Some u /\
    post_message req form db =
      (json 201 (JSent (mkFormatted (newId req)
                          (Message.content (new_message req form conversationId))
                          (chatUrl req (form_file form))
                          (Message.messageType (new_message req form conversationId))
                          (userView req u) (now req) true)),
       mkDb (users db) (posts db)
            (findByIdAndUpdate Conversation._id conversationId
               (stamped Conversation.touch (now req)
                  (Conversation.set_last (newId req) (now req))) (conversations db))
            (messages db ++ [new_message req form conversationId])).
Proof.
  intros HV Hcid Hsome Hvalid Hfind Hpart Hother Hgate.
  destruct (gate_sender_stored _ _ _ Hgate) as (u & Hu).
  exists u. split; [exact Hu|].
  unfold post_message, route. rewrite HV, Hcid.
  apply orb_true_iff in Hsome.
  assert (Hnone : negb (truthy_text (form_content form)) && negb (truthy (form_file form))
                  = false).
  { destruct Hsome as [-> | ->]; cbn; auto using andb_false_r. }
  rewrite Hnone.
  unfold bind at 1, gets at 1. rewrite Hfind, Hpart. cbn [negb].
  unfold bind at 1, gets at 1. rewrite Hother, Hgate. cbn [negb].
  fold (new_message req form conversationId).
  unfold bind at 1, Message_save_new. rewrite Hvalid.
  unfold modify, bind, gets, formatMessage, populate.
  cbn [users with_messages]. unfold new_message at 1. cbn [Message.sender].
  rewrite Hu. reflexivity.
Qed.

Lemma post_message_cases (req : Req) (form : MessageForm) (db : Db) :
  (snd (post_message req form db) = db /\ status (fst (post_message req form db)) <> 201)
  \/
  (exists (conversationId : ObjectId) (conversation : Conversation.t) (other : ObjectId)
          (u : User.t),
     validationResult form = [] /\
     form_conversationId form = Some conversationId /\
     findById Conversation._id conversationId (conversations db) = Some conversation /\
     includes (User._id (req_user req)) (Conversation.participants conversation) = true /\
     find (fun p => negb (Nat.eqb p (User._id (req_user req))))
          (Conversation.participants conversation) = Some other /\
     checkMutualFollow (users db) (User._id (req_user req)) other = true /\
     findById User._id (User._id (req_user req)) (users db) = Some u /\
     post_message req form db =
       (json 201 (JSent (mkFormatted (newId req)
                           (Message.content (new_message req form conversationId))
                           (chatUrl req (form_file form))
                           (Message.messageType (new_message req form conversationId))
                           (userView req u) (now req) true)),
        mkDb (users db) (posts db)
             (findByIdAndUpdate Conversation._id conversationId
                (stamped Conversation.touch (now req)
                   (Conversation.set_last (newId req) (now req))) (conversations db))
             (messages db ++ [new_message req form conversationId]))).
Proof.
  destruct (validationResult form) as [|e errors] eqn:HV.
  2:{ left. unfold post_message, route. rewrite HV. cbn. split; [reflexivity|discriminate]. }
  destruct (form_conversationId form) as [conversationId|] eqn:Hcid.
  2:{ left. unfold post_message, route. rewrite HV, Hcid. cbn.
      split; [reflexivity|discriminate]. }
  destruct (truthy_text (form_content form) || truthy (form_file form)) eqn:Hsome.
  2:{ left. unfold post_message, route. rewrite HV, Hcid.
      apply orb_false_iff in Hsome. destruct Hsome as [-> ->]. cbn.
      split; [reflexivity|discriminate]. }
  assert (Hnone : negb (truthy_text (form_content form)) && negb (truthy (form_file form))
                  = false).
  { apply orb_true_iff in Hsome. destruct Hsome as [-> | ->]; cbn; auto using andb_false_r. }
  destruct (findById Conversation._id conversationId (conversations db))
    as [conversation|] eqn:Hfind.
  2:{ left. unfold post_message, route. rewrite HV, Hcid, Hnone.
      unfold bind, gets. rewrite Hfind. cbn. split; [reflexivity|discriminate]. }
  destruct (includes (User._id (req_user req)) (Conversation.participants conversation))
    eqn:Hpart.
  2:{ left. unfold post_message, route. rewrite HV, Hcid, Hnone.
      unfold bind, gets. rewrite Hfind, Hpart. cbn. split; [reflexivity|discriminate]. }
  destruct (find (fun p => negb (Nat.eqb p (User._id (req_user req))))
                 (Conversation.participants conversation)) as [other|] eqn:Hother.
  2:{ left. unfold post_message, route. rewrite HV, Hcid, Hnone.
      unfold bind, gets. rewrite Hfind, Hpart, Hother. cbn.
      split; [reflexivity|discriminate]. }
  destruct (checkMutualFollow (users db) (User._id (req_user req)) other) eqn:Hgate.
  2:{ left. unfold post_message, route. rewrite HV, Hcid, Hnone.
      unfold bind, gets. rewrite Hfind, Hpart. cbn [negb]. cbv beta iota zeta.
      rewrite Hother. cbv beta iota zeta. rewrite Hgate. cbn.
      split; [reflexivity|discriminate]. }
  destruct (Message.validate (new_message req form conversationId)) eqn:Hvalid.
  2:{ left. unfold post_message, route. rewrite HV, Hcid, Hnone.
      unfold bind, gets. rewrite Hfind, Hpart. cbn [negb]. cbv beta iota zeta.
      rewrite Hother. cbv beta iota zeta. rewrite Hgate. cbn [negb].
      fold (new_message req form conversationId).
      unfold Message_save_new. rewrite Hvalid. cbn.
      split; [reflexivity|discriminate]. }
  right.
  destruct (@post_message_sent req form db _ _ _ HV Hcid Hsome Hvalid Hfind Hpart Hother Hgate)
    as (u & Hu & Hrun).
  exists conversationId, conversation, other, u. repeat split; assumption.
Qed.

(** X9. POST /message writes only when it answers 201.  Whatever the
    request, either the store is left as it was and the reply is not 201,
    or the form names a stored conversation of which the requester is a
    participant, the mutual-follow gate holds between the requester and the
    other participant, the reply is 201, and the store differs only by the
    new message appended to the messages and by the last message, the last
    activity and the [updatedAt] of that conversation, the two dates being
    the time of the request. *)
Theorem post_message_outcomes :
  forall (req : Req) (form : MessageForm) (db : Db),
    (snd (post_message req form db) = db /\ status (fst (post_message req form db)) <> 201)
    \/
    (exists (conversationId : ObjectId) (conversation : Conversation.t) (other : ObjectId),
       form_conversationId form = Some conversationId /\
       findById Conversation._id conversationId (conversations db) = Some conversation /\
       includes (User._id (req_user req)) (Conversation.participants conversation) = true /\
       find (fun p => negb (Nat.eqb p (User._id (req_user req))))
            (Conversation.participants conversation) = Some other /\
       checkMutualFollow (users db) (User._id (req_user req)) other = true /\
       status (fst (post_message req form db)) = 201 /\
       snd (post_message req form db) =
         mkDb (users db) (posts db)
              (findByIdAndUpdate Conversation._id conversationId
                 (stamped Conversation.touch (now req)
                    (Conversation.set_last (newId req) (now req))) (conversations db))
              (messages db ++ [new_message req form conversationId])).
Proof.
  intros req form db.
  destruct (post_message_cases req form db)
    as [H | (conversationId & conversation & other & u & _ & Hcid & Hfind & Hpart & Hother
             & Hgate & _ & Hrun)].
  - left. exact H.
  - right. exists conversationId, conversation, other. rewrite Hrun.
    repeat split; assumption.
Qed.

Lemma set_last_id (m : ObjectId) (d : Date) (c : Conversation.t) :
  Conversation._id (stamped Conversation.touch d (Conversation.set_last m d) c)
  = Conversation._id c.
Proof. reflexivity. Qed.

(** X10. A message that is sent marks its conversation: after POST
    /message has answered 201, the conversation named by the form has the
    new message as last message and the time of the request as last
    activity and as [updatedAt], its participants are the same, and every
    other conversation is found as before. *)
Theorem post_message_last_activity :
  forall (req : Req) (form : MessageForm) (db : Db),
    status (fst (post_message req form db)) = 201 ->
    exists (conversationId : ObjectId) (conversation : Conversation.t),
      form_conversationId form = Some conversationId /\
      findById Conversation._id conversationId (conversations db) = Some conversation /\
      findById Conversation._id conversationId
        (conversations (snd (post_message req form db))) =
        Some (Conversation.mk (Conversation._id conversation)
                (Conversation.participants conversation) (Some (newId req)) (now req)
                (now req)) /\
      forall k, k <> conversationId ->
        findById Conversation._id k (conversations (snd (post_message req form db))) =
        findById Conversation._id k (conversations db).
Proof.
  intros req form db Hok.
  destruct (post_message_cases req form db)
    as [[_ H] | (conversationId & conversation & other & u & _ & Hcid & Hfind & _ & _
                 & _ & _ & Hrun)]; [contradiction|].
  exists conversationId, conversation. rewrite Hrun. cbn [snd conversations].
  split; [exact Hcid|]. split; [exact Hfind|]. split.
  - rewrite (findById_update Conversation._id conversationId conversationId _ _
               (set_last_id (newId req) (now req))).
    now rewrite Nat.eqb_refl, Hfind.
  - intros k Hk.
    rewrite (findById_update Conversation._id conversationId k _ _
               (set_last_id (newId req) (now req))).
    apply Nat.eqb_neq in Hk. now rewrite Hk.
Qed.

Lemma post_message_last_activity_witness :
  exists (conversationId : ObjectId) (conversation : Conversation.t),
    form_conversationId Sample.form_1000 = Some conversationId /\
    findById Conversation._id conversationId (conversations Sample.db) = Some conversation /\
    findById Conversation._id conversationId
      (conversations (snd (post_message (Sample.request Sample.alice) Sample.form_1000
                             Sample.db))) =
      Some (Conversation.mk (Conversation._id conversation)
              (Conversation.participants conversation) (Some 99) 1000 1000) /\
    forall k, k <> conversationId ->
      findById Conversation._id k
        (conversations (snd (post_message (Sample.request Sample.alice) Sample.form_1000
                               Sample.db))) =
      findById Conversation._id k (conversations Sample.db).
Proof.
  apply (@post_message_last_activity (Sample.request Sample.alice) Sample.form_1000 Sample.db).
  vm_compute. reflexivity.
Defined.

Lemma sort_desc_newest (l : list Message.t) (m : Message.t) :
  Forall (fun x => Message.createdAt x < Message.createdAt m) l ->
  sort_desc (l ++ [m]) = m :: sort_desc l.
Proof.
  induction l as [|x l IH]; intros H; [reflexivity|].
  inversion H as [|? ? Hx Hl]; subst.
  change (sort_desc ((x :: l) ++ [m])) with (insert_desc x (sort_desc (l ++ [m]))).
  rewrite (IH Hl). cbn [insert_desc].
  apply Nat.leb_gt in Hx. rewrite Hx. reflexivity.
Qed.

Lemma mapM_app (A B : Type) (f : A -> option B) (l1 l2 : list A) (o1 o2 : list B) :
  mapM f l1 = Some o1 -> mapM f l2 = Some o2 -> mapM f (l1 ++ l2) = Some (o1 ++ o2).
Proof.
  revert o1. induction l1 as [|x l1 IH]; cbn; intros o1 H1 H2.
  - injection H1 as <-. exact H2.
  - destruct (f x) as [y|]; [|discriminate].
    destruct (mapM f l1) as [ys|] eqn:E; [|discriminate].
    injection H1 as <-. now rewrite (IH ys eq_refl H2).
Qed.

Lemma mapM_In (A B : Type) (f : A -> option B) (l : list A) (out : list B) (y : B) :
  mapM f l = Some out -> In y out -> exists x, In x l /\ f x = Some y.
Proof.
  revert out. induction l as [|x l IH]; cbn; intros out H Hy.
  - injection H as <-. destruct Hy.
  - destruct (f x) as [y0|] eqn:E; [|discriminate].
    destruct (mapM f l) as [ys|]; [|discriminate].
    injection H as <-. destruct Hy as [<-|Hy].
    + eauto.
    + destruct (IH ys eq_refl Hy) as (x' & Hx' & E'). eauto.
Qed.

Lemma mapM_length (A B : Type) (f : A -> option B) (l : list A) (out : list B) :
  mapM f l = Some out -> List.length out = List.length l.
Proof.
  revert out. induction l as [|x l IH]; cbn; intros out H.
  - now injection H as <-.
  - destruct (f x) as [y|]; [|discriminate].
    destruct (mapM f l) as [ys|]; [|discriminate].
    injection H as <-. cbn. now rewrite (IH ys eq_refl).
Qed.

Lemma findById_id (Doc : Type) (id_of : Doc -> ObjectId) (i : ObjectId) (c : list Doc)
    (d : Doc) :
  findById id_of i c = Some d -> In d c /\ id_of d = i.
Proof.
  intros H. apply find_some in H as (Hin & E). now apply Nat.eqb_eq in E.
Qed.

Lemma get_messages_run (req : Req) (conversationId : ObjectId) (page limit : nat) (db : Db)
    (conversation : Conversation.t) :
  findById Conversation._id conversationId (conversations db) = Some conversation ->
  includes (User._id (req_user req)) (Conversation.participants conversation) = true ->
  (page =? 0) && negb (limit =? 0) = false ->
  get_messages req conversationId page limit db =
    match mapM (formatMessage req (fun s => Nat.eqb (User._id s) (User._id (req_user req)))
                  (users db))
               (rev (findMessages conversationId page limit (messages db))) with
    | Some l => (json 200 (JMessages l), db)
    | None => (json 500 (JMessage "Error del servidor"), db)
    end.
Proof.
  intros Hfind Hpart Hpage.
  unfold get_messages, route, bind, gets. rewrite Hfind, Hpart, Hpage. cbn [negb].
  now destruct (mapM _ _).
Qed.

Lemma get_messages_ok (req : Req) (conversationId : ObjectId) (page limit : nat) (db : Db) :
  status (fst (get_messages req conversationId page limit db)) = 200 ->
  exists (conversation : Conversation.t) (out : list FormattedMessage),
    findById Conversation._id conversationId (conversations db) = Some conversation /\
    includes (User._id (req_user req)) (Conversation.participants conversation) = true /\
    mapM (formatMessage req (fun s => Nat.eqb (User._id s) (User._id (req_user req)))
            (users db))
         (rev (findMessages conversationId page limit (messages db))) = Some out /\
    get_messages req conversationId page limit db = (json 200 (JMessages out), db).
Proof.
  intros Hok.
  destruct (findById Conversation._id conversationId (conversations db))
    as [conversation|] eqn:Hfind.
  2:{ unfold get_messages, route, bind, gets in Hok. rewrite Hfind in Hok. discriminate. }
  destruct (includes (User._id (req_user req)) (Conversation.participants conversation))
    eqn:Hpart.
  2:{ unfold get_messages, route, bind, gets in Hok. rewrite Hfind, Hpart in Hok.
      discriminate. }
  destruct ((page =? 0) && negb (limit =? 0)) eqn:Hpage.
  { unfold get_messages, route, bind, gets in Hok. rewrite Hfind, Hpart, Hpage in Hok.
    discriminate. }
  rewrite (@get_messages_run req conversationId page limit db _ Hfind Hpart Hpage) in Hok |- *.
  destruct (mapM _ _) as [out|]; [|discriminate].
  exists conversation, out. auto.
Qed.

(** X11. A message that is sent is the last one of the history: in a
    well-formed store whose messages are all older than the request, after
    POST /message has answered 201, the first page of the history of the
    conversation, asked by any participant with any limit, ends with the
    new message, with its identifier, content and sender, marked as the
    requester's own exactly when the requester is the sender. *)
Theorem post_message_then_history :
  forall (req req2 : Req) (form : MessageForm) (db : Db) (limit : nat)
         (conversationId : ObjectId) (conversation : Conversation.t),
    Db_wf db ->
    (forall m, In m (messages db) -> Message.createdAt m < now req) ->
    status (fst (post_message req form db)) = 201 ->
    form_conversationId form = Some conversationId ->
    findById Conversation._id conversationId (conversations db) = Some conversation ->
    includes (User._id (req_user req2)) (Conversation.participants conversation) = true ->
    exists (older : list FormattedMessage) (fm : FormattedMessage),
      get_messages req2 conversationId 1 limit (snd (post_message req form db)) =
        (json 200 (JMessages (older ++ [fm])), snd (post_message req form db)) /\
      fm_id fm = newId req /\
      fm_content fm = match form_content form with Some s => s | None => [] end /\
      uv_id (fm_sender fm) = User._id (req_user req) /\
      fm_createdAt fm = now req /\
      fm_isOwn fm = Nat.eqb (User._id (req_user req)) (User._id (req_user req2)).
Proof.
  intros req req2 form db limit conversationId conversation Hwf Hclock Hok Hcid Hfind Hpart.
  destruct (post_message_cases req form db)
    as [[_ H] | (cid & conv & other & u & _ & Hcid' & Hfind' & _ & _ & _ & Hu & Hrun)];
    [contradiction|].
  rewrite Hcid in Hcid'. injection Hcid' as <-.
  rewrite Hfind in Hfind'. injection Hfind' as <-.
  rewrite Hrun. cbn [snd].
  set (nm := new_message req form conversationId).
  set (db' := mkDb _ _ _ _).
  assert (Hfind2 : findById Conversation._id conversationId (conversations db') =
                   Some (stamped Conversation.touch (now req)
                           (Conversation.set_last (newId req) (now req)) conversation)).
  { unfold db'. cbn [conversations].
    rewrite (findById_update Conversation._id conversationId conversationId _ _
               (set_last_id (newId req) (now req))).
    now rewrite Nat.eqb_refl, Hfind. }
  rewrite (@get_messages_run req2 conversationId 1 limit db' _ Hfind2 Hpart eq_refl).
  set (old := sort_desc (filter (visible conversationId) (messages db))).
  assert (Hpage : exists rest, findMessages conversationId 1 limit (messages db') = nm :: rest
                               /\ incl rest old).
  { unfold findMessages, db'. cbn [messages]. rewrite filter_app. cbn [filter].
    assert (Hv : visible conversationId nm = true).
    { unfold visible, nm, new_message. cbn. now rewrite Nat.eqb_refl. }
    rewrite Hv, sort_desc_newest.
    2:{ apply Forall_forall. intros x Hx. apply filter_In in Hx as (Hx & _).
        unfold nm, new_message. cbn [Message.createdAt]. auto. }
    fold old. unfold limit_skip. cbn [Nat.sub Nat.mul skipn].
    destruct (limit =? 0) eqn:El.
    - exists old. split; [reflexivity|apply incl_refl].
    - destruct limit as [|n]; [discriminate|]. cbn [firstn].
      exists (firstn n old). split; [reflexivity|].
      intros x Hx. rewrite <- (firstn_skipn n old). apply in_or_app. now left. }
  destruct Hpage as (rest & -> & Hrest).
  cbn [rev users db'].
  set (fmt := formatMessage req2 (fun s => Nat.eqb (User._id s) (User._id (req_user req2)))
                (users db)).
  destruct (@mapM_total _ _ fmt (rev rest)) as (older & Holder & _).
  { intros m Hm. apply in_rev, Hrest in Hm. unfold old in Hm.
    apply (Permutation_in _ (sort_desc_perm _)) in Hm.
    apply visible_spec in Hm as (Hin & Hc & Hd).
    pose proof (@wf_senders_resolve db conversationId Hwf m Hin Hc Hd) as Hs.
    unfold fmt, formatMessage, populate.
    now destruct (findById User._id (Message.sender m) (users db)). }
  assert (Hnm : fmt nm =
                Some (mkFormatted (newId req) (Message.content nm)
                        (chatUrl req2 (Message.image nm)) (Message.messageType nm)
                        (userView req2 u) (now req)
                        (Nat.eqb (User._id u) (User._id (req_user req2))))).
  { unfold fmt, formatMessage, populate. unfold nm at 1, new_message at 1.
    cbn [Message.sender]. now rewrite Hu. }
  assert (Hlast : mapM fmt [nm] = Some [mkFormatted (newId req) (Message.content nm)
                        (chatUrl req2 (Message.image nm)) (Message.messageType nm)
                        (userView req2 u) (now req)
                        (Nat.eqb (User._id u) (User._id (req_user req2)))]).
  { cbn [mapM]. now rewrite Hnm. }
  rewrite (mapM_app _ _ _ Holder Hlast).
  apply findById_id in Hu as (_ & Hu).
  do 2 eexists. split; [reflexivity|]. cbn. now rewrite Hu.
Qed.

Lemma post_message_then_history_witness :
  exists (older : list FormattedMessage) (fm : FormattedMessage),
    get_messages (Sample.request Sample.bob) 5 1 50
      (snd (post_message (Sample.request Sample.alice) Sample.form_1000 Sample.db)) =
      (json 200 (JMessages (older ++ [fm])),
       snd (post_message (Sample.request Sample.alice) Sample.form_1000 Sample.db)) /\
    fm_id fm = 99 /\
    fm_content fm = Sample.thousand /\
    uv_id (fm_sender fm) = 1 /\
    fm_createdAt fm = 1000 /\
    fm_isOwn fm = false.
Proof.
  apply (@post_message_then_history (Sample.request Sample.alice) (Sample.request Sample.bob)
           Sample.form_1000 Sample.db 50 5 Sample.chat sample_db_wf).
  - cbn. intros m [<-|[<-|[<-|[]]]]; cbn; lia.
  - vm_compute. reflexivity.
  - reflexivity.
  - reflexivity.
  - reflexivity.
Defined.

Lemma limit_skip_incl (limit skip : nat) (l : list Message.t) :
  incl (limit_skip limit skip l) l.
Proof.
  unfold limit_skip. intros x Hx.
  assert (Hs : In x (skipn skip l)).
  { destruct (limit =? 0); [exact Hx|].
    rewrite <- (firstn_skipn limit (skipn skip l)). apply in_or_app. now left. }
  rewrite <- (firstn_skipn skip l). apply in_or_app. now right.
Qed.

Lemma findMessages_In (conversationId : ObjectId) (page limit : nat) (ms : list Message.t)
    (m : Message.t) :
  In m (findMessages conversationId page limit ms) ->
  In m ms /\ Message.conversation m = conversationId /\ Message.isDeleted m = false.
Proof.
  intros H. apply limit_skip_incl in H.
  apply (Permutation_in _ (sort_desc_perm _)) in H.
  now apply visible_spec.
Qed.

Lemma findMessages_length (conversationId : ObjectId) (page limit : nat)
    (ms : list Message.t) :
  limit <> 0 -> List.length (findMessages conversationId page limit ms) <= limit.
Proof.
  intros H. unfold findMessages, limit_skip.
  apply Nat.eqb_neq in H. rewrite H. rewrite length_firstn. apply Nat.le_min_l.
Qed.

(** What a reply of GET /conversation/:conversationId/messages lists. *)
Lemma get_messages_listed (req : Req) (conversationId : ObjectId) (page limit : nat) (db : Db)
    (out : list FormattedMessage) (fm : FormattedMessage) :
  mapM (formatMessage req (fun s => Nat.eqb (User._id s) (User._id (req_user req)))
          (users db))
       (rev (findMessages conversationId page limit (messages db))) = Some out ->
  In fm out ->
  exists m,
    In m (messages db) /\ Message.conversation m = conversationId /\
    Message.isDeleted m = false /\
    fm_id fm = Message._id m /\ fm_content fm = Message.content m /\
    fm_createdAt fm = Message.createdAt m /\
    uv_id (fm_sender fm) = Message.sender m /\
    fm_isOwn fm = Nat.eqb (Message.sender m) (User._id (req_user req)).
Proof.
  intros Hout Hfm.
  destruct (mapM_In _ _ _ Hout Hfm) as (m & Hm & Hf).
  apply in_rev, findMessages_In in Hm. destruct Hm as (Hin & Hc & Hd).
  exists m. unfold formatMessage, populate in Hf.
  destruct (findById User._id (Message.sender m) (users db)) as [u|] eqn:Eu; [|discriminate].
  apply findById_id in Eu as (_ & Eu).
  injection Hf as <-. cbn. rewrite Eu. repeat split; assumption.
Qed.

Lemma delete_message_ok (req : Req) (messageId : ObjectId) (db : Db) :
  status (fst (delete_message req messageId db)) = 200 ->
  exists (m : Message.t) (before after : list Message.t),
    messages db = before ++ m :: after /\
    Message._id m = messageId /\
    Forall (fun x => Nat.eqb (Message._id x) messageId = false) before /\
    Message.sender m = User._id (req_user req) /\
    delete_message req messageId db =
      (json 200 (JMessage "Mensaje eliminado exitosamente"),
       mkDb (users db) (posts db) (conversations db)
            (before ++ soft_deleted (now req) m :: after)).
Proof.
  unfold delete_message, route, bind, gets.
  destruct (findById Message._id messageId (messages db)) as [m|] eqn:Hfind; [|discriminate].
  destruct (Nat.eqb (Message.sender m) (User._id (req_user req))) eqn:Hs; [|discriminate].
  cbn [negb]. cbv zeta. unfold Message_save. rewrite validate_set_deleted.
  destruct (Message.validate m); [|discriminate].
  intros _. unfold findById in Hfind.
  destruct (find_split _ _ Hfind) as (before & after & Hsplit & Hid & Hbefore).
  exists m, before, after. apply Nat.eqb_eq in Hid, Hs.
  repeat split; auto.
  fold (soft_deleted (now req) m).
  assert (Eid : Message._id (soft_deleted (now req) m) = messageId).
  { unfold soft_deleted. now destruct (_ || _). }
  unfold modify, ret, with_messages, saveLoaded, findByIdAndUpdate.
  rewrite Eid, Hsplit.
  rewrite updateOne_split; [reflexivity|exact Hbefore|]. now apply Nat.eqb_eq.
Qed.

(** X12. A message that its sender deleted is not shown again: in a store
    whose messages have distinct identifiers, after DELETE
    /message/:messageId has answered 200, no page of the history of any
    conversation, whoever asks for it, lists a message with that
    identifier. *)
Theorem delete_message_hides :
  forall (req req2 : Req) (messageId conversationId : ObjectId) (page limit : nat)
         (db db2 : Db) (out : list FormattedMessage),
    NoDup (map Message._id (messages db)) ->
    status (fst (delete_message req messageId db)) = 200 ->
    get_messages req2 conversationId page limit (snd (delete_message req messageId db)) =
      (json 200 (JMessages out), db2) ->
    ~ In messageId (map fm_id out).
Proof.
  intros req req2 messageId conversationId page limit db db2 out Hnd Hok Hget Hin.
  destruct (delete_message_ok _ _ _ Hok)
    as (m & before & after & Hsplit & Hid & Hbefore & _ & Hrun).
  rewrite Hrun in Hget. cbn [snd] in Hget.
  set (db' := mkDb _ _ _ _) in Hget.
  destruct (@get_messages_ok req2 conversationId page limit db')
    as (conv & out' & _ & _ & Hout & Hget'); [now rewrite Hget|].
  rewrite Hget' in Hget. injection Hget as -> _.
  apply in_map_iff in Hin as (fm & Hfm & Hin).
  destruct (@get_messages_listed req2 conversationId page limit db' out fm Hout Hin)
    as (x & Hx & _ & Hdel & Hxid & _).
  rewrite Hfm in Hxid. unfold db' in Hx. cbn [messages] in Hx.
  rewrite Hsplit, map_app in Hnd. cbn [map] in Hnd. apply NoDup_remove_2 in Hnd.
  apply in_app_or in Hx. destruct Hx as [Hx | [Hx | Hx]].
  - rewrite Forall_forall in Hbefore. apply Hbefore in Hx.
    apply Nat.eqb_neq in Hx. congruence.
  - subst x. unfold soft_deleted in Hdel. now destruct (_ || _).
  - apply Hnd, in_or_app. right. rewrite Hid, Hxid. now apply in_map.
Qed.

Lemma delete_message_hides_witness :
  ~ In 11 (map fm_id
             (match body (fst (get_messages (Sample.request Sample.bob) 5 1 50
                                 (snd (delete_message (Sample.request Sample.alice) 11
                                         Sample.db)))) with
              | JMessages l => l
              | _ => []
              end)).
Proof.
  apply (@delete_message_hides (Sample.request Sample.alice) (Sample.request Sample.bob)
           11 5 1 50 Sample.db
           (snd (delete_message (Sample.request Sample.alice) 11 Sample.db))).
  - cbn. repeat constructor; cbn; intuition discriminate.
  - reflexivity.
  - vm_compute. reflexivity.
Defined.

Lemma firstn_add_skipn (A : Type) (a b : nat) (l : list A) :
  firstn (a + b) l = firstn a l ++ firstn b (skipn a l).
Proof.
  revert l. induction a as [|a IH]; intros l; [reflexivity|].
  destruct l as [|x l]; cbn.
  - now rewrite firstn_nil.
  - now rewrite IH.
Qed.

(** X13. The pages of a history tile it: with a positive limit, the first
    [n] pages of the query of GET /conversation/:conversationId/messages,
    one after the other, are the first [n * limit] messages of the
    conversation, newest first; over an unchanged store no message is
    repeated or skipped from one page to the next. *)
Theorem findMessages_pages_tile :
  forall (conversationId : ObjectId) (limit n : nat) (ms : list Message.t),
    0 < limit -> 0 < n ->
    flat_map (fun page => findMessages conversationId page limit ms) (seq 1 n) =
    findMessages conversationId 1 (n * limit) ms.
Proof.
  intros conversationId limit n ms Hl Hn.
  unfold findMessages, limit_skip.
  set (all := sort_desc (filter (visible conversationId) ms)).
  assert (El : (limit =? 0) = false) by (apply Nat.eqb_neq; lia).
  cbn [Nat.sub Nat.mul skipn].
  assert (En : (n * limit =? 0) = false) by (apply Nat.eqb_neq; nia).
  rewrite En. clear En.
  induction n as [|n IH]; [lia|].
  destruct n as [|n].
  - cbn [seq flat_map Nat.sub Nat.mul skipn]. rewrite El, app_nil_r.
    now rewrite Nat.add_0_r.
  - rewrite seq_S, flat_map_app, IH by lia.
    cbn [flat_map]. rewrite app_nil_r, El.
    replace (1 + S n - 1) with (S n) by lia.
    replace (S (S n) * limit) with (S n * limit + limit) by lia.
    now rewrite firstn_add_skipn.
Qed.

Lemma findMessages_pages_tile_witness :
  flat_map (fun page => findMessages 5 page 1 (messages Sample.db)) (seq 1 2) =
  findMessages 5 1 (2 * 1) (messages Sample.db).
Proof.
  apply (@findMessages_pages_tile 5 1 2 (messages Sample.db)); lia.
Defined.

(** X14. What any page of a history may show.  When GET
    /conversation/:conversationId/messages answers 200, for any page and
    limit: nothing is written, the conversation is stored and the requester
    is one of its participants, every listed message is a stored message of
    that conversation that is not deleted, shown with its own identifier,
    content, date and sender and marked as the requester's own exactly when
    the requester sent it, and a non-zero limit bounds the length of the
    list. *)
Theorem get_messages_sound :
  forall (req : Req) (conversationId : ObjectId) (page limit : nat) (db db' : Db)
         (out : list FormattedMessage),
    get_messages req conversationId page limit db = (json 200 (JMessages out), db') ->
    db' = db /\
    (exists conversation,
       findById Conversation._id conversationId (conversations db) = Some conversation /\
       In (User._id (req_user req)) (Conversation.participants conversation)) /\
    Forall (fun fm =>
              exists m,
                In m (messages db) /\ Message.conversation m = conversationId /\
                Message.isDeleted m = false /\
                fm_id fm = Message._id m /\ fm_content fm = Message.content m /\
                fm_createdAt fm = Message.createdAt m /\
                uv_id (fm_sender fm) = Message.sender m /\
                fm_isOwn fm = Nat.eqb (Message.sender m) (User._id (req_user req))) out /\
    (limit <> 0 -> List.length out <= limit).
Proof.
  intros req conversationId page limit db db' out Hget.
  destruct (@get_messages_ok req conversationId page limit db)
    as (conv & out' & Hfind & Hpart & Hout & Hget'); [now rewrite Hget|].
  rewrite Hget' in Hget. injection Hget as -> <-.
  split; [reflexivity|]. split; [|split].
  - exists conv. split; [exact Hfind|]. now apply includes_In.
  - apply Forall_forall. intros fm Hfm.
    exact (@get_messages_listed req conversationId page limit db out fm Hout Hfm).
  - intros Hl. rewrite (mapM_length _ _ Hout), length_rev.
    now apply findMessages_length.
Qed.

Lemma get_messages_sound_witness :
  exists conversation,
    findById Conversation._id 5 (conversations Sample.db) = Some conversation /\
    In 1 (Conversation.participants conversation).
Proof.
  refine (proj1 (proj2 (@get_messages_sound (Sample.request Sample.alice) 5 1 50
                          Sample.db Sample.db
                          (match body (fst (get_messages (Sample.request Sample.alice) 5 1 50
                                              Sample.db)) with
                           | JMessages l => l
                           | _ => []
                           end) _))).
  vm_compute. reflexivity.
Defined.

(** ** The list of conversations *)

Section SortByFacts.
Variable A : Type.
Variable key : A -> nat.

Lemma insert_by_perm (a : A) (l : list A) : Permutation (insert_by key a l) (a :: l).
Proof.
  induction l as [|x l IH]; cbn; [reflexivity|].
  destruct (key x <=? key a); [reflexivity|].
  rewrite IH. apply perm_swap.
Qed.

Lemma sort_by_perm (l : list A) : Permutation (sort_by key l) l.
Proof.
  induction l as [|x l IH]; cbn; [reflexivity|].
  rewrite insert_by_perm. now apply perm_skip.
Qed.

Lemma insert_by_sorted (a : A) (l : list A) :
  StronglySorted (fun x y => key y <= key x) l ->
  StronglySorted (fun x y => key y <= key x) (insert_by key a l).
Proof.
  induction l as [|x l IH]; cbn; intros Hs.
  - repeat constructor.
  - inversion Hs as [|? ? Hl Hx]; subst.
    destruct (key x <=? key a) eqn:E.
    + apply Nat.leb_le in E. constructor; [exact Hs|].
      constructor; [exact E|].
      rewrite Forall_forall in *. intros y Hy. specialize (Hx y Hy). lia.
    + apply Nat.leb_gt in E. constructor; [now apply IH|].
      apply Forall_forall. intros y Hy.
      apply (Permutation_in _ (insert_by_perm a l)) in Hy. destruct Hy as [<-|Hy].
      * lia.
      * rewrite Forall_forall in Hx. now apply Hx.
Qed.

Lemma sort_by_sorted (l : list A) : StronglySorted (fun x y => key y <= key x) (sort_by key l).
Proof.
  induction l as [|x l IH]; cbn; [constructor|now apply insert_by_sorted].
Qed.

End SortByFacts.

Lemma populateMany_In (us : list User.t) (l : list ObjectId) (u : User.t) :
  In u (populateMany us l) <-> exists i, In i l /\ findById User._id i us = Some u.
Proof.
  unfold populateMany, populate. rewrite in_flat_map. split.
  - intros (i & Hi & Hu). exists i. split; [exact Hi|].
    destruct (findById User._id i us) as [v|]; [|destruct Hu].
    destruct Hu as [<-|[]]. reflexivity.
  - intros (i & Hi & Hu). exists i. split; [exact Hi|]. rewrite Hu. now left.
Qed.

Lemma summary_some (req : Req) (db : Db) (c : Conversation.t) :
  (exists p, In p (Conversation.participants c) /\ p <> User._id (req_user req) /\
             findById User._id p (users db) <> None) ->
  exists s, summary req db c = Some s.
Proof.
  intros (p & Hp & Hne & Hstored). unfold summary.
  destruct (find _ (populateMany (users db) (Conversation.participants c))) eqn:E; [eauto|].
  exfalso.
  destruct (findById User._id p (users db)) as [u|] eqn:Hu; [|now apply Hstored].
  assert (Hin : In u (populateMany (users db) (Conversation.participants c))).
  { apply populateMany_In. eauto. }
  pose proof (find_none _ _ E u Hin) as Hf. cbn in Hf.
  apply negb_false_iff, Nat.eqb_eq in Hf.
  apply findById_id in Hu as (_ & Hu). congruence.
Qed.

Lemma summary_shape (req : Req) (db : Db) (c : Conversation.t) (s : ConversationSummary) :
  summary req db c = Some s ->
  cs_id s = Conversation._id c /\
  cs_lastActivity s = Conversation.lastActivity c /\
  uv_id (cs_participant s) <> User._id (req_user req) /\
  In (uv_id (cs_participant s)) (Conversation.participants c) /\
  cs_lastMessage s =
    option_map (fun m => mkPreview (Message.content m) (Message.messageType m)
                                   (Message.createdAt m))
      (match Conversation.lastMessage c with
       | Some i => findById Message._id i (messages db)
       | None => None
       end).
Proof.
  unfold summary.
  destruct (find _ (populateMany (users db) (Conversation.participants c))) as [o|] eqn:E;
    [|discriminate].
  intros H. injection H as <-. cbn.
  apply find_some in E as (Hin & Hne).
  apply populateMany_In in Hin as (i & Hi & Hu).
  apply findById_id in Hu as (_ & Hu).
  apply negb_true_iff, Nat.eqb_neq in Hne.
  repeat split; auto. now rewrite Hu.
Qed.

(** X15. The inbox of a user.  When every conversation of the requester
    has a stored participant other than the requester, GET /conversations
    answers 200 with one entry for each conversation in which the requester
    takes part and no other, most recently active first; each entry carries
    the identifier and last activity of its conversation and shows a
    participant of that conversation who is not the requester. *)
Theorem get_conversations_inbox :
  forall (req : Req) (db : Db),
    (forall c, In c (conversations db) ->
               includes (User._id (req_user req)) (Conversation.participants c) = true ->
               exists p, In p (Conversation.participants c) /\ p <> User._id (req_user req) /\
                         findById User._id p (users db) <> None) ->
    exists (shown : list Conversation.t) (l : list ConversationSummary),
      get_conversations req db = answer 200 (VInbox l) /\
      Permutation shown
        (filter (fun c => includes (User._id (req_user req)) (Conversation.participants c))
                (conversations db)) /\
      StronglySorted (fun x y => Conversation.lastActivity y <= Conversation.lastActivity x)
        shown /\
      Forall2 (fun c s => cs_id s = Conversation._id c /\
                          cs_lastActivity s = Conversation.lastActivity c /\
                          uv_id (cs_participant s) <> User._id (req_user req) /\
                          In (uv_id (cs_participant s)) (Conversation.participants c))
              shown l.
Proof.
  intros req db Hother. unfold get_conversations.
  set (mine := filter _ (conversations db)).
  set (shown := sort_by Conversation.lastActivity mine).
  destruct (@mapM_total _ _ (summary req db) shown) as (l & Hl & Hrel).
  { intros c Hc E.
    apply (Permutation_in _ (sort_by_perm Conversation.lastActivity mine)) in Hc.
    apply filter_In in Hc as (Hc & Hmine).
    destruct (summary_some req db c (Hother c Hc Hmine)) as (s & Hs). congruence. }
  exists shown, l. rewrite Hl. split; [reflexivity|]. split; [|split].
  - apply sort_by_perm.
  - apply sort_by_sorted.
  - eapply Forall2_impl; [|exact Hrel].
    intros c s Hs. apply summary_shape in Hs. tauto.
Qed.

Lemma get_conversations_inbox_witness :
  exists (shown : list Conversation.t) (l : list ConversationSummary),
    get_conversations (Sample.request Sample.alice) Sample.db = answer 200 (VInbox l) /\
    Permutation shown
      (filter (fun c => includes 1 (Conversation.participants c)) (conversations Sample.db)) /\
    StronglySorted (fun x y => Conversation.lastActivity y <= Conversation.lastActivity x)
      shown /\
    Forall2 (fun c s => cs_id s = Conversation._id c /\
                        cs_lastActivity s = Conversation.lastActivity c /\
                        uv_id (cs_participant s) <> 1 /\
                        In (uv_id (cs_participant s)) (Conversation.participants c))
            shown l.
Proof.
  apply (@get_conversations_inbox (Sample.request Sample.alice) Sample.db).
  intros c Hc _. destruct Hc as [<-|[]]. exists 2. cbn.
  split; [now right; left|]. split; discriminate.
Defined.

Lemma mapM_image (A B : Type) (f : A -> option B) (l : list A) (out : list B) (x : A) :
  mapM f l = Some out -> In x l -> exists y, In y out /\ f x = Some y.
Proof.
  revert out. induction l as [|a l IH]; cbn; intros out H Hx; [destruct Hx|].
  destruct (f a) as [y0|] eqn:E; [|discriminate].
  destruct (mapM f l) as [ys|]; [|discriminate].
  injection H as <-. destruct Hx as [<-|Hx].
  - exists y0. split; [now left|exact E].
  - destruct (IH ys eq_refl Hx) as (y & Hy & E'). exists y. split; [now right|exact E'].
Qed.

Lemma unique_after (Doc : Type) (id_of : Doc -> ObjectId) (l1 l2 : list Doc) (d x : Doc) :
  NoDup (map id_of (l1 ++ d :: l2)) -> In x l2 -> id_of x <> id_of d.
Proof.
  rewrite map_app. cbn [map]. intros Hnd Hx E. apply NoDup_remove_2 in Hnd.
  apply Hnd, in_or_app. right. rewrite <- E. now apply in_map.
Qed.

(** X16. A message that is sent shows in the inbox: in a store whose
    conversations have distinct identifiers and in which the identifier of
    the new message is fresh, after POST /message has answered 201, every
    GET /conversations that answers 200 shows the conversation of the
    message, if it lists it, with the content, type and date of the new
    message as preview and the time of the request as last activity; and
    it lists it for every participant of the conversation. *)
Theorem post_message_then_inbox :
  forall (req req2 : Req) (form : MessageForm) (db : Db) (conversationId : ObjectId)
         (conversation : Conversation.t) (l : list ConversationSummary),
    NoDup (map Conversation._id (conversations db)) ->
    ~ In (newId req) (map Message._id (messages db)) ->
    status (fst (post_message req form db)) = 201 ->
    form_conversationId form = Some conversationId ->
    findById Conversation._id conversationId (conversations db) = Some conversation ->
    get_conversations req2 (snd (post_message req form db)) = answer 200 (VInbox l) ->
    (forall s, In s l -> cs_id s = conversationId ->
       cs_lastMessage s =
         Some (mkPreview (match form_content form with Some t => t | None => [] end)
                         (if truthy (form_file form) then Message.image_ else Message.text)
                         (now req)) /\
       cs_lastActivity s = now req) /\
    (includes (User._id (req_user req2)) (Conversation.participants conversation) = true ->
     exists s, In s l /\ cs_id s = conversationId).
Proof.
  intros req req2 form db conversationId conversation l Hnd Hfresh Hok Hcid Hfind Hget.
  destruct (post_message_cases req form db)
    as [[_ H] | (cid & conv & other & u & _ & Hcid' & Hfind' & _ & _ & _ & _ & Hrun)];
    [contradiction|].
  rewrite Hcid in Hcid'. injection Hcid' as <-.
  rewrite Hfind in Hfind'. injection Hfind' as <-.
  rewrite Hrun in Hget. cbn [snd] in Hget.
  set (nm := new_message req form conversationId) in *.
  unfold findById in Hfind.
  destruct (find_split _ _ Hfind) as (l1 & l2 & Hsplit & Hid & Hl1).
  set (marked := stamped Conversation.touch (now req)
                   (Conversation.set_last (newId req) (now req))) in *.
  assert (Hconvs : findByIdAndUpdate Conversation._id conversationId marked (conversations db)
                   = l1 ++ marked conversation :: l2).
  { unfold findByIdAndUpdate. rewrite Hsplit. now apply updateOne_split. }
  rewrite Hconvs in Hget.
  set (db' := mkDb _ _ _ _) in Hget.
  assert (Hlast : findById Message._id (newId req) (messages db') = Some nm).
  { unfold db', findById. cbn [messages].
    rewrite find_app_none.
    - cbn. now rewrite Nat.eqb_refl.
    - apply (findById_absent Message._id). exact Hfresh. }
  unfold get_conversations in Hget.
  destruct (mapM (summary req2 db') _) as [l'|] eqn:Hl; [|discriminate].
  injection Hget as ->.
  set (mine := filter _ (conversations db')) in Hl.
  apply Nat.eqb_eq in Hid.
  split.
  - intros s Hs Hsid.
    destruct (mapM_In _ _ _ Hl Hs) as (c & Hc & Hsum).
    apply (Permutation_in _ (sort_by_perm Conversation.lastActivity mine)) in Hc.
    apply filter_In in Hc as (Hc & _).
    apply summary_shape in Hsum. destruct Hsum as (Eid & Eact & _ & _ & Emsg).
    assert (Ec : c = marked conversation).
    { unfold db' in Hc. cbn [conversations] in Hc.
      apply in_app_or in Hc. destruct Hc as [Hc | [Hc | Hc]].
      - rewrite Forall_forall in Hl1. apply Hl1 in Hc. apply Nat.eqb_neq in Hc. congruence.
      - now symmetry.
      - rewrite Hsplit in Hnd.
        pose proof (unique_after Conversation._id _ _ _ _ Hnd Hc). congruence. }
    subst c. unfold marked, stamped in Emsg, Eact.
    cbn [Conversation.touch Conversation.set_last Conversation.lastMessage
         Conversation.lastActivity] in Emsg, Eact.
    rewrite Hlast in Emsg. split; [exact Emsg|exact Eact].
  - intros Hpart.
    assert (Hin : In (marked conversation) (sort_by Conversation.lastActivity mine)).
    { apply (Permutation_in _ (Permutation_sym (sort_by_perm Conversation.lastActivity mine))).
      apply filter_In. split.
      - unfold db'. cbn [conversations]. apply in_or_app. right. now left.
      - exact Hpart. }
    destruct (mapM_image _ _ _ Hl Hin) as (s & Hs & Hsum).
    exists s. split; [exact Hs|]. apply summary_shape in Hsum.
    destruct Hsum as (Eid & _). now rewrite Eid.
Qed.

Lemma post_message_then_inbox_witness :
  (forall s,
     In s (match view (get_conversations (Sample.request Sample.bob)
                         (snd (post_message (Sample.request Sample.alice) Sample.form_1000
                                 Sample.db))) with
           | VInbox l => l
           | _ => []
           end) ->
     cs_id s = 5 ->
     cs_lastMessage s = Some (mkPreview Sample.thousand Message.text 1000) /\
     cs_lastActivity s = 1000) /\
  (includes 2 (Conversation.participants Sample.chat) = true ->
   exists s,
     In s (match view (get_conversations (Sample.request Sample.bob)
                         (snd (post_message (Sample.request Sample.alice) Sample.form_1000
                                 Sample.db))) with
           | VInbox l => l
           | _ => []
           end) /\
     cs_id s = 5).
Proof.
  apply (@post_message_then_inbox (Sample.request Sample.alice) (Sample.request Sample.bob)
           Sample.form_1000 Sample.db 5 Sample.chat).
  - cbn. repeat constructor; cbn; intuition discriminate.
  - cbn. intuition discriminate.
  - vm_compute. reflexivity.
  - reflexivity.
  - reflexivity.
  - vm_compute. reflexivity.
Defined.

Lemma mapM_pointwise (A B : Type) (f g : A -> option B) (l : list A) :
  (forall x, f x = g x) -> mapM f l = mapM g l.
Proof.
  intros E. induction l as [|x l IH]; cbn; [reflexivity|]. now rewrite E, IH.
Qed.

Lemma find_replaced (A B : Type) (p : A -> bool) (view : A -> B) (l1 l2 : list A) (d d' : A) :
  p d' = p d -> view d' = view d ->
  option_map view (find p (l1 ++ d' :: l2)) = option_map view (find p (l1 ++ d :: l2)).
Proof.
  intros Hp Hv. induction l1 as [|x l1 IH]; cbn.
  - rewrite Hp. destruct (p d); cbn; [now rewrite Hv|reflexivity].
  - destruct (p x); [reflexivity|exact IH].
Qed.

(** X17. Deleting a message changes no inbox: whatever DELETE
    /message/:messageId answers, GET /conversations gives every requester
    the same reply after it as before.  In particular the preview of a
    conversation keeps showing the content of its last message once that
    message is deleted. *)
Theorem delete_message_keeps_inbox :
  forall (req req2 : Req) (messageId : ObjectId) (db : Db),
    get_conversations req2 (snd (delete_message req messageId db)) =
    get_conversations req2 db.
Proof.
  intros req req2 messageId db.
  destruct (Nat.eq_dec (status (fst (delete_message req messageId db))) 200) as [Hok|Hno].
  - destruct (delete_message_ok _ _ _ Hok)
      as (m & before & after & Hsplit & Hid & Hbefore & _ & Hrun).
    rewrite Hrun. cbn [snd]. unfold get_conversations. cbn [conversations].
    rewrite (@mapM_pointwise _ _
               (summary req2 (mkDb (users db) (posts db) (conversations db)
                                (before ++ soft_deleted (now req) m :: after)))
               (summary req2 db)); [reflexivity|].
    intros c. unfold summary. cbn [users messages].
    destruct (find _ (populateMany (users db) (Conversation.participants c))); [|reflexivity].
    destruct (Conversation.lastMessage c) as [i|]; [|reflexivity].
    unfold findById. rewrite Hsplit.
    assert (Eid : Message._id (soft_deleted (now req) m) = Message._id m)
      by (unfold soft_deleted; now destruct (_ || _)).
    assert (Eview : mkPreview (Message.content (soft_deleted (now req) m))
                      (Message.messageType (soft_deleted (now req) m))
                      (Message.createdAt (soft_deleted (now req) m)) =
                    mkPreview (Message.content m) (Message.messageType m)
                      (Message.createdAt m))
      by (unfold soft_deleted; now destruct (_ || _)).
    rewrite (@find_replaced _ _ (fun d => Nat.eqb (Message._id d) i)
               (fun m0 => mkPreview (Message.content m0) (Message.messageType m0)
                                    (Message.createdAt m0))
               before after m (soft_deleted (now req) m)); [reflexivity| |exact Eview].
    now rewrite Eid.
  - assert (E : snd (delete_message req messageId db) = db); [|now rewrite E].
    revert Hno. unfold delete_message, route, bind, gets.
    destruct (findById Message._id messageId (messages db)) as [m|]; [|reflexivity].
    destruct (Nat.eqb (Message.sender m) (User._id (req_user req))); [|reflexivity].
    cbn [negb]. unfold Message_save.
    destruct (Message.validate _); [|reflexivity].
    cbn. congruence.
Qed.

(** ** Likes, once more *)

Lemma existsb_find_none (A : Type) (p : A -> bool) (l : list A) :
  existsb p l = false -> find p l = None.
Proof.
  induction l as [|x l IH]; cbn; [reflexivity|].
  destruct (p x); [discriminate|exact IH].
Qed.

Lemma liked_fields (req : Req) (p : Post.t) :
  existsb (fun like => Nat.eqb (Like.user like) (User._id (req_user req))) (Post.likes p) = false ->
  liked req p =
    Post.mk (Post._id p) (Post.text p) (Post.isRichText p) (Post.image p) (Post.author p)
      (Post.likes p ++ [Like.mk (User._id (req_user req)) (now req)])
      (Z.of_nat (List.length (Post.likes p) + 1)) (Post.createdAt p) (now req).
Proof.
  intros H. unfold liked, addLike, hydrate. cbn [doc].
  rewrite (existsb_find_none _ _ H). cbn. now rewrite length_app.
Qed.

Lemma post_like_run (req : Req) (postId : ObjectId) (db : Db) (p : Post.t) :
  findById Post._id postId (posts db) = Some p ->
  existsb (fun like => Nat.eqb (Like.user like) (User._id (req_user req))) (Post.likes p) = false ->
  Post.validate p = true ->
  post_like req postId db =
    (match recentLikes (users db) (liked req p) with
     | Some names =>
         json 200 (JLike "Like añadido exitosamente"
                     (mkLikeData (Post._id p) (Z.of_nat (List.length (Post.likes p) + 1)) true
                        names (User.username (req_user req))))
     | None => json 500 (JMessage "Error del servidor")
     end,
     with_posts (saveLoaded Post._id (liked req p)) db).
Proof.
  intros Hfind Hnot Hvalid.
  rewrite (liked_fields req p Hnot).
  unfold post_like, route. unfold bind at 1, gets at 1. rewrite Hfind.
  unfold hasUserLiked, hydrate. cbn [doc]. rewrite Hnot.
  unfold addLike. cbn [doc]. rewrite (existsb_find_none _ _ Hnot).
  cbn [negb snd likesCountModified].
  unfold Post_save, pre_save. cbn [likesModified likesCountModified orb doc].
  unfold Post.touch, Post.set_likesCount, Post.set_likes.
  cbn [Post._id Post.text Post.isRichText Post.image Post.author Post.likes Post.likesCount
       Post.createdAt Post.updatedAt].
  rewrite length_app. cbn [List.length].
  match goal with |- context [Post.validate ?q] =>
    assert (Hv : Post.validate q = true) by exact Hvalid; rewrite Hv
  end.
  unfold bind, modify, ret, gets. cbn [users with_posts doc Post._id Post.likesCount].
  match goal with |- context [recentLikes ?a ?b] => destruct (recentLikes a b) end;
    reflexivity.
Qed.

Lemma likers_existsb (u : ObjectId) (l : list Like.t) :
  existsb (fun like => Nat.eqb (Like.user like) u) l = true <-> In u (map Like.user l).
Proof.
  rewrite existsb_exists, in_map_iff. split.
  - intros (x & Hx & E). apply Nat.eqb_eq in E. eauto.
  - intros (x & E & Hx). exists x. split; [exact Hx|]. now apply Nat.eqb_eq.
Qed.


Lemma filter_shorter (A : Type) (p : A -> bool) (l : list A) :
  existsb p l = true -> List.length (filter (fun x => negb (p x)) l) < List.length l.
Proof.
  induction l as [|x l IH]; cbn; [discriminate|].
  destruct (p x); cbn.
  - intros _. pose proof (filter_length_le (fun x => negb (p x)) l). lia.
  - intros H. apply IH in H. lia.
Qed.


Lemma unliked_fields (req : Req) (p : Post.t) :
  existsb (fun like => Nat.eqb (Like.user like) (User._id (req_user req))) (Post.likes p) = true ->
  unliked req p =
    Post.mk (Post._id p) (Post.text p) (Post.isRichText p) (Post.image p) (Post.author p)
      (filter (fun like => negb (Nat.eqb (Like.user like) (User._id (req_user req))))
              (Post.likes p))
      (Z.of_nat (List.length
                   (filter (fun like => negb (Nat.eqb (Like.user like) (User._id (req_user req))))
                           (Post.likes p))))
      (Post.createdAt p) (now req).
Proof.
  intros H. unfold unliked, removeLike, hydrate, pre_save. cbn [doc likesModified snd orb].
  apply filter_shorter, Nat.ltb_lt in H. rewrite H. reflexivity.
Qed.

Lemma delete_like_run (req : Req) (postId : ObjectId) (db : Db) (p : Post.t) :
  findById Post._id postId (posts db) = Some p ->
  existsb (fun like => Nat.eqb (Like.user like) (User._id (req_user req))) (Post.likes p) = true ->
  Post.validate p = true ->
  delete_like req postId db =
    (match recentLikes (users db) (unliked req p) with
     | Some names =>
         json 200 (JLike "Like removido exitosamente"
                     (mkLikeData (Post._id p) (Post.likesCount (unliked req p)) false
                        names (User.username (req_user req))))
     | None => json 500 (JMessage "Error del servidor")
     end,
     with_posts (saveLoaded Post._id (unliked req p)) db).
Proof.
  intros Hfind Hyes Hvalid.
  rewrite (unliked_fields req p Hyes).
  unfold delete_like, route. unfold bind at 1, gets at 1. rewrite Hfind.
  unfold hasUserLiked, hydrate. cbn [doc]. rewrite Hyes. cbn [negb].
  unfold removeLike. cbn [doc likesModified likesCountModified orb snd].
  pose proof (proj2 (Nat.ltb_lt _ _) (filter_shorter _ _ Hyes)) as Hlt.
  rewrite Hlt. cbn [negb].
  unfold Post_save, pre_save. cbn [likesModified likesCountModified orb doc].
  unfold Post.touch, Post.set_likesCount, Post.set_likes.
  cbn [Post._id Post.text Post.isRichText Post.image Post.author Post.likes Post.likesCount
       Post.createdAt Post.updatedAt].
  match goal with |- context [Post.validate ?q] =>
    assert (Hv : Post.validate q = true) by exact Hvalid; rewrite Hv
  end.
  unfold bind, modify, ret, gets. cbn [users with_posts doc Post._id Post.likesCount].
  match goal with |- context [recentLikes ?a ?b] => destruct (recentLikes a b) end;
    reflexivity.
Qed.








(** X20. The second guards of the like routes never fire: POST /:id/like
    never answers "No se pudo añadir el like" and DELETE /:id/like never
    answers "No se pudo quitar el like", because [addLike] and
    [removeLike] succeed whenever the test of [hasUserLiked] before them
    lets the handler go on. *)
Theorem like_second_guards_dead :
  forall (req : Req) (postId : ObjectId) (db : Db),
    body (fst (post_like req postId db)) <> JMessage "No se pudo añadir el like" /\
    body (fst (delete_like req postId db)) <> JMessage "No se pudo quitar el like".
Proof.
  intros req postId db. split.
  - unfold post_like, route. unfold bind at 1, gets at 1.
    destruct (findById Post._id postId (posts db)) as [p|]; [|discriminate].
    unfold hasUserLiked, hydrate. cbn [doc].
    destruct (existsb _ (Post.likes p)) eqn:Hnot; [discriminate|].
    unfold addLike. cbn [doc]. rewrite (existsb_find_none _ _ Hnot). cbn [negb].
    unfold Post_save.
    destruct (Post.validate _); unfold bind, gets, modify, ret, throw; cbn [doc fst snd];
      [|discriminate].
    match goal with |- context [recentLikes ?a ?b] => destruct (recentLikes a b) end;
      discriminate.
  - unfold delete_like, route. unfold bind at 1, gets at 1.
    destruct (findById Post._id postId (posts db)) as [p|]; [|discriminate].
    unfold hasUserLiked, hydrate. cbn [doc].
    destruct (existsb _ (Post.likes p)) eqn:Hyes; [|discriminate].
    unfold removeLike. cbn [doc negb].
    rewrite (proj2 (Nat.ltb_lt _ _) (filter_shorter _ _ Hyes)). cbn [negb].
    unfold Post_save.
    destruct (Post.validate _); unfold bind, gets, modify, ret, throw; cbn [doc fst snd];
      [|discriminate].
    match goal with |- context [recentLikes ?a ?b] => destruct (recentLikes a b) end;
      discriminate.
Qed.

Lemma post_like_posts (req : Req) (postId : ObjectId) (db : Db) :
  posts (snd (post_like req postId db)) = posts db \/
  exists p,
    findById Post._id postId (posts db) = Some p /\
    existsb (fun like => Nat.eqb (Like.user like) (User._id (req_user req))) (Post.likes p)
      = false /\
    posts (snd (post_like req postId db)) = saveLoaded Post._id (liked req p) (posts db).
Proof.
  destruct (findById Post._id postId (posts db)) as [p|] eqn:Hfind.
  2:{ left. unfold post_like, route, bind, gets. now rewrite Hfind. }
  destruct (existsb (fun like => Nat.eqb (Like.user like) (User._id (req_user req)))
                    (Post.likes p)) eqn:Hnot.
  { left. unfold post_like, route, bind, gets, hasUserLiked, hydrate. rewrite Hfind.
    cbn [doc]. now rewrite Hnot. }
  destruct (Post.validate p) eqn:Hvalid.
  - right. exists p. rewrite (post_like_run req postId db Hfind Hnot Hvalid). auto.
  - left. unfold post_like, route. unfold bind at 1, gets at 1. rewrite Hfind.
    unfold hasUserLiked, hydrate. cbn [doc]. rewrite Hnot.
    unfold addLike. cbn [doc]. rewrite (existsb_find_none _ _ Hnot). cbn [negb].
    unfold bind, Post_save, pre_save. cbn [likesModified doc].
    match goal with |- context [Post.validate ?q] =>
      assert (Hv : Post.validate q = false) by exact Hvalid; rewrite Hv
    end.
    reflexivity.
Qed.

Lemma delete_like_posts (req : Req) (postId : ObjectId) (db : Db) :
  posts (snd (delete_like req postId db)) = posts db \/
  exists p,
    findById Post._id postId (posts db) = Some p /\
    existsb (fun like => Nat.eqb (Like.user like) (User._id (req_user req))) (Post.likes p)
      = true /\
    posts (snd (delete_like req postId db)) = saveLoaded Post._id (unliked req p) (posts db).
Proof.
  destruct (findById Post._id postId (posts db)) as [p|] eqn:Hfind.
  2:{ left. unfold delete_like, route, bind, gets. now rewrite Hfind. }
  destruct (existsb (fun like => Nat.eqb (Like.user like) (User._id (req_user req)))
                    (Post.likes p)) eqn:Hyes.
  2:{ left. unfold delete_like, route, bind, gets, hasUserLiked, hydrate. rewrite Hfind.
      cbn [doc]. now rewrite Hyes. }
  destruct (Post.validate p) eqn:Hvalid.
  - right. exists p. rewrite (delete_like_run req postId db Hfind Hyes Hvalid). auto.
  - left. unfold delete_like, route. unfold bind at 1, gets at 1. rewrite Hfind.
    unfold hasUserLiked, hydrate. cbn [doc]. rewrite Hyes.
    unfold removeLike. cbn [doc negb likesModified orb].
    rewrite (proj2 (Nat.ltb_lt _ _) (filter_shorter _ _ Hyes)). cbn [negb].
    unfold bind, Post_save, pre_save. cbn [likesModified doc].
    match goal with |- context [Post.validate ?q] =>
      assert (Hv : Post.validate q = false) by exact Hvalid; rewrite Hv
    end.
    reflexivity.
Qed.

Lemma likers_after_filter (q : Like.t -> bool) (likes : list Like.t) :
  NoDup (map Like.user likes) -> NoDup (map Like.user (filter q likes)).
Proof.
  intros Hnd. induction likes as [|like likes IH]; [constructor|].
  cbn in Hnd |- *. inversion Hnd as [|? ? Hfresh Hrest]; subst.
  destruct (q like); cbn; [|auto].
  constructor; [|auto].
  intros Hin. apply Hfresh. apply in_map_iff in Hin as (y & E & Hy).
  apply filter_In in Hy as (Hy & _). rewrite <- E. now apply in_map.
Qed.

(** X21. Likes and unlikes keep the counters right: if the counter of
    every stored post equals the number of its likes, it still does after
    POST /:id/like and after DELETE /:id/like, whatever they answer. *)
Theorem like_routes_keep_counters :
  forall (req : Req) (postId : ObjectId) (db : Db),
    Forall likes_counted (posts db) ->
    Forall likes_counted (posts (snd (post_like req postId db))) /\
    Forall likes_counted (posts (snd (delete_like req postId db))).
Proof.
  intros req postId db Hall. split.
  - destruct (post_like_posts req postId db) as [-> | (p & _ & Hnot & ->)]; [exact Hall|].
    apply saveLoaded_Forall; [|exact Hall].
    rewrite (liked_fields req p Hnot). unfold likes_counted. cbn.
    now rewrite length_app.
  - destruct (delete_like_posts req postId db) as [-> | (p & _ & Hyes & ->)]; [exact Hall|].
    apply saveLoaded_Forall; [|exact Hall].
    rewrite (unliked_fields req p Hyes). reflexivity.
Qed.

Lemma like_routes_keep_counters_witness :
  Forall likes_counted (posts (snd (post_like (Sample.request Sample.alice) 21 Sample.liked_db)))
  /\
  Forall likes_counted
    (posts (snd (delete_like (Sample.request Sample.carol) 21 Sample.liked_db))).
Proof.
  split.
  - apply (@like_routes_keep_counters (Sample.request Sample.alice) 21 Sample.liked_db).
    repeat constructor.
  - apply (@like_routes_keep_counters (Sample.request Sample.carol) 21 Sample.liked_db).
    repeat constructor.
Defined.

(** X22. Nobody likes a post twice: if in every stored post the likes
    are of distinct users, they still are after POST /:id/like and after
    DELETE /:id/like, whatever they answer. *)
Theorem likers_stay_distinct :
  forall (req : Req) (postId : ObjectId) (db : Db),
    Forall (fun p => NoDup (map Like.user (Post.likes p))) (posts db) ->
    Forall (fun p => NoDup (map Like.user (Post.likes p)))
           (posts (snd (post_like req postId db))) /\
    Forall (fun p => NoDup (map Like.user (Post.likes p)))
           (posts (snd (delete_like req postId db))).
Proof.
  intros req postId db Hall.
  assert (Hp : forall p, findById Post._id postId (posts db) = Some p ->
                         NoDup (map Like.user (Post.likes p))).
  { intros p Hfind. apply findById_id in Hfind as (Hin & _).
    rewrite Forall_forall in Hall. now apply Hall. }
  split.
  - destruct (post_like_posts req postId db) as [-> | (p & Hfind & Hnot & ->)]; [exact Hall|].
    apply saveLoaded_Forall; [|exact Hall].
    rewrite (liked_fields req p Hnot). cbn [Post.likes].
    rewrite map_app. cbn [map Like.user].
    apply NoDup_app; [now apply Hp|repeat constructor; intros []|].
    intros x Hx [<-|[]].
    apply likers_existsb in Hx. congruence.
  - destruct (delete_like_posts req postId db) as [-> | (p & Hfind & Hyes & ->)]; [exact Hall|].
    apply saveLoaded_Forall; [|exact Hall].
    rewrite (unliked_fields req p Hyes). cbn [Post.likes].
    now apply likers_after_filter, Hp.
Qed.

Lemma likers_stay_distinct_witness :
  Forall (fun p => NoDup (map Like.user (Post.likes p)))
         (posts (snd (post_like (Sample.request Sample.alice) 21 Sample.liked_db))) /\
  Forall (fun p => NoDup (map Like.user (Post.likes p)))
         (posts (snd (delete_like (Sample.request Sample.carol) 21 Sample.liked_db))).
Proof.
  split.
  - apply (@likers_stay_distinct (Sample.request Sample.alice) 21 Sample.liked_db).
    repeat constructor. cbn. intuition.
  - apply (@likers_stay_distinct (Sample.request Sample.carol) 21 Sample.liked_db).
    repeat constructor. cbn. intuition.
Defined.



(** ** Publishing and deleting posts *)

Lemma deleteOne_split (Doc : Type) (p : Doc -> bool) (l1 l2 : list Doc) (d : Doc) :
  Forall (fun x => p x = false) l1 -> p d = true ->
  deleteOne p (l1 ++ d :: l2) = l1 ++ l2.
Proof.
  intros H Hd. induction H as [|x l1 Hx _ IH]; cbn.
  - now rewrite Hd.
  - now rewrite Hx, IH.
Qed.

(** X24. Only its author deletes a post.  For a stored post, DELETE /:id
    by anyone but the author answers 403 and writes nothing; by the author
    it answers 200 and removes that post and nothing else; and when the
    identifiers of the posts are distinct, no post is found under that
    identifier afterwards. *)
Theorem delete_post_by_author :
  forall (req : Req) (postId : ObjectId) (db : Db) (p : Post.t),
    findById Post._id postId (posts db) = Some p ->
    (Post.author p <> User._id (req_user req) ->
       delete_post req postId db =
         (json 403 (JMessage "No tienes permiso para eliminar este post"), db))
    /\
    (Post.author p = User._id (req_user req) ->
       exists before after,
         posts db = before ++ p :: after /\
         delete_post req postId db =
           (json 200 (JMessage "Post eliminado exitosamente"),
            mkDb (users db) (before ++ after) (conversations db) (messages db)) /\
         (NoDup (map Post._id (posts db)) ->
          findById Post._id postId (before ++ after) = None)).
Proof.
  intros req postId db p Hfind. split.
  - intros Hne. apply Nat.eqb_neq in Hne.
    unfold delete_post, route, bind, gets. now rewrite Hfind, Hne.
  - intros Hauthor. apply Nat.eqb_eq in Hauthor.
    pose proof Hfind as Hfind0. unfold findById in Hfind.
    destruct (find_split _ _ Hfind) as (before & after & Hsplit & Hid & Hbefore).
    exists before, after. split; [exact Hsplit|]. split.
    + unfold delete_post, route, bind, gets. rewrite Hfind0, Hauthor. cbn [negb].
      unfold modify, ret, with_posts, findByIdAndDelete. rewrite Hsplit at 1.
      now rewrite (@deleteOne_split _ _ before after p Hbefore Hid).
    + intros Hnd. apply (findById_absent Post._id). intros Hin.
      rewrite map_app in Hin. apply in_app_or in Hin. destruct Hin as [Hin|Hin].
      * apply in_map_iff in Hin as (x & E & Hx).
        rewrite Forall_forall in Hbefore. apply Hbefore in Hx.
        apply Nat.eqb_neq in Hx. contradiction.
      * apply in_map_iff in Hin as (x & E & Hx).
        rewrite Hsplit in Hnd.
        apply (unique_after Post._id _ _ _ _ Hnd Hx).
        apply Nat.eqb_eq in Hid. congruence.
Qed.

Lemma delete_post_by_author_witness :
  (Post.author Sample.sunset <> 1 ->
     delete_post (Sample.request Sample.alice) 21 Sample.liked_db =
       (json 403 (JMessage "No tienes permiso para eliminar este post"), Sample.liked_db))
  /\
  (Post.author Sample.sunset = 2 ->
     exists before after,
       posts Sample.liked_db = before ++ Sample.sunset :: after /\
       delete_post (Sample.request Sample.bob) 21 Sample.liked_db =
         (json 200 (JMessage "Post eliminado exitosamente"),
          mkDb (users Sample.liked_db) (before ++ after) (conversations Sample.liked_db)
               (messages Sample.liked_db)) /\
       (NoDup (map Post._id (posts Sample.liked_db)) ->
        findById Post._id 21 (before ++ after) = None)).
Proof.
  split.
  - apply (@delete_post_by_author (Sample.request Sample.alice) 21 Sample.liked_db
             Sample.sunset eq_refl).
  - apply (@delete_post_by_author (Sample.request Sample.bob) 21 Sample.liked_db
             Sample.sunset eq_refl).
Defined.

Section PublishFacts.
Variable trim : string -> string.

(** X25. What publishing writes.  POST / of the post routes does one of
    three things.  It answers 400 and stores nothing, when the text is
    missing, empty, or empty once trimmed.  It answers 500 and stores
    nothing, when the trimmed text is longer than 5000 characters.  Or it
    appends to the posts, and changes nothing else, one post with the
    identifier and date of the request, the trimmed text, the requester as
    author, no like and a counter of 0, created and updated at the time of
    the request, which satisfies the schema; it then answers 201 when the
    author is a stored user, and 500, with the post stored all the same,
    when not. *)
Theorem post_post_outcomes :
  forall (req : Req) (text isRichText file : option string) (db : Db),
    (snd (post_post trim req text isRichText file db) = db /\
     code (fst (post_post trim req text isRichText file db)) = 400 /\
     (text = None \/ text = Some "" \/ exists t, text = Some t /\ trim t = ""))
    \/
    (snd (post_post trim req text isRichText file db) = db /\
     code (fst (post_post trim req text isRichText file db)) = 500 /\
     exists t, text = Some t /\ 5000 < String.length (trim t))
    \/
    (exists (t : string) (post : Post.t),
       text = Some t /\ trim t <> "" /\
       Post._id post = newId req /\ Post.text post = trim t /\
       Post.author post = User._id (req_user req) /\
       Post.likes post = [] /\ Post.likesCount post = 0%Z /\
       Post.createdAt post = now req /\ Post.updatedAt post = now req /\
       Post.validate post = true /\
       snd (post_post trim req text isRichText file db) =
         mkDb (users db) (posts db ++ [post]) (conversations db) (messages db) /\
       code (fst (post_post trim req text isRichText file db)) =
         match findById User._id (User._id (req_user req)) (users db) with
         | Some _ => 201
         | None => 500
         end).
Proof.
  intros req text isRichText file db. unfold post_post.
  destruct text as [t|]; [|left; cbn; auto].
  destruct (negb (truthy (Some t)) || String.eqb (trim t) "") eqn:Eblank.
  { left. cbn [fst snd code]. split; [reflexivity|]. split; [reflexivity|].
    right. apply orb_true_iff in Eblank as [E|E].
    - left. cbn in E. apply negb_true_iff, negb_false_iff, String.eqb_eq in E. now subst t.
    - right. exists t. split; [reflexivity|]. now apply String.eqb_eq. }
  apply orb_false_iff in Eblank as (_ & Eblank).
  set (post := Post.mk _ _ _ _ _ _ _ _ _).
  destruct (Post.validate post) eqn:Hvalid.
  - right. right. exists t, post. split; [reflexivity|]. split.
    { intros E. rewrite E in Eblank. discriminate. }
    repeat (split; [reflexivity|]). split; [exact Hvalid|].
    unfold populate. cbn [users with_posts Post.author post].
    destruct (findById User._id (User._id (req_user req)) (users db)); cbn; auto.
  - right. left. cbn [fst snd code]. split; [reflexivity|]. split; [reflexivity|].
    exists t. split; [reflexivity|].
    unfold Post.validate, post in Hvalid. cbn [Post.text] in Hvalid.
    rewrite Eblank in Hvalid. cbn [negb andb] in Hvalid.
    now apply Nat.leb_gt in Hvalid.
Qed.

End PublishFacts.

(** ** Account deletion, the rest of the store *)

Lemma recount_list_inv (Q : list Post.t -> Prop) (date : Date) (l : list Post.t) (db : Db) :
  (forall p ps, In p l -> Q ps -> Q (saveLoaded Post._id (recounted date p) ps)) ->
  Forall (fun p => Post.validate p = true) l ->
  Q (posts db) ->
  Q (posts (snd (forEach l (recount date) db))).
Proof.
  intros Hstep Hl. revert db. induction Hl as [|p l Hp _ IH]; intros db HQ.
  - exact HQ.
  - cbn [forEach]. unfold bind at 1. rewrite (@recount_step date p db Hp).
    apply IH.
    + intros q ps Hq. apply Hstep. now right.
    + cbn [posts with_posts]. apply Hstep; [now left|exact HQ].
Qed.

Lemma delete_account_posts_inv (Q : list Post.t -> Prop) (req : Req) (db : Db) :
  Forall (fun p => Post.validate p = true) (posts db) ->
  Q (updateMany (likedBy (User._id (req_user req)))
       (stamped Post.touch (now req)
          (fun p => Post.set_likes
             (filter (fun like => negb (Nat.eqb (Like.user like) (User._id (req_user req))))
                     (Post.likes p)) p))
       (deleteMany (fun p => Nat.eqb (Post.author p) (User._id (req_user req))) (posts db))) ->
  (forall p ps,
     In p (updateMany (likedBy (User._id (req_user req)))
             (stamped Post.touch (now req)
                (fun p => Post.set_likes
                   (filter (fun like => negb (Nat.eqb (Like.user like)
                                                (User._id (req_user req))))
                           (Post.likes p)) p))
             (deleteMany (fun p => Nat.eqb (Post.author p) (User._id (req_user req)))
                (posts db))) ->
     Q ps ->
     Q (saveLoaded Post._id (recounted (now req) p) ps)) ->
  Q (posts (snd (delete_account req db))).
Proof.
  intros Hvalid HQ Hstep.
  set (userId := User._id (req_user req)) in *.
  unfold delete_account, route. fold userId.
  unfold bind at 1, modify at 1. unfold bind at 1, modify at 1.
  unfold bind at 1, gets at 1.
  set (db2 := with_posts _ (with_posts _ db)).
  assert (Hl : Forall (fun p => Post.validate p = true) (filter hasLikes (posts db2)))
    by apply valid_after_pull, Hvalid.
  pose proof (@recount_list_inv Q (now req) (filter hasLikes (posts db2)) db2) as Hinv.
  destruct (@recount_run (now req) (filter hasLikes (posts db2)) db2 Hl)
    as (db3 & E3 & Hu3 & Hc3 & Hm3 & Hv3).
  rewrite E3 in Hinv. cbn [snd] in Hinv.
  unfold bind at 1. rewrite E3.
  unfold bind at 1, modify at 1. unfold bind at 1, modify at 1.
  unfold bind at 1, gets at 1.
  set (db4 := with_users _ (with_users _ db3)).
  set (mine := filter _ (conversations db4)).
  destruct (forEach_teardown_run req userId mine db4) as (E5 & _ & Hp5).
  unfold bind at 1. rewrite E5.
  unfold bind, modify, ret. cbn [snd posts with_users]. rewrite Hp5.
  cbn [db4 posts with_users].
  apply Hinv; [|exact Hl|exact HQ].
  intros p ps Hp. apply Hstep. apply filter_In in Hp. exact (proj1 Hp).
Qed.

Lemma saveLoaded_ids (p : Post.t) (ps : list Post.t) :
  map Post._id (saveLoaded Post._id p ps) = map Post._id ps.
Proof.
  unfold saveLoaded, findByIdAndUpdate.
  induction ps as [|x ps IH]; cbn; [reflexivity|].
  destruct (Nat.eqb (Post._id x) (Post._id p)) eqn:E; cbn.
  - apply Nat.eqb_eq in E. now rewrite E.
  - now rewrite IH.
Qed.

(** X26. The posts after an account deletion.  In a store whose posts
    satisfy their schema, after DELETE /delete-account no stored post has
    the deleted user as author or among those who like it, and the posts
    that remain are, in the same order, those of the other authors. *)
Theorem delete_account_posts :
  forall (req : Req) (db : Db),
    Forall (fun p => Post.validate p = true) (posts db) ->
    Forall (fun p => Post.author p <> User._id (req_user req) /\
                     ~ In (User._id (req_user req)) (map Like.user (Post.likes p)))
           (posts (snd (delete_account req db))) /\
    map Post._id (posts (snd (delete_account req db))) =
      map Post._id
        (filter (fun p => negb (Nat.eqb (Post.author p) (User._id (req_user req))))
                (posts db)).
Proof.
  intros req db Hvalid.
  set (userId := User._id (req_user req)).
  set (strip := stamped Post.touch (now req)
                  (fun p : Post.t =>
                     Post.set_likes
                       (filter (fun like => negb (Nat.eqb (Like.user like) userId))
                               (Post.likes p))
                       p)).
  assert (Hclean : Forall (fun p => Post.author p <> userId /\
                                    ~ In userId (map Like.user (Post.likes p)))
                     (updateMany (likedBy userId) strip
                        (deleteMany (fun p => Nat.eqb (Post.author p) userId) (posts db)))).
  { apply Forall_forall. intros p Hp. unfold updateMany in Hp.
    apply in_map_iff in Hp as (p0 & <- & Hp0).
    apply filter_In in Hp0 as (_ & Ha). apply negb_true_iff, Nat.eqb_neq in Ha.
    destruct (likedBy userId p0) eqn:El.
    - split; [exact Ha|]. unfold strip, stamped.
      cbn [Post.touch Post.set_likes Post.likes].
      intros Hin. apply in_map_iff in Hin as (like & E & Hin).
      apply filter_In in Hin as (_ & Hne).
      apply negb_true_iff, Nat.eqb_neq in Hne. contradiction.
    - split; [exact Ha|]. intros Hin. apply likers_existsb in Hin.
      unfold likedBy in El. congruence. }
  split.
  - apply (@delete_account_posts_inv
             (Forall (fun p => Post.author p <> userId /\
                               ~ In userId (map Like.user (Post.likes p)))) req db Hvalid).
    + exact Hclean.
    + intros p ps Hp Hps. apply saveLoaded_Forall; [|exact Hps].
      rewrite Forall_forall in Hclean. specialize (Hclean p Hp).
      unfold recounted. now destruct (Z.eqb _ _).
  - apply (@delete_account_posts_inv
             (fun ps => map Post._id ps =
                        map Post._id
                          (filter (fun p => negb (Nat.eqb (Post.author p) userId)) (posts db)))
             req db Hvalid).
    + unfold updateMany, deleteMany. rewrite map_map. apply map_ext.
      intros p. now destruct (likedBy _ p).
    + intros p ps _ Hps. now rewrite saveLoaded_ids.
Qed.

Lemma delete_account_posts_witness :
  Forall (fun p => Post.author p <> 3 /\ ~ In 3 (map Like.user (Post.likes p)))
         (posts (snd (delete_account (Sample.request Sample.carol) Sample.liked_db))) /\
  map Post._id (posts (snd (delete_account (Sample.request Sample.carol) Sample.liked_db))) =
    map Post._id (filter (fun p => negb (Nat.eqb (Post.author p) 3)) (posts Sample.liked_db)).
Proof.
  apply (@delete_account_posts (Sample.request Sample.carol) Sample.liked_db).
  repeat constructor.
Defined.

Lemma findById_unique (Doc : Type) (id_of : Doc -> ObjectId) (c : list Doc) (d : Doc) :
  NoDup (map id_of c) -> In d c -> findById id_of (id_of d) c = Some d.
Proof.
  unfold findById. induction c as [|x c IH]; cbn; intros Hnd Hin; [destruct Hin|].
  inversion Hnd as [|? ? Hx Hc]; subst.
  destruct Hin as [->|Hin].
  - now rewrite Nat.eqb_refl.
  - destruct (Nat.eqb (id_of x) (id_of d)) eqn:E; [|auto].
    apply Nat.eqb_eq in E. exfalso. apply Hx. rewrite E. now apply in_map.
Qed.

(** X27. The users after an account deletion.  In a store whose users
    have distinct identifiers and whose posts satisfy their schema, after
    DELETE /delete-account the deleted user is no longer found, no stored
    user has the deleted user as follower or as followed, and every other
    user is still stored, with the same followers and followed users but
    for the deleted one. *)
Theorem delete_account_users :
  forall (req : Req) (db : Db),
    NoDup (map User._id (users db)) ->
    Forall (fun p => Post.validate p = true) (posts db) ->
    findById User._id (User._id (req_user req)) (users (snd (delete_account req db))) = None /\
    (forall u', In u' (users (snd (delete_account req db))) ->
       User._id u' <> User._id (req_user req) /\
       ~ In (User._id (req_user req)) (User.following u') /\
       ~ In (User._id (req_user req)) (User.followers u') /\
       exists u, findById User._id (User._id u') (users db) = Some u /\
                 User.following u' = pull (User._id (req_user req)) (User.following u) /\
                 User.followers u' = pull (User._id (req_user req)) (User.followers u)) /\
    (forall a, a <> User._id (req_user req) ->
       findById User._id a (users db) <> None ->
       findById User._id a (users (snd (delete_account req db))) <> None).
Proof.
  intros req db Hnd Hvalid.
  destruct (@delete_account_run req db Hvalid) as (us & ps & _ & Hrun & Hus).
  rewrite Hrun. cbn [snd users with_users].
  rewrite (proj1 (proj2 (@forEach_teardown_run req (User._id (req_user req)) _ _))).
  cbn [users]. subst us.
  set (userId := User._id (req_user req)).
  split; [|split].
  - destruct (findById User._id userId _) as [u'|] eqn:E; [|reflexivity].
    apply (@scrubbed_find (now req) userId _ Hnd) in E. destruct E as (E & _). contradiction.
  - intros u' Hin.
    pose proof (@findById_unique _ User._id _ _ (@scrubbed_unique (now req) userId _ Hnd) Hin)
      as Hfind.
    destruct (@scrubbed_find (now req) userId _ Hnd _ _ Hfind)
      as (Hne & u & Hu & Hfollowing & Hfollowers).
    split; [exact Hne|]. split; [|split].
    + rewrite Hfollowing. intros H. apply pull_In in H. now destruct H.
    + rewrite Hfollowers. intros H. apply pull_In in H. now destruct H.
    + eauto.
  - intros a Hne Hstored. now apply scrubbed_stored.
Qed.

Lemma delete_account_users_witness :
  findById User._id 1 (users (snd (delete_account (Sample.request Sample.alice) Sample.db)))
    = None /\
  (forall u', In u' (users (snd (delete_account (Sample.request Sample.alice) Sample.db))) ->
     User._id u' <> 1 /\
     ~ In 1 (User.following u') /\
     ~ In 1 (User.followers u') /\
     exists u, findById User._id (User._id u') (users Sample.db) = Some u /\
               User.following u' = pull 1 (User.following u) /\
               User.followers u' = pull 1 (User.followers u)) /\
  (forall a, a <> 1 ->
     findById User._id a (users Sample.db) <> None ->
     findById User._id a (users (snd (delete_account (Sample.request Sample.alice) Sample.db)))
       <> None).
Proof.
  apply (@delete_account_users (Sample.request Sample.alice) Sample.db).
  - cbn. repeat constructor; cbn; intuition discriminate.
  - constructor.
Defined.

(** X28. The conversations and messages after an account deletion.  In
    a well-formed store, after DELETE /delete-account no stored
    conversation has the deleted user among its participants, and every
    stored message sent by the deleted user is flagged as deleted, so that
    no history shows it. *)
Theorem delete_account_leaves_no_trace :
  forall (req : Req) (db : Db),
    Db_wf db ->
    (forall c', In c' (conversations (snd (delete_account req db))) ->
       ~ In (User._id (req_user req)) (Conversation.participants c')) /\
    (forall m, In m (messages (snd (delete_account req db))) ->
       Message.sender m = User._id (req_user req) ->
       Message.isDeleted m = true).
Proof.
  intros req db Hwf.
  destruct (@delete_account_run req db (wf_posts Hwf)) as (us & ps & _ & Hrun & _).
  rewrite Hrun. cbn [snd conversations messages with_users].
  set (userId := User._id (req_user req)).
  set (db4 := mkDb us ps (conversations db) (messages db)).
  assert (Hnd : NoDup (map Conversation._id (conversations db4)))
    by exact (wf_conversation_ids Hwf).
  split.
  - intros c' Hin.
    destruct (@conversations_after req userId db4 Hnd c' Hin)
      as [(_ & Hno) | (c & _ & _ & ->)].
    + intros H. apply includes_In in H. congruence.
    + cbn [Conversation.touch Conversation.set_participants Conversation.participants].
      intros H. apply pull_In in H. now destruct H.
  - intros m Hin Hsender.
    destruct (@messages_after req userId db4 Hnd m Hin)
      as [(Hout & Hm) | (c & m0 & _ & _ & _ & _ & _ & ->)].
    + destruct (Message.isDeleted m) eqn:Hdel; [reflexivity|]. exfalso.
      destruct (@wf_senders db Hwf m Hm Hdel) as (c & Hc & Hid & Hpart).
      apply Hout. rewrite <- Hid. apply in_map. apply filter_In.
      split; [exact Hc|]. apply includes_In. now rewrite <- Hsender.
    + unfold redact in *.
      destruct (Nat.eqb (Message.sender m0) userId) eqn:E; [reflexivity|].
      apply Nat.eqb_neq in E. contradiction.
Qed.

Lemma delete_account_leaves_no_trace_witness :
  (forall c', In c' (conversations (snd (delete_account (Sample.request Sample.alice)
                                           Sample.trio_db))) ->
     ~ In 1 (Conversation.participants c')) /\
  (forall m, In m (messages (snd (delete_account (Sample.request Sample.alice)
                                    Sample.trio_db))) ->
     Message.sender m = 1 -> Message.isDeleted m = true).
Proof.
  apply (@delete_account_leaves_no_trace (Sample.request Sample.alice) Sample.trio_db).
  exact sample_trio_db_wf.
Defined.

(** ** Stores reached by requests *)

(** X29. Requests keep the store well-formed, and a well-formed store
    serves every history.  Starting from a well-formed store, after any
    sequence of requests to the handlers of [step] the store is
    well-formed, and GET /conversation/:conversationId/messages, asked by a
    participant of a stored conversation with a page and limit that the
    store accepts, answers 200: no message that it has to show has lost
    its sender. *)
Theorem reachable_store_serves_history :
  forall (db db' : Db) (req : Req) (conversationId : ObjectId) (page limit : nat)
         (conversation : Conversation.t),
    Db_wf db -> steps db db' ->
    findById Conversation._id conversationId (conversations db') = Some conversation ->
    includes (User._id (req_user req)) (Conversation.participants conversation) = true ->
    (page =? 0) && negb (limit =? 0) = false ->
    Db_wf db' /\
    exists out, get_messages req conversationId page limit db' = (json 200 (JMessages out), db').
Proof.
  intros db db' req conversationId page limit conversation Hwf Hsteps Hfind Hpart Hpage.
  pose proof (steps_wf Hwf Hsteps) as Hwf'.
  split; [exact Hwf'|].
  rewrite (@get_messages_run req conversationId page limit db' _ Hfind Hpart Hpage).
  destruct (@mapM_total _ _
              (formatMessage req (fun s => Nat.eqb (User._id s) (User._id (req_user req)))
                 (users db'))
              (rev (findMessages conversationId page limit (messages db'))))
    as (out & -> & _); [|eauto].
  intros m Hm. apply in_rev, findMessages_In in Hm. destruct Hm as (Hin & Hc & Hd).
  pose proof (@wf_senders_resolve db' conversationId Hwf' m Hin Hc Hd) as Hs.
  unfold formatMessage, populate.
  now destruct (findById User._id (Message.sender m) (users db')).
Qed.

Lemma reachable_store_serves_history_witness :
  Db_wf (snd (delete_account (Sample.request Sample.carol)
                (snd (post_message (Sample.request Sample.alice) Sample.form_1000 Sample.db))))
  /\
  exists out,
    get_messages (Sample.request Sample.bob) 5 1 50
      (snd (delete_account (Sample.request Sample.carol)
              (snd (post_message (Sample.request Sample.alice) Sample.form_1000 Sample.db)))) =
    (json 200 (JMessages out),
     snd (delete_account (Sample.request Sample.carol)
            (snd (post_message (Sample.request Sample.alice) Sample.form_1000 Sample.db)))).
Proof.
  apply (@reachable_store_serves_history Sample.db _ (Sample.request Sample.bob) 5 1 50
           (Conversation.mk 5 [1; 2] (Some 99) 1000 1000) sample_db_wf).
  - apply steps_more with
      (db1 := snd (post_message (Sample.request Sample.alice) Sample.form_1000 Sample.db)).
    + apply steps_more with (db1 := Sample.db); [apply steps_none|apply step_send].
    + apply step_delete_account.
  - vm_compute. reflexivity.
  - reflexivity.
  - reflexivity.
Defined.

(** ** The lists of followers and followed users *)

(** X30. A follow shows in both lists.  In a store whose users have
    distinct identifiers, after POST /follow/:username has succeeded, GET
    /followers/:username lists the requester among the followers of the
    followed user, and GET /following/ of the requester's name lists the
    followed user, whoever asks. *)
Theorem follow_shows_in_lists :
  forall (req req2 : Req) (username myname : string) (db : Db) (target currentUser : User.t),
    NoDup (map User._id (users db)) ->
    findOne (fun u => String.eqb (User.username u) username) (users db) = Some target ->
    findOne (fun u => String.eqb (User.username u) myname) (users db) = Some currentUser ->
    User._id currentUser = User._id (req_user req) ->
    User._id target <> User._id (req_user req) ->
    includes (User._id target) (User.following currentUser) = false ->
    (exists l, get_followers req2 username (snd (post_follow req username db)) =
                 answer 200 (VUsers l) /\
               In (User._id (req_user req)) (map uv_id l)) /\
    (exists l, get_following req2 myname (snd (post_follow req username db)) =
                 answer 200 (VUsers l) /\
               In (User._id target) (map uv_id l)).
Proof.
  intros req req2 username myname db target currentUser Hnd Htarget Hme Eme Hne Hnot.
  set (r := User._id (req_user req)) in *.
  set (t := User._id target) in *.
  assert (Hin_t : In target (users db)) by (apply find_some in Htarget; tauto).
  assert (Hin_r : In currentUser (users db)) by (apply find_some in Hme; tauto).
  pose proof (findById_unique User._id _ _ Hnd Hin_t) as Hft. fold t in Hft.
  pose proof (findById_unique User._id _ _ Hnd Hin_r) as Hfr. rewrite Eme in Hfr.
  rewrite (@post_follow_run req username db target currentUser Htarget Hfr Hne Hnot).
  cbn [snd]. fold r t.
  set (f := stamped User.touch (now req) (User.set_following (addToSet t))).
  set (g := stamped User.touch (now req) (User.set_followers (addToSet r))).
  set (us' := findByIdAndUpdate User._id t g (findByIdAndUpdate User._id r f (users db))).
  assert (Hids : map User._id us' = map User._id (users db)).
  { unfold us', findByIdAndUpdate.
    rewrite (ids_updateOne User._id), (ids_updateOne User._id); auto. }
  assert (Hnd' : NoDup (map User._id us')) by now rewrite Hids.
  assert (Hft' : findById User._id t us' = Some (g target)).
  { unfold us'. rewrite (findById_update User._id t t g); [|reflexivity].
    rewrite Nat.eqb_refl.
    rewrite (findById_update User._id r t f); [|reflexivity].
    apply Nat.eqb_neq in Hne. rewrite Hne, Hft. reflexivity. }
  assert (Hfr' : findById User._id r us' = Some (f currentUser)).
  { unfold us'. rewrite (findById_update User._id t r g); [|reflexivity].
    assert (E : Nat.eqb r t = false) by (apply Nat.eqb_neq; congruence).
    rewrite E.
    rewrite (findById_update User._id r r f); [|reflexivity].
    rewrite Nat.eqb_refl, Hfr. reflexivity. }
  assert (Hname : forall (name : string) (d : User.t),
            findOne (fun u => String.eqb (User.username u) name) (users db) = Some d ->
            exists d', findOne (fun u => String.eqb (User.username u) name) us' = Some d' /\
                       findById User._id (User._id d) us' = Some d').
  { intros name d Hd.
    destruct (@findOne_after_two_updates name r t f g (users db) d) as (d' & Hd' & Eid);
      try reflexivity; [exact Hd|].
    exists d'. split; [exact Hd'|].
    rewrite <- Eid. apply findById_unique; [exact Hnd'|].
    apply find_some in Hd'. tauto. }
  split.
  - destruct (Hname username target Htarget) as (d' & Hd' & Hfd'). fold t in Hfd'.
    rewrite Hft' in Hfd'. injection Hfd' as <-.
    unfold get_followers. cbn [users]. fold us'. rewrite Hd'.
    eexists. split; [reflexivity|].
    rewrite map_map. apply in_map_iff. exists (f currentUser).
    split; [cbn; exact Eme|].
    apply populateMany_In. exists r. split; [|exact Hfr'].
    apply includes_In. unfold g, stamped.
    cbn [User.touch User.set_followers User.followers].
    now rewrite includes_addToSet, Nat.eqb_refl.
  - destruct (Hname myname currentUser Hme) as (d' & Hd' & Hfd').
    rewrite Eme in Hfd'. fold r in Hfd'. rewrite Hfr' in Hfd'. injection Hfd' as <-.
    unfold get_following. cbn [users]. fold us'. rewrite Hd'.
    eexists. split; [reflexivity|].
    rewrite map_map. apply in_map_iff. exists (g target).
    split; [reflexivity|].
    apply populateMany_In. exists t. split; [|exact Hft'].
    apply includes_In. unfold f, stamped.
    cbn [User.touch User.set_following User.following].
    now rewrite includes_addToSet, Nat.eqb_refl.
Qed.

Lemma follow_shows_in_lists_witness :
  (exists l, get_followers (Sample.request Sample.alice) "dave"
               (snd (post_follow (Sample.request Sample.carol) "dave" Sample.db)) =
               answer 200 (VUsers l) /\
             In 3 (map uv_id l)) /\
  (exists l, get_following (Sample.request Sample.alice) "carol"
               (snd (post_follow (Sample.request Sample.carol) "dave" Sample.db)) =
               answer 200 (VUsers l) /\
             In 4 (map uv_id l)).
Proof.
  apply (@follow_shows_in_lists (Sample.request Sample.carol) (Sample.request Sample.alice)
           "dave" "carol" Sample.db Sample.dave Sample.carol).
  - cbn. repeat constructor; cbn; intuition discriminate.
  - reflexivity.
  - reflexivity.
  - reflexivity.
  - discriminate.
  - reflexivity.
Defined.

(** ** The likes of a post, by pages *)

Lemma sorted_sublists (A : Type) (R : A -> A -> Prop) (l1 l2 : list A) :
  StronglySorted R (l1 ++ l2) -> StronglySorted R l1 /\ StronglySorted R l2.
Proof.
  induction l1 as [|x l1 IH]; cbn; intros H.
  - split; [constructor|exact H].
  - inversion H as [|? ? Hs Hx]; subst. destruct (IH Hs) as (H1 & H2).
    split; [|exact H2]. constructor; [exact H1|].
    rewrite Forall_app in Hx. tauto.
Qed.

(** X6. A page of the likes of a post.  For a stored post whose likes are
    of stored users, GET /:id/likes answers 200 with the counter of the
    post as total and the page asked for; the entries are likes of the
    post, each with its user and date, most recent first; a page from 1 on
    holds [limit] of them, or those left after the pages before it when
    there are fewer; and [hasMore] tells whether likes remain after the
    page. *)
Theorem get_likes_page :
  forall (req : Req) (postId : ObjectId) (page limit : nat) (db : Db) (p : Post.t),
    findById Post._id postId (posts db) = Some p ->
    (forall like, In like (Post.likes p) ->
                  findById User._id (Like.user like) (users db) <> None) ->
    exists (shown : list Like.t) (likesData : list LikeView),
      get_likes req postId page limit db =
        answer 200 (VLikes likesData (Post.likesCount p) page
                      ((if page =? 0 then 0 else page * limit) <? List.length (Post.likes p))) /\
      Forall2 (fun like lv => uv_id (lv_user lv) = Like.user like /\
                              lv_likedAt lv = Like.createdAt like) shown likesData /\
      incl shown (Post.likes p) /\
      StronglySorted (fun x y => Like.createdAt y <= Like.createdAt x) shown /\
      (0 < page ->
       List.length shown = Nat.min limit (List.length (Post.likes p) - (page - 1) * limit)).
Proof.
  intros req postId page limit db p Hfind Hlikers.
  unfold get_likes. rewrite Hfind.
  set (sorted := sort_by Like.createdAt (Post.likes p)).
  set (shown := if page =? 0 then [] else firstn limit (skipn ((page - 1) * limit) sorted)).
  assert (Hincl : incl shown (Post.likes p)).
  { intros x Hx. unfold shown in Hx. destruct (page =? 0); [destruct Hx|].
    apply (Permutation_in _ (sort_by_perm Like.createdAt (Post.likes p))).
    fold sorted. rewrite <- (firstn_skipn ((page - 1) * limit) sorted).
    apply in_or_app. right.
    rewrite <- (firstn_skipn limit (skipn _ sorted)). apply in_or_app. now left. }
  destruct (@mapM_total _ _
              (fun like => option_map (fun u => mkLikeView (userView req u) (Like.createdAt like))
                                      (populate (users db) (Like.user like)))
              shown) as (likesData & Hdata & Hrel).
  { intros like Hin. apply Hincl, Hlikers in Hin. unfold populate.
    now destruct (findById User._id (Like.user like) (users db)). }
  exists shown, likesData. rewrite Hdata. split; [|split; [|split; [|split]]].
  - destruct page as [|n]; [reflexivity|].
    cbn [Nat.eqb]. replace (S n - 1) with n by lia.
    replace (n * limit + limit) with (S n * limit) by lia. reflexivity.
  - eapply Forall2_impl; [|exact Hrel].
    intros like lv Hlv. unfold populate in Hlv.
    destruct (findById User._id (Like.user like) (users db)) as [u|] eqn:Eu; [|discriminate].
    injection Hlv as <-. cbn. split; [|reflexivity].
    apply findById_id in Eu. tauto.
  - exact Hincl.
  - unfold shown. destruct (page =? 0); [constructor|].
    pose proof (sort_by_sorted Like.createdAt (Post.likes p)) as Hs. fold sorted in Hs.
    rewrite <- (firstn_skipn ((page - 1) * limit) sorted) in Hs.
    apply sorted_sublists in Hs as (_ & Hs).
    rewrite <- (firstn_skipn limit (skipn _ sorted)) in Hs.
    now apply sorted_sublists in Hs as (Hs & _).
  - intros Hpage. unfold shown.
    assert (E : (page =? 0) = false) by (apply Nat.eqb_neq; lia).
    rewrite E, length_firstn, length_skipn. unfold sorted.
    now rewrite (Permutation_length (sort_by_perm Like.createdAt (Post.likes p))).
Qed.

Lemma get_likes_page_witness :
  exists (shown : list Like.t) (likesData : list LikeView),
    get_likes (Sample.request Sample.alice) 21 1 20 Sample.liked_db =
      answer 200 (VLikes likesData (Post.likesCount Sample.sunset) 1
                    ((if 1 =? 0 then 0 else 1 * 20) <? List.length (Post.likes Sample.sunset))) /\
    Forall2 (fun like lv => uv_id (lv_user lv) = Like.user like /\
                            lv_likedAt lv = Like.createdAt like) shown likesData /\
    incl shown (Post.likes Sample.sunset) /\
    StronglySorted (fun x y => Like.createdAt y <= Like.createdAt x) shown /\
    (0 < 1 ->
     List.length shown = Nat.min 20 (List.length (Post.likes Sample.sunset) - (1 - 1) * 20)).
Proof.
  apply (@get_likes_page (Sample.request Sample.alice) 21 1 20 Sample.liked_db Sample.sunset).
  - reflexivity.
  - intros like [<-|[]]. discriminate.
Defined.
